(** * litesdcard: SD card control and physical layer (sdcard/phy/sdphy.py)

    A shallow embedding of the Migen state machines of [sdphy.py]:
    the control orchestrator [SDCtrl], the configuration latch [SDPHYCFG],
    the bit sampler [SDPHYCMDRFB] and the command reader [SDPHYCMDR].

    Every synchronous module is a pair of functions over its registers:
    [comb] gives the combinational outputs of the current cycle and [next]
    the register values after the clock edge.  A Migen [Signal(w)] is a [Z]
    whose wrap-around is written with [trunc w]; one-bit signals are [bool].
    Signals driven by modules that are not in this file (CSR storages and
    their write strobes, the stream endpoints on the other side, the CRC
    engines of sdcard/core) are inputs of the cycle. *)

From Stdlib Require Import ZArith List Bool Lia.
Import ListNotations.
Open Scope Z_scope.

(** ** Migen signal helpers *)

(** Value kept by a [w]-bit signal. *)
Definition trunc (w v : Z) : Z := Z.land v (Z.ones w).

(** [x[lo:hi]] read as a value. *)
Definition slice (x lo hi : Z) : Z := Z.land (Z.shiftr x lo) (Z.ones (hi - lo)).

(** [x[lo:hi].eq(d)]: the slice is replaced, the other bits are kept. *)
Definition set_slice (x lo hi d : Z) : Z :=
  Z.lor (Z.land x (Z.lnot (Z.shiftl (Z.ones (hi - lo)) lo)))
        (Z.shiftl (trunc (hi - lo) d) lo).

Definition b2z (b : bool) : Z := if b then 1 else 0.

(** A list of statements executed in order on the next-value record:
    a later assignment to the same signal wins. *)
Definition stmts {R : Type} (fs : list (R -> R)) (n : R) : R :=
  fold_left (fun acc f => f acc) fs n.

(** [If(c, fs)] and [If(c, fs).Else(gs)]. *)
Definition If {R : Type} (c : bool) (fs : list (R -> R)) (n : R) : R :=
  if c then stmts fs n else n.
Definition IfElse {R : Type} (c : bool) (fs gs : list (R -> R)) (n : R) : R :=
  if c then stmts fs n else stmts gs n.

(** ** Stream constants (sdphy.py, lines 8-42) *)

Definition SDCARD_STREAM_CMD : Z := 0.
Definition SDCARD_STREAM_DATA : Z := 1.

Definition SDCARD_STREAM_READ : Z := 0.
Definition SDCARD_STREAM_WRITE : Z := 1.

Definition SDCARD_STREAM_XFER : Z := 0.
Definition SDCARD_STREAM_CFG_TIMEOUT_CMD_HH : Z := 1.
Definition SDCARD_STREAM_CFG_TIMEOUT_CMD_HL : Z := 2.
Definition SDCARD_STREAM_CFG_TIMEOUT_CMD_LH : Z := 3.
Definition SDCARD_STREAM_CFG_TIMEOUT_CMD_LL : Z := 4.
Definition SDCARD_STREAM_CFG_TIMEOUT_DATA_HH : Z := 5.
Definition SDCARD_STREAM_CFG_TIMEOUT_DATA_HL : Z := 6.
Definition SDCARD_STREAM_CFG_TIMEOUT_DATA_LH : Z := 7.
Definition SDCARD_STREAM_CFG_TIMEOUT_DATA_LL : Z := 8.
Definition SDCARD_STREAM_CFG_BLKSIZE_H : Z := 9.
Definition SDCARD_STREAM_CFG_BLKSIZE_L : Z := 10.
Definition SDCARD_STREAM_CFG_VOLTAGE : Z := 11.

Definition SDCARD_STREAM_STATUS_OK : Z := 0.
Definition SDCARD_STREAM_STATUS_TIMEOUT : Z := 1.
Definition SDCARD_STREAM_STATUS_DATAACCEPTED : Z := 2.
Definition SDCARD_STREAM_STATUS_CRCERROR : Z := 5.
Definition SDCARD_STREAM_STATUS_WRITEERROR : Z := 6.

Definition SDCARD_CTRL_DATA_TRANSFER_NONE : Z := 0.
Definition SDCARD_CTRL_DATA_TRANSFER_READ : Z := 1.
Definition SDCARD_CTRL_DATA_TRANSFER_WRITE : Z := 2.

Definition SDCARD_CTRL_RESPONSE_NONE : Z := 0.
Definition SDCARD_CTRL_RESPONSE_SHORT : Z := 1.
Definition SDCARD_CTRL_RESPONSE_LONG : Z := 2.

(** ** SDCtrl: the control orchestrator (sdphy.py, lines 44-322) *)

Module SDCtrl.

Inductive fsm_state : Type :=
| IDLE
| CFG_TIMEOUT_DATA
| CFG_TIMEOUT_CMD
| CFG_BLKSIZE
| CFG_VOLTAGE
| SEND_CMD
| RECV_RESP
| RECV_DATA
| SEND_DATA.

Definition fsm_eqb (a b : fsm_state) : bool :=
  match a, b with
  | IDLE, IDLE | CFG_TIMEOUT_DATA, CFG_TIMEOUT_DATA
  | CFG_TIMEOUT_CMD, CFG_TIMEOUT_CMD | CFG_BLKSIZE, CFG_BLKSIZE
  | CFG_VOLTAGE, CFG_VOLTAGE | SEND_CMD, SEND_CMD | RECV_RESP, RECV_RESP
  | RECV_DATA, RECV_DATA | SEND_DATA, SEND_DATA => true
  | _, _ => false
  end.

(** The registers of the module: the FSM state, the signals written with
    [NextValue], and the two CSR status registers and the checker register
    the FSM writes. *)
Record regs : Type := mkRegs {
  fsm : fsm_state;
  csel : Z;                (* Signal(max=6) *)
  cmddone : bool;          (* Signal(reset=1) *)
  datadone : bool;         (* Signal(reset=1) *)
  blkcnt : Z;              (* Signal(16) *)
  pos : Z;                 (* Signal(2) *)
  cerrtimeout : bool;
  cerrcrc_en : bool;
  derrtimeout : bool;
  derrwrite : bool;
  derrread_en : bool;
  debug_status : Z;        (* self.debug.status, CSRStatus(32) *)
  response_status : Z;     (* self.response.status, CSRStatus(120) *)
  crc7checker_check : Z    (* self.crc7checker.check, 7 bits *)
}.

(** Signals read by the module in one cycle. *)
Record inputs : Type := mkInputs {
  argument_storage : Z;
  command_storage : Z;
  command_re : bool;
  datatimeout_storage : Z;
  datatimeout_re : bool;
  cmdtimeout_storage : Z;
  cmdtimeout_re : bool;
  voltage_storage : Z;
  voltage_re : bool;
  blocksize_storage : Z;
  blocksize_re : bool;
  blockcount_storage : Z;
  source_ready : bool;
  sink_valid : bool;
  sink_data : Z;
  sink_ctrl : Z;
  sink_last : bool;
  crc7_crc : Z;                    (* self.crc7.crc *)
  crc7checker_valid : bool;        (* self.crc7checker.valid *)
  crc16_source_valid : bool;       (* self.crc16.source *)
  crc16_source_data : Z;
  crc16_source_last : bool;
  crc16checker_sink_ready : bool;  (* self.crc16checker.sink.ready *)
  crc16checker_valid : bool        (* self.crc16checker.valid *)
}.

(** Signals driven by the module in one cycle. *)
Record outputs : Type := mkOutputs {
  source_valid : bool;
  source_data : Z;
  source_last : bool;
  cmddata : Z;
  rdwr : Z;
  mode : Z;
  sink_ready : bool;
  crc16_source_ready : bool;
  crc16checker_sink_valid : bool;
  crc16checker_sink_data : Z;
  crc16checker_sink_last : bool
}.

Definition reset : regs :=
  {| fsm := IDLE; csel := 0; cmddone := true; datadone := true; blkcnt := 0;
     pos := 0; cerrtimeout := false; cerrcrc_en := false;
     derrtimeout := false; derrwrite := false; derrread_en := false;
     debug_status := 0; response_status := 0; crc7checker_check := 0 |}.

(** *** Combinational signals of lines 91-105 *)

Definition waitresp (i : inputs) : Z := slice (command_storage i) 0 2.
Definition dataxfer (i : inputs) : Z := slice (command_storage i) 5 7.
Definition status (i : inputs) : Z := slice (sink_ctrl i) 1 5.

(** [Cat(cmddone, C(0, 1), cerrtimeout, cerrcrc_en & ~crc7checker.valid)] *)
Definition cmdevt_status (r : regs) (i : inputs) : Z :=
  b2z (cmddone r)
  + 4 * b2z (cerrtimeout r)
  + 8 * b2z (cerrcrc_en r && negb (crc7checker_valid i)).

(** [Cat(datadone, derrwrite, derrtimeout, derrread_en & ~crc16checker.valid)] *)
Definition dataevt_status (r : regs) (i : inputs) : Z :=
  b2z (datadone r)
  + 2 * b2z (derrwrite r)
  + 4 * b2z (derrtimeout r)
  + 8 * b2z (derrread_en r && negb (crc16checker_valid i)).

(** [self.source.ctrl.eq(Cat(cmddata, rdwr, mode))] *)
Definition source_ctrl (o : outputs) : Z :=
  trunc 8 (trunc 1 (cmddata o) + 2 * trunc 1 (rdwr o) + 4 * trunc 6 (mode o)).

(** *** Register assignments ([NextValue], [NextState]) *)

Definition NextState (v : fsm_state) (n : regs) : regs :=
  mkRegs v (csel n) (cmddone n) (datadone n) (blkcnt n) (pos n)
    (cerrtimeout n) (cerrcrc_en n) (derrtimeout n) (derrwrite n)
    (derrread_en n) (debug_status n) (response_status n) (crc7checker_check n).
Definition Next_csel (v : Z) (n : regs) : regs :=
  mkRegs (fsm n) (trunc 3 v) (cmddone n) (datadone n) (blkcnt n) (pos n)
    (cerrtimeout n) (cerrcrc_en n) (derrtimeout n) (derrwrite n)
    (derrread_en n) (debug_status n) (response_status n) (crc7checker_check n).
Definition Next_cmddone (v : bool) (n : regs) : regs :=
  mkRegs (fsm n) (csel n) v (datadone n) (blkcnt n) (pos n)
    (cerrtimeout n) (cerrcrc_en n) (derrtimeout n) (derrwrite n)
    (derrread_en n) (debug_status n) (response_status n) (crc7checker_check n).
Definition Next_datadone (v : bool) (n : regs) : regs :=
  mkRegs (fsm n) (csel n) (cmddone n) v (blkcnt n) (pos n)
    (cerrtimeout n) (cerrcrc_en n) (derrtimeout n) (derrwrite n)
    (derrread_en n) (debug_status n) (response_status n) (crc7checker_check n).
Definition Next_blkcnt (v : Z) (n : regs) : regs :=
  mkRegs (fsm n) (csel n) (cmddone n) (datadone n) (trunc 16 v) (pos n)
    (cerrtimeout n) (cerrcrc_en n) (derrtimeout n) (derrwrite n)
    (derrread_en n) (debug_status n) (response_status n) (crc7checker_check n).
Definition Next_pos (v : Z) (n : regs) : regs :=
  mkRegs (fsm n) (csel n) (cmddone n) (datadone n) (blkcnt n) (trunc 2 v)
    (cerrtimeout n) (cerrcrc_en n) (derrtimeout n) (derrwrite n)
    (derrread_en n) (debug_status n) (response_status n) (crc7checker_check n).
Definition Next_cerrtimeout (v : bool) (n : regs) : regs :=
  mkRegs (fsm n) (csel n) (cmddone n) (datadone n) (blkcnt n) (pos n)
    v (cerrcrc_en n) (derrtimeout n) (derrwrite n)
    (derrread_en n) (debug_status n) (response_status n) (crc7checker_check n).
Definition Next_cerrcrc_en (v : bool) (n : regs) : regs :=
  mkRegs (fsm n) (csel n) (cmddone n) (datadone n) (blkcnt n) (pos n)
    (cerrtimeout n) v (derrtimeout n) (derrwrite n)
    (derrread_en n) (debug_status n) (response_status n) (crc7checker_check n).
Definition Next_derrtimeout (v : bool) (n : regs) : regs :=
  mkRegs (fsm n) (csel n) (cmddone n) (datadone n) (blkcnt n) (pos n)
    (cerrtimeout n) (cerrcrc_en n) v (derrwrite n)
    (derrread_en n) (debug_status n) (response_status n) (crc7checker_check n).
Definition Next_derrwrite (v : bool) (n : regs) : regs :=
  mkRegs (fsm n) (csel n) (cmddone n) (datadone n) (blkcnt n) (pos n)
    (cerrtimeout n) (cerrcrc_en n) (derrtimeout n) v
    (derrread_en n) (debug_status n) (response_status n) (crc7checker_check n).
Definition Next_derrread_en (v : bool) (n : regs) : regs :=
  mkRegs (fsm n) (csel n) (cmddone n) (datadone n) (blkcnt n) (pos n)
    (cerrtimeout n) (cerrcrc_en n) (derrtimeout n) (derrwrite n)
    v (debug_status n) (response_status n) (crc7checker_check n).
Definition Next_debug_status (v : Z) (n : regs) : regs :=
  mkRegs (fsm n) (csel n) (cmddone n) (datadone n) (blkcnt n) (pos n)
    (cerrtimeout n) (cerrcrc_en n) (derrtimeout n) (derrwrite n)
    (derrread_en n) (trunc 32 v) (response_status n) (crc7checker_check n).
Definition Next_response_status (v : Z) (n : regs) : regs :=
  mkRegs (fsm n) (csel n) (cmddone n) (datadone n) (blkcnt n) (pos n)
    (cerrtimeout n) (cerrcrc_en n) (derrtimeout n) (derrwrite n)
    (derrread_en n) (debug_status n) (trunc 120 v) (crc7checker_check n).
Definition Next_crc7checker_check (v : Z) (n : regs) : regs :=
  mkRegs (fsm n) (csel n) (cmddone n) (datadone n) (blkcnt n) (pos n)
    (cerrtimeout n) (cerrcrc_en n) (derrtimeout n) (derrwrite n)
    (derrread_en n) (debug_status n) (response_status n) (trunc 7 v).


(** *** Combinational outputs of each [fsm.act] block *)

Definition quiet : outputs :=
  {| source_valid := false; source_data := 0; source_last := false;
     cmddata := 0; rdwr := 0; mode := 0; sink_ready := false;
     crc16_source_ready := false; crc16checker_sink_valid := false;
     crc16checker_sink_data := 0; crc16checker_sink_last := false |}.

(** [ccases]: the six bytes of a command frame (lines 107-114). *)
Definition ccases_data (c : Z) (i : inputs) : Z :=
  if c =? 0 then trunc 8 (slice (command_storage i) 8 14 + 64)
  else if c =? 1 then slice (argument_storage i) 24 32
  else if c =? 2 then slice (argument_storage i) 16 24
  else if c =? 3 then slice (argument_storage i) 8 16
  else if c =? 4 then slice (argument_storage i) 0 8
  else if c =? 5 then trunc 8 (1 + 2 * trunc 7 (crc7_crc i))
  else 0.

Definition ccases_last (c : Z) (i : inputs) : bool :=
  (c =? 5) && (waitresp i =? SDCARD_CTRL_RESPONSE_NONE).

(** [dtcases], [ctcases] (lines 140-151): [pos] is a 2-bit signal, so the
    four cases cover it. *)
Definition timeout_byte (storage p : Z) : Z :=
  slice storage (24 - 8 * p) (32 - 8 * p).

(** [blkcases] (lines 152-157): only [pos] 0 and 1 have a case. *)
Definition blkcases_data (p : Z) (i : inputs) : Z :=
  if (p =? 0) || (p =? 1)
  then slice (blocksize_storage i) (8 - 8 * p) (16 - 8 * p) else 0.
Definition blkcases_mode (p : Z) : Z :=
  if (p =? 0) || (p =? 1) then SDCARD_STREAM_CFG_BLKSIZE_H + p else 0.

Definition comb (r : regs) (i : inputs) : outputs :=
  match fsm r with
  | IDLE => quiet
  | CFG_TIMEOUT_DATA =>
      {| source_valid := true;
         source_data := timeout_byte (datatimeout_storage i) (pos r);
         source_last := false;
         cmddata := 0; rdwr := 0;
         mode := SDCARD_STREAM_CFG_TIMEOUT_DATA_HH + pos r;
         sink_ready := false; crc16_source_ready := false;
         crc16checker_sink_valid := false; crc16checker_sink_data := 0;
         crc16checker_sink_last := false |}
  | CFG_TIMEOUT_CMD =>
      {| source_valid := true;
         source_data := timeout_byte (cmdtimeout_storage i) (pos r);
         source_last := false;
         cmddata := 0; rdwr := 0;
         mode := SDCARD_STREAM_CFG_TIMEOUT_CMD_HH + pos r;
         sink_ready := false; crc16_source_ready := false;
         crc16checker_sink_valid := false; crc16checker_sink_data := 0;
         crc16checker_sink_last := false |}
  | CFG_BLKSIZE =>
      {| source_valid := true;
         source_data := blkcases_data (pos r) i;
         source_last := false;
         cmddata := 0; rdwr := 0;
         mode := blkcases_mode (pos r);
         sink_ready := false; crc16_source_ready := false;
         crc16checker_sink_valid := false; crc16checker_sink_data := 0;
         crc16checker_sink_last := false |}
  | CFG_VOLTAGE =>
      {| source_valid := true;
         source_data := slice (voltage_storage i) 0 8;
         source_last := false;
         cmddata := 0; rdwr := 0;
         mode := SDCARD_STREAM_CFG_VOLTAGE;
         sink_ready := false; crc16_source_ready := false;
         crc16checker_sink_valid := false; crc16checker_sink_data := 0;
         crc16checker_sink_last := false |}
  | SEND_CMD =>
      {| source_valid := true;
         source_data := ccases_data (csel r) i;
         source_last := ccases_last (csel r) i;
         cmddata := SDCARD_STREAM_CMD; rdwr := SDCARD_STREAM_WRITE;
         mode := SDCARD_STREAM_XFER;
         sink_ready := false; crc16_source_ready := false;
         crc16checker_sink_valid := false; crc16checker_sink_data := 0;
         crc16checker_sink_last := false |}
  | RECV_RESP =>
      {| source_valid := true;
         source_data :=
           if waitresp i =? SDCARD_CTRL_RESPONSE_SHORT then 5
           else if waitresp i =? SDCARD_CTRL_RESPONSE_LONG then 16
           else 0;
         source_last := (dataxfer i =? SDCARD_CTRL_DATA_TRANSFER_NONE);
         cmddata := SDCARD_STREAM_CMD; rdwr := SDCARD_STREAM_READ;
         mode := SDCARD_STREAM_XFER;
         sink_ready := sink_valid i;
         crc16_source_ready := false;
         crc16checker_sink_valid := false; crc16checker_sink_data := 0;
         crc16checker_sink_last := false |}
  | RECV_DATA =>
      let connect :=
        (slice (sink_ctrl i) 0 1 =? SDCARD_STREAM_DATA)
        && (status i =? SDCARD_STREAM_STATUS_OK) in
      let timeout :=
        sink_valid i && (status i =? SDCARD_STREAM_STATUS_TIMEOUT) in
      {| source_valid := true;
         source_data := 0;
         source_last := (blockcount_storage i =? blkcnt r);
         cmddata := SDCARD_STREAM_DATA; rdwr := SDCARD_STREAM_READ;
         mode := SDCARD_STREAM_XFER;
         sink_ready :=
           if timeout then true
           else if connect then crc16checker_sink_ready i else false;
         crc16_source_ready := false;
         crc16checker_sink_valid := if connect then sink_valid i else false;
         crc16checker_sink_data := if connect then sink_data i else 0;
         crc16checker_sink_last := if connect then sink_last i else false |}
  | SEND_DATA =>
      {| source_valid := crc16_source_valid i;
         source_data := crc16_source_data i;
         source_last := crc16_source_last i;
         cmddata := SDCARD_STREAM_DATA; rdwr := SDCARD_STREAM_WRITE;
         mode := SDCARD_STREAM_XFER;
         sink_ready := sink_valid i;
         crc16_source_ready := source_ready i;
         crc16checker_sink_valid := false; crc16checker_sink_data := 0;
         crc16checker_sink_last := false |}
  end.

(** The source frame is handed over in this cycle. *)
Definition source_fire (r : regs) (i : inputs) : bool :=
  source_valid (comb r i) && source_ready i.

(** *** The synchronous part: registers after the clock edge *)

(** The block counter update shared by RECV_DATA and SEND_DATA. *)
Definition advance_block (r : regs) (i : inputs) : regs -> regs :=
  IfElse (blkcnt r <? blockcount_storage i)
    [ Next_blkcnt (blkcnt r + 1) ]
    [ Next_blkcnt 0; Next_datadone true; NextState IDLE ].

Definition next (r : regs) (i : inputs) : regs :=
  match fsm r with
  | IDLE =>
      stmts
        [ Next_pos 0;
          IfElse (datatimeout_re i) [ NextState CFG_TIMEOUT_DATA ]
          [ IfElse (cmdtimeout_re i) [ NextState CFG_TIMEOUT_CMD ]
          [ IfElse (voltage_re i) [ NextState CFG_VOLTAGE ]
          [ IfElse (blocksize_re i) [ NextState CFG_BLKSIZE ]
          [ If (command_re i)
              [ Next_cmddone false;
                Next_cerrtimeout false;
                Next_cerrcrc_en false;
                Next_datadone false;
                Next_derrtimeout false;
                Next_derrwrite false;
                Next_derrread_en false;
                Next_debug_status 0;
                Next_response_status 0;
                NextState SEND_CMD ] ] ] ] ] ] r
  | CFG_TIMEOUT_DATA =>
      If (source_fire r i)
        [ Next_pos (pos r + 1);
          If (pos r =? 3) [ NextState IDLE ] ] r
  | CFG_TIMEOUT_CMD =>
      If (source_fire r i)
        [ Next_pos (pos r + 1);
          If (pos r =? 3) [ NextState IDLE ] ] r
  | CFG_BLKSIZE =>
      If (source_fire r i)
        [ Next_pos (pos r + 1);
          If (pos r =? 1) [ NextState IDLE ] ] r
  | CFG_VOLTAGE =>
      If (source_fire r i) [ NextState IDLE ] r
  | SEND_CMD =>
      If (source_fire r i)
        [ IfElse (csel r <? 5)
            [ Next_csel (csel r + 1) ]
            [ Next_csel 0;
              IfElse (waitresp i =? SDCARD_CTRL_RESPONSE_NONE)
                [ Next_cmddone true; NextState IDLE ]
                [ Next_cerrcrc_en true; NextState RECV_RESP ] ] ] r
  | RECV_RESP =>
      If (sink_valid i)
        [ If (slice (sink_ctrl i) 0 1 =? SDCARD_STREAM_CMD)
            [ IfElse (status i =? SDCARD_STREAM_STATUS_TIMEOUT)
                [ Next_cerrtimeout true;
                  Next_cmddone true;
                  Next_datadone true;
                  NextState IDLE ]
              [ IfElse (sink_last i)
                  [ Next_crc7checker_check (slice (sink_data i) 1 8);
                    Next_cmddone true;
                    IfElse (dataxfer i =? SDCARD_CTRL_DATA_TRANSFER_READ)
                      [ Next_derrread_en true; NextState RECV_DATA ]
                    [ IfElse (dataxfer i =? SDCARD_CTRL_DATA_TRANSFER_WRITE)
                        [ NextState SEND_DATA ]
                        [ Next_datadone true; NextState IDLE ] ] ]
                  [ Next_response_status
                      (trunc 8 (sink_data i)
                       + 256 * slice (response_status r) 0 112) ] ] ] ] r
  | RECV_DATA =>
      IfElse (sink_valid i && (status i =? SDCARD_STREAM_STATUS_TIMEOUT))
        [ Next_derrtimeout true;
          Next_blkcnt 0;
          Next_datadone true;
          NextState IDLE ]
        [ If (source_fire r i) [ advance_block r i ] ] r
  | SEND_DATA =>
      stmts
        [ If (crc16_source_valid i && crc16_source_last i
              && crc16_source_ready (comb r i))
            [ advance_block r i ];
          If (sink_valid i)
            [ Next_debug_status (status i);
              If (negb (status i =? SDCARD_STREAM_STATUS_DATAACCEPTED))
                [ Next_derrwrite true ] ] ] r
  end.

(** The machine run over a list of cycles. *)
Definition run (r : regs) (l : list inputs) : regs := fold_left next l r.

(** The command write of the IDLE block is taken in this cycle: the state
    is IDLE, [command.re] is set and no branch before it is taken. *)
Definition command_accepted (r : regs) (i : inputs) : bool :=
  fsm_eqb (fsm r) IDLE
  && negb (datatimeout_re i) && negb (cmdtimeout_re i)
  && negb (voltage_re i) && negb (blocksize_re i) && command_re i.

(** *** Traces *)

(** The cycles spent in the states selected by [p], each with the registers
    and the inputs of the cycle, and the registers at the first cycle
    outside these states (or at the end of the input). *)
Fixpoint during (p : fsm_state -> bool) (r : regs) (l : list inputs)
  : list (regs * inputs) * regs :=
  match l with
  | [] => ([], r)
  | i :: l' =>
      if p (fsm r)
      then let (tr, r') := during p (next r i) l' in ((r, i) :: tr, r')
      else ([], r)
  end.

Definition count (ev : regs * inputs -> bool) (tr : list (regs * inputs)) : nat :=
  length (filter ev tr).

(** A frame leaves through [source] in the cycle. *)
Definition fired (c : regs * inputs) : bool := source_fire (fst c) (snd c).

(** The payload and control tag of the source frame of the cycle. *)
Definition frame (c : regs * inputs) : Z * Z :=
  let o := comb (fst c) (snd c) in (source_data o, source_ctrl o).

(** The frames handed over during the cycles of [tr], in order. *)
Definition frames (tr : list (regs * inputs)) : list (Z * Z) :=
  map frame (filter fired tr).

(** The last byte of a block is taken by the CRC16 checker in the cycle. *)
Definition block_checked (c : regs * inputs) : bool :=
  let o := comb (fst c) (snd c) in
  crc16checker_sink_valid o && crc16checker_sink_last o
  && crc16checker_sink_ready (snd c).

(** The last byte of a block leaves the CRC16 generator in the cycle. *)
Definition block_sent (c : regs * inputs) : bool :=
  crc16_source_valid (snd c) && crc16_source_last (snd c)
  && crc16_source_ready (comb (fst c) (snd c)).

(** The sink carries a valid frame whose status is not DATA_ACCEPTED. *)
Definition bad_ack (i : inputs) : bool :=
  sink_valid i && negb (status i =? SDCARD_STREAM_STATUS_DATAACCEPTED).

(** The sink carries a valid frame whose status is TIMEOUT. *)
Definition timeout_frame (i : inputs) : bool :=
  sink_valid i && (status i =? SDCARD_STREAM_STATUS_TIMEOUT).

Definition in_state (st : fsm_state) (x : fsm_state) : bool := fsm_eqb x st.

(** The states in which a data transfer runs or a response is awaited. *)
Definition response_or_data (x : fsm_state) : bool :=
  match x with
  | RECV_RESP | RECV_DATA | SEND_DATA => true
  | _ => false
  end.

(** *** Event flags *)

(** The five flag registers behind the done, timeout and write-error bits,
    and the two enables that gate the crc-error bits. *)
Definition flag_registers : list (regs -> bool) :=
  [ cmddone; cerrtimeout; datadone; derrwrite; derrtimeout;
    cerrcrc_en; derrread_en ].

(** [f] keeps the value 1 over the clock edge of the cycle. *)
Definition latched (r : regs) (i : inputs) (f : regs -> bool) : Prop :=
  f r = true -> f (next r i) = true.

(** [f] reads 0 after the clock edge of the cycle. *)
Definition cleared (r : regs) (i : inputs) (f : regs -> bool) : Prop :=
  f (next r i) = false.

(** Bit 3 of [cmdevt] and of [dataevt]. *)
Definition cmd_crc_error (r : regs) (i : inputs) : bool :=
  Z.testbit (cmdevt_status r i) 3.
Definition data_crc_error (r : regs) (i : inputs) : bool :=
  Z.testbit (dataevt_status r i) 3.

(** *** Stream handshake *)

(** The states whose source frame is built from the host registers only. *)
Definition sends_registers (x : fsm_state) : bool :=
  match x with
  | CFG_TIMEOUT_DATA | CFG_TIMEOUT_CMD | CFG_BLKSIZE | CFG_VOLTAGE
  | SEND_CMD => true
  | _ => false
  end.

(** The host registers and the CRC7 of the command read the same in the
    two cycles. *)
Definition same_registers (i i' : inputs) : Prop :=
  argument_storage i' = argument_storage i
  /\ command_storage i' = command_storage i
  /\ datatimeout_storage i' = datatimeout_storage i
  /\ cmdtimeout_storage i' = cmdtimeout_storage i
  /\ voltage_storage i' = voltage_storage i
  /\ blocksize_storage i' = blocksize_storage i
  /\ crc7_crc i' = crc7_crc i.

(** The sink frame of the cycle ends the state whose request is on the
    source: in RECV_RESP a valid frame of the command channel that is a
    timeout or the last byte (lines 235-254), in RECV_DATA a valid frame
    with status TIMEOUT (lines 279-284). *)
Definition ends_request (r : regs) (i : inputs) : bool :=
  match fsm r with
  | RECV_RESP =>
      sink_valid i && (slice (sink_ctrl i) 0 1 =? SDCARD_STREAM_CMD)
      && ((status i =? SDCARD_STREAM_STATUS_TIMEOUT) || sink_last i)
  | RECV_DATA => sink_valid i && (status i =? SDCARD_STREAM_STATUS_TIMEOUT)
  | _ => false
  end.

(** What the source frame of state [x] is read from reads the same in the
    two cycles: the output of the CRC16 generator in SEND_DATA, the block
    count in RECV_DATA, the host registers and the CRC7 in the other
    states. *)
Definition same_source (x : fsm_state) (i i' : inputs) : Prop :=
  match x with
  | SEND_DATA =>
      crc16_source_valid i' = crc16_source_valid i
      /\ crc16_source_data i' = crc16_source_data i
      /\ crc16_source_last i' = crc16_source_last i
  | RECV_DATA => blockcount_storage i' = blockcount_storage i
  | _ => same_registers i i'
  end.

(** *** Input cycles used in examples *)

(** Every input signal low. *)
Definition low : inputs :=
  mkInputs 0 0 false 0 false 0 false 0 false 0 false 0 false false 0 0 false
    0 false false 0 false false false.

(** The argument and command registers, with the command write strobe. *)
Definition host_command (arg : Z) (cmd : Z) (re : bool) (i : inputs) : inputs :=
  mkInputs arg cmd re (datatimeout_storage i) (datatimeout_re i)
    (cmdtimeout_storage i) (cmdtimeout_re i) (voltage_storage i)
    (voltage_re i) (blocksize_storage i) (blocksize_re i)
    (blockcount_storage i) (source_ready i) (sink_valid i) (sink_data i)
    (sink_ctrl i) (sink_last i) (crc7_crc i) (crc7checker_valid i)
    (crc16_source_valid i) (crc16_source_data i) (crc16_source_last i)
    (crc16checker_sink_ready i) (crc16checker_valid i).
(** The datatimeout register and its write strobe. *)
Definition host_datatimeout (v : Z) (re : bool) (i : inputs) : inputs :=
  mkInputs (argument_storage i) (command_storage i) (command_re i) v re
    (cmdtimeout_storage i) (cmdtimeout_re i) (voltage_storage i)
    (voltage_re i) (blocksize_storage i) (blocksize_re i)
    (blockcount_storage i) (source_ready i) (sink_valid i) (sink_data i)
    (sink_ctrl i) (sink_last i) (crc7_crc i) (crc7checker_valid i)
    (crc16_source_valid i) (crc16_source_data i) (crc16_source_last i)
    (crc16checker_sink_ready i) (crc16checker_valid i).
(** The cmdtimeout register and its write strobe. *)
Definition host_cmdtimeout (v : Z) (re : bool) (i : inputs) : inputs :=
  mkInputs (argument_storage i) (command_storage i) (command_re i)
    (datatimeout_storage i) (datatimeout_re i) v re (voltage_storage i)
    (voltage_re i) (blocksize_storage i) (blocksize_re i)
    (blockcount_storage i) (source_ready i) (sink_valid i) (sink_data i)
    (sink_ctrl i) (sink_last i) (crc7_crc i) (crc7checker_valid i)
    (crc16_source_valid i) (crc16_source_data i) (crc16_source_last i)
    (crc16checker_sink_ready i) (crc16checker_valid i).
(** The voltage register and its write strobe. *)
Definition host_voltage (v : Z) (re : bool) (i : inputs) : inputs :=
  mkInputs (argument_storage i) (command_storage i) (command_re i)
    (datatimeout_storage i) (datatimeout_re i) (cmdtimeout_storage i)
    (cmdtimeout_re i) v re (blocksize_storage i) (blocksize_re i)
    (blockcount_storage i) (source_ready i) (sink_valid i) (sink_data i)
    (sink_ctrl i) (sink_last i) (crc7_crc i) (crc7checker_valid i)
    (crc16_source_valid i) (crc16_source_data i) (crc16_source_last i)
    (crc16checker_sink_ready i) (crc16checker_valid i).
(** The blocksize register and its write strobe. *)
Definition host_blocksize (v : Z) (re : bool) (i : inputs) : inputs :=
  mkInputs (argument_storage i) (command_storage i) (command_re i)
    (datatimeout_storage i) (datatimeout_re i) (cmdtimeout_storage i)
    (cmdtimeout_re i) (voltage_storage i) (voltage_re i) v re
    (blockcount_storage i) (source_ready i) (sink_valid i) (sink_data i)
    (sink_ctrl i) (sink_last i) (crc7_crc i) (crc7checker_valid i)
    (crc16_source_valid i) (crc16_source_data i) (crc16_source_last i)
    (crc16checker_sink_ready i) (crc16checker_valid i).
(** The blockcount register. *)
Definition host_blockcount (v : Z) (i : inputs) : inputs :=
  mkInputs (argument_storage i) (command_storage i) (command_re i)
    (datatimeout_storage i) (datatimeout_re i) (cmdtimeout_storage i)
    (cmdtimeout_re i) (voltage_storage i) (voltage_re i)
    (blocksize_storage i) (blocksize_re i) v (source_ready i) (sink_valid i)
    (sink_data i) (sink_ctrl i) (sink_last i) (crc7_crc i)
    (crc7checker_valid i) (crc16_source_valid i) (crc16_source_data i)
    (crc16_source_last i) (crc16checker_sink_ready i) (crc16checker_valid i).
(** [source.ready]. *)
Definition ready (b : bool) (i : inputs) : inputs :=
  mkInputs (argument_storage i) (command_storage i) (command_re i)
    (datatimeout_storage i) (datatimeout_re i) (cmdtimeout_storage i)
    (cmdtimeout_re i) (voltage_storage i) (voltage_re i)
    (blocksize_storage i) (blocksize_re i) (blockcount_storage i) b
    (sink_valid i) (sink_data i) (sink_ctrl i) (sink_last i) (crc7_crc i)
    (crc7checker_valid i) (crc16_source_valid i) (crc16_source_data i)
    (crc16_source_last i) (crc16checker_sink_ready i) (crc16checker_valid i).
(** A valid frame on [sink]. *)
Definition sink (d : Z) (c : Z) (l : bool) (i : inputs) : inputs :=
  mkInputs (argument_storage i) (command_storage i) (command_re i)
    (datatimeout_storage i) (datatimeout_re i) (cmdtimeout_storage i)
    (cmdtimeout_re i) (voltage_storage i) (voltage_re i)
    (blocksize_storage i) (blocksize_re i) (blockcount_storage i)
    (source_ready i) true d c l (crc7_crc i) (crc7checker_valid i)
    (crc16_source_valid i) (crc16_source_data i) (crc16_source_last i)
    (crc16checker_sink_ready i) (crc16checker_valid i).
(** The outputs of the two CRC checkers. *)
Definition checker (rdy : bool) (v7 : bool) (v16 : bool) (i : inputs) : inputs :=
  mkInputs (argument_storage i) (command_storage i) (command_re i)
    (datatimeout_storage i) (datatimeout_re i) (cmdtimeout_storage i)
    (cmdtimeout_re i) (voltage_storage i) (voltage_re i)
    (blocksize_storage i) (blocksize_re i) (blockcount_storage i)
    (source_ready i) (sink_valid i) (sink_data i) (sink_ctrl i)
    (sink_last i) (crc7_crc i) v7 (crc16_source_valid i)
    (crc16_source_data i) (crc16_source_last i) rdy v16.
(** A valid byte on the CRC16 generator source. *)
Definition generator (d : Z) (l : bool) (i : inputs) : inputs :=
  mkInputs (argument_storage i) (command_storage i) (command_re i)
    (datatimeout_storage i) (datatimeout_re i) (cmdtimeout_storage i)
    (cmdtimeout_re i) (voltage_storage i) (voltage_re i)
    (blocksize_storage i) (blocksize_re i) (blockcount_storage i)
    (source_ready i) (sink_valid i) (sink_data i) (sink_ctrl i)
    (sink_last i) (crc7_crc i) (crc7checker_valid i) true d l
    (crc16checker_sink_ready i) (crc16checker_valid i).

(** The five write strobes of the cycle replaced. *)
Definition strobes (dt ct vo bs cm : bool) (i : inputs) : inputs :=
  mkInputs (argument_storage i) (command_storage i) cm
    (datatimeout_storage i) dt (cmdtimeout_storage i) ct (voltage_storage i)
    vo (blocksize_storage i) bs (blockcount_storage i) (source_ready i)
    (sink_valid i) (sink_data i) (sink_ctrl i) (sink_last i) (crc7_crc i)
    (crc7checker_valid i) (crc16_source_valid i) (crc16_source_data i)
    (crc16_source_last i) (crc16checker_sink_ready i) (crc16checker_valid i).

(** *** Configuration writes *)

Definition is_cfg (x : fsm_state) : bool :=
  match x with
  | CFG_TIMEOUT_DATA | CFG_TIMEOUT_CMD | CFG_BLKSIZE | CFG_VOLTAGE => true
  | _ => false
  end.

(** The frames (payload, control tag) of a configuration write as the
    specification words them: four bytes for a 32-bit timeout, two for the
    block size, one for the voltage, most significant byte first, each
    tagged with the mode of its byte in bits 2..7 of the tag. *)
Definition cfg_frames (x : fsm_state) (h : inputs) : list (Z * Z) :=
  match x with
  | CFG_TIMEOUT_DATA =>
      let v := datatimeout_storage h in
      [ (slice v 24 32, 4 * SDCARD_STREAM_CFG_TIMEOUT_DATA_HH);
        (slice v 16 24, 4 * SDCARD_STREAM_CFG_TIMEOUT_DATA_HL);
        (slice v 8 16, 4 * SDCARD_STREAM_CFG_TIMEOUT_DATA_LH);
        (slice v 0 8, 4 * SDCARD_STREAM_CFG_TIMEOUT_DATA_LL) ]
  | CFG_TIMEOUT_CMD =>
      let v := cmdtimeout_storage h in
      [ (slice v 24 32, 4 * SDCARD_STREAM_CFG_TIMEOUT_CMD_HH);
        (slice v 16 24, 4 * SDCARD_STREAM_CFG_TIMEOUT_CMD_HL);
        (slice v 8 16, 4 * SDCARD_STREAM_CFG_TIMEOUT_CMD_LH);
        (slice v 0 8, 4 * SDCARD_STREAM_CFG_TIMEOUT_CMD_LL) ]
  | CFG_BLKSIZE =>
      let v := blocksize_storage h in
      [ (slice v 8 16, 4 * SDCARD_STREAM_CFG_BLKSIZE_H);
        (slice v 0 8, 4 * SDCARD_STREAM_CFG_BLKSIZE_L) ]
  | CFG_VOLTAGE =>
      [ (slice (voltage_storage h) 0 8, 4 * SDCARD_STREAM_CFG_VOLTAGE) ]
  | _ => []
  end.

(** The configuration registers hold values of their CSR widths. *)
Definition registers_in_range (h : inputs) : Prop :=
  0 <= datatimeout_storage h < 2 ^ 32
  /\ 0 <= cmdtimeout_storage h < 2 ^ 32
  /\ 0 <= blocksize_storage h < 2 ^ 16
  /\ 0 <= voltage_storage h < 2 ^ 8.

(** *** Data transfers *)

(** The last byte of a block leaves the CRC16 generator and is taken by
    the source stream in the cycle (SEND_DATA connects the two). *)
Definition generator_fire (i : inputs) : bool :=
  crc16_source_valid i && crc16_source_last i && source_ready i.

(** The number of cycles of [l] in which a block leaves the generator. *)
Definition sent_cycles (l : list inputs) : nat :=
  length (filter generator_fire l).

(** Facts of every state reached from reset: the block counter is a 16-bit
    value that reads 0 outside the two data states, and [datadone] reads 0
    from the edge that takes a command to the end of its data phase. *)
Definition reachable_facts (r : regs) : Prop :=
  0 <= blkcnt r < 2 ^ 16
  /\ (fsm r <> RECV_DATA -> fsm r <> SEND_DATA -> blkcnt r = 0)
  /\ (fsm r = SEND_CMD \/ fsm r = RECV_RESP \/ fsm r = RECV_DATA
      \/ fsm r = SEND_DATA -> datadone r = false).

(** The machine is not in IDLE. *)
Definition busy (x : fsm_state) : bool := negb (fsm_eqb x IDLE).

(** The number of cycles of [l] in which [source.ready] is set. *)
Definition ready_cycles (l : list inputs) : nat :=
  length (filter source_ready l).

End SDCtrl.

(** ** SDPHYCFG: the configuration latch (sdphy.py, lines 324-356) *)

Module SDPHYCFG.

Record regs : Type := mkRegs {
  cfgdtimeout : Z;     (* Signal(32) *)
  cfgctimeout : Z;     (* Signal(32) *)
  cfgblksize : Z;      (* Signal(16) *)
  cfgvoltage : bool    (* Signal() *)
}.

Record inputs : Type := mkInputs {
  sink_valid : bool;
  sink_data : Z;
  sink_ctrl : Z
}.

Definition reset : regs :=
  {| cfgdtimeout := 0; cfgctimeout := 0; cfgblksize := 0;
     cfgvoltage := false |}.

Definition mode (i : inputs) : Z := slice (sink_ctrl i) 2 8.

(** [self.sink.ready.eq(self.sink.valid)] *)
Definition sink_ready (i : inputs) : bool := sink_valid i.

(** [cfgcases]: the byte goes to the slice selected by the mode; a mode
    without a case changes nothing. *)
Definition cfgcases (m d : Z) (r : regs) : regs :=
  if (SDCARD_STREAM_CFG_TIMEOUT_DATA_HH <=? m)
     && (m <? SDCARD_STREAM_CFG_TIMEOUT_DATA_HH + 4) then
    let k := m - SDCARD_STREAM_CFG_TIMEOUT_DATA_HH in
    mkRegs (set_slice (cfgdtimeout r) (24 - 8 * k) (32 - 8 * k) d)
           (cfgctimeout r) (cfgblksize r) (cfgvoltage r)
  else if (SDCARD_STREAM_CFG_TIMEOUT_CMD_HH <=? m)
          && (m <? SDCARD_STREAM_CFG_TIMEOUT_CMD_HH + 4) then
    let k := m - SDCARD_STREAM_CFG_TIMEOUT_CMD_HH in
    mkRegs (cfgdtimeout r)
           (set_slice (cfgctimeout r) (24 - 8 * k) (32 - 8 * k) d)
           (cfgblksize r) (cfgvoltage r)
  else if (SDCARD_STREAM_CFG_BLKSIZE_H <=? m)
          && (m <? SDCARD_STREAM_CFG_BLKSIZE_H + 2) then
    let k := m - SDCARD_STREAM_CFG_BLKSIZE_H in
    mkRegs (cfgdtimeout r) (cfgctimeout r)
           (set_slice (cfgblksize r) (8 - 8 * k) (16 - 8 * k) d)
           (cfgvoltage r)
  else if m =? SDCARD_STREAM_CFG_VOLTAGE then
    mkRegs (cfgdtimeout r) (cfgctimeout r) (cfgblksize r) (Z.testbit d 0)
  else r.

Definition next (r : regs) (i : inputs) : regs :=
  if sink_valid i then cfgcases (mode i) (sink_data i) r else r.

Definition run (r : regs) (l : list inputs) : regs := fold_left next l r.

(** The registers hold values of their widths. *)
Definition wf (r : regs) : Prop :=
  0 <= cfgdtimeout r < 2 ^ 32
  /\ 0 <= cfgctimeout r < 2 ^ 32
  /\ 0 <= cfgblksize r < 2 ^ 16.

End SDPHYCFG.

(** ** SDPHYCMDRFB: the bit sampler (sdphy.py, lines 372-420) *)

Module SDPHYCMDRFB.

Inductive fsm_state : Type := IDLE | READSTART | READ.

Record regs : Type := mkRegs {
  fsm : fsm_state;
  sel : Z;     (* Signal(3) *)
  data : Z     (* Signal(8) *)
}.

(** [source_ready] is driven by the FIFO the source is connected to; no
    statement of the module reads it. *)
Record inputs : Type := mkInputs {
  enable : bool;
  pads_cmd_i : bool;
  source_ready : bool
}.

Definition reset : regs := {| fsm := IDLE; sel := 0; data := 0 |}.

Definition NextState (v : fsm_state) (n : regs) : regs :=
  mkRegs v (sel n) (data n).
Definition Next_sel (v : Z) (n : regs) : regs :=
  mkRegs (fsm n) (trunc 3 v) (data n).
Definition Next_data (v : Z) (n : regs) : regs :=
  mkRegs (fsm n) (sel n) (trunc 8 v).

(** [cases[i] = NextValue(data[6-i], pads.cmd.i)] for [i] in 0..6. *)
Definition cases (c : Z) (i : inputs) (r : regs) : regs -> regs :=
  If ((0 <=? c) && (c <? 7))
    [ Next_data (set_slice (data r) (6 - c) (7 - c) (b2z (pads_cmd_i i))) ].

Definition source_valid (r : regs) (i : inputs) : bool :=
  match fsm r with
  | READ => enable i && (sel r =? 7)
  | _ => false
  end.

(** [Cat(pads.cmd.i, data)] on the 8-bit payload. *)
Definition source_data (r : regs) (i : inputs) : Z :=
  match fsm r with
  | READ =>
      if enable i && (sel r =? 7)
      then trunc 8 (b2z (pads_cmd_i i) + 2 * data r) else 0
  | _ => 0
  end.

Definition next (r : regs) (i : inputs) : regs :=
  match fsm r with
  | IDLE =>
      If (enable i) [ Next_sel 0; NextState READSTART ] r
  | READSTART =>
      IfElse (negb (enable i))
        [ NextState IDLE ]
        [ If (negb (pads_cmd_i i))
            [ Next_data 0; Next_sel 1; NextState READ ] ] r
  | READ =>
      IfElse (negb (enable i))
        [ NextState IDLE ]
        [ IfElse (sel r =? 7)
            [ Next_sel 0 ]
            [ cases (sel r) i r; Next_sel (sel r + 1) ] ] r
  end.

Definition run (r : regs) (l : list inputs) : regs := fold_left next l r.

End SDPHYCMDRFB.

(** ** SDPHYCMDR: the command reader (sdphy.py, lines 422-524) *)

Module SDPHYCMDR.

Inductive fsm_state : Type :=
| IDLE
| CMD_READSTART
| CMD_READ
| CMD_CLK8
| TIMEOUT.

Record regs : Type := mkRegs {
  fsm : fsm_state;
  ctimeout : Z;    (* Signal(32) *)
  cread : Z;       (* Signal(8) *)
  ctoread : Z;     (* Signal(8) *)
  cnt : Z          (* Signal(8) *)
}.

(** [fifo_source_*] is the read side of the depth-2 FIFO fed by the bit
    sampler; [cfgctimeout] is the latch of [SDPHYCFG]. *)
Record inputs : Type := mkInputs {
  sink_valid : bool;
  sink_data : Z;
  sink_last : bool;
  source_ready : bool;
  fifo_source_valid : bool;
  fifo_source_data : Z;
  cfgctimeout : Z
}.

Record outputs : Type := mkOutputs {
  enable : bool;
  source_valid : bool;
  source_data : Z;
  source_last : bool;
  status : Z;
  sink_ready : bool;
  fifo_source_ready : bool;
  pads_cmd_oe : bool;
  pads_cmd_o : bool;
  pads_clk : bool
}.

Definition reset : regs :=
  {| fsm := IDLE; ctimeout := 0; cread := 0; ctoread := 0; cnt := 0 |}.

Definition NextState (v : fsm_state) (n : regs) : regs :=
  mkRegs v (ctimeout n) (cread n) (ctoread n) (cnt n).
Definition Next_ctimeout (v : Z) (n : regs) : regs :=
  mkRegs (fsm n) (trunc 32 v) (cread n) (ctoread n) (cnt n).
Definition Next_cread (v : Z) (n : regs) : regs :=
  mkRegs (fsm n) (ctimeout n) (trunc 8 v) (ctoread n) (cnt n).
Definition Next_ctoread (v : Z) (n : regs) : regs :=
  mkRegs (fsm n) (ctimeout n) (cread n) (trunc 8 v) (cnt n).
Definition Next_cnt (v : Z) (n : regs) : regs :=
  mkRegs (fsm n) (ctimeout n) (cread n) (ctoread n) (trunc 8 v).

(** [self.source.ctrl.eq(Cat(SDCARD_STREAM_READ, status))] *)
Definition source_ctrl (o : outputs) : Z :=
  trunc 8 (SDCARD_STREAM_READ + 2 * trunc 4 (status o)).

Definition quiet : outputs :=
  {| enable := false; source_valid := false; source_data := 0;
     source_last := false; status := 0; sink_ready := false;
     fifo_source_ready := false; pads_cmd_oe := false; pads_cmd_o := false;
     pads_clk := false |}.

Definition comb (r : regs) (i : inputs) : outputs :=
  match fsm r with
  | IDLE => quiet
  | CMD_READSTART =>
      {| enable := true; source_valid := false; source_data := 0;
         source_last := false; status := 0; sink_ready := false;
         fifo_source_ready := false; pads_cmd_oe := false;
         pads_cmd_o := false; pads_clk := true |}
  | CMD_READ =>
      let fire := fifo_source_valid i && source_ready i in
      {| enable := true;
         source_valid := fifo_source_valid i;
         source_data := fifo_source_data i;
         source_last := (cread r =? ctoread r);
         status := SDCARD_STREAM_STATUS_OK;
         sink_ready := fire && (cread r =? ctoread r) && negb (sink_last i);
         fifo_source_ready := source_ready i;
         pads_cmd_oe := false; pads_cmd_o := false; pads_clk := true |}
  | CMD_CLK8 =>
      {| enable := false; source_valid := false; source_data := 0;
         source_last := false; status := 0;
         sink_ready := negb (cnt r <? 7);
         fifo_source_ready := false; pads_cmd_oe := true;
         pads_cmd_o := true; pads_clk := (cnt r <? 7) |}
  | TIMEOUT =>
      {| enable := false; source_valid := true; source_data := 0;
         source_last := true; status := SDCARD_STREAM_STATUS_TIMEOUT;
         sink_ready := source_ready i;
         fifo_source_ready := false; pads_cmd_oe := false;
         pads_cmd_o := false; pads_clk := false |}
  end.

Definition source_fire (r : regs) (i : inputs) : bool :=
  source_valid (comb r i) && source_ready i.

Definition next (r : regs) (i : inputs) : regs :=
  match fsm r with
  | IDLE =>
      If (sink_valid i)
        [ Next_ctimeout 0;
          Next_cread 0;
          Next_ctoread (sink_data i);
          NextState CMD_READSTART ] r
  | CMD_READSTART =>
      stmts
        [ Next_ctimeout (ctimeout r + 1);
          IfElse (fifo_source_valid i)
            [ NextState CMD_READ ]
            [ If (cfgctimeout i <? ctimeout r) [ NextState TIMEOUT ] ] ] r
  | CMD_READ =>
      If (source_fire r i)
        [ Next_cread (cread r + 1);
          If (cread r =? ctoread r)
            [ IfElse (sink_last i)
                [ NextState CMD_CLK8 ]
                [ NextState IDLE ] ] ] r
  | CMD_CLK8 =>
      IfElse (cnt r <? 7)
        [ Next_cnt (cnt r + 1) ]
        [ Next_cnt 0; NextState IDLE ] r
  | TIMEOUT =>
      If (source_fire r i) [ NextState IDLE ] r
  end.

Definition run (r : regs) (l : list inputs) : regs := fold_left next l r.

(** [n] cycles with the same input signals. *)
Definition wait (n : N) (i : inputs) (r : regs) : regs :=
  N.iter n (fun s => next s i) r.

End SDPHYCMDR.

(** ** SDPHY: dispatch of a sink frame (sdphy.py, lines 658-702) *)

Module SDPHY.

Inductive target : Type := TO_CFG | TO_CMDW | TO_CMDR | TO_NONE.

(** The submodule the sink stream is connected to in the IDLE block. *)
Definition connect (sink_valid : bool) (sink_ctrl : Z) : target :=
  let cmddata := slice sink_ctrl 0 1 in
  let rdwr := slice sink_ctrl 1 2 in
  let mode := slice sink_ctrl 2 8 in
  if sink_valid then
    if negb (mode =? SDCARD_STREAM_XFER) then TO_CFG
    else if cmddata =? SDCARD_STREAM_CMD then
      if rdwr =? SDCARD_STREAM_WRITE then TO_CMDW else TO_CMDR
    else TO_NONE
  else TO_NONE.

(** [self.sink.connect(self.cfg.sink)]: the latch sees the frame when the
    dispatch selects it, and an idle sink otherwise. *)
Definition cfg_sink (f : Z * Z) : SDPHYCFG.inputs :=
  match connect true (snd f) with
  | TO_CFG => SDPHYCFG.mkInputs true (fst f) (snd f)
  | _ => SDPHYCFG.mkInputs false 0 0
  end.

(** The latch after the frames [fs] (payload, control tag) have reached
    the sink of the framer, one per cycle, in order. *)
Definition configure (fs : list (Z * Z)) (c : SDPHYCFG.regs) : SDPHYCFG.regs :=
  SDPHYCFG.run c (map cfg_sink fs).

End SDPHY.

(** ** SDPHYCMDW: the command writer (sdphy.py, lines 526-605) *)

Module SDPHYCMDW.

Inductive fsm_state : Type := IDLE | INIT | CMD_WRITE | CMD_CLK8.

(** [pads_data_oe] and [pads_data_o] are written with [NextValue] in INIT,
    so they are registers of the module. *)
Record regs : Type := mkRegs {
  fsm : fsm_state;
  isinit : bool;
  cntinit : Z;        (* Signal(8) *)
  cnt : Z;            (* Signal(8) *)
  wrsel : Z;          (* Signal(3) *)
  wrtmpdata : Z;      (* Signal(8) *)
  pads_data_oe : bool;
  pads_data_o : Z     (* 4 bits *)
}.

Record inputs : Type := mkInputs {
  sink_valid : bool;
  sink_data : Z;
  sink_last : bool
}.

Record outputs : Type := mkOutputs {
  pads_clk : bool;
  pads_cmd_o : bool;
  pads_cmd_oe : bool;
  sink_ready : bool
}.

Definition reset : regs :=
  {| fsm := IDLE; isinit := false; cntinit := 0; cnt := 0; wrsel := 0;
     wrtmpdata := 0; pads_data_oe := false; pads_data_o := 0 |}.

Definition NextState (v : fsm_state) (n : regs) : regs :=
  mkRegs v (isinit n) (cntinit n) (cnt n) (wrsel n) (wrtmpdata n)
    (pads_data_oe n) (pads_data_o n).
Definition Next_isinit (v : bool) (n : regs) : regs :=
  mkRegs (fsm n) v (cntinit n) (cnt n) (wrsel n) (wrtmpdata n)
    (pads_data_oe n) (pads_data_o n).
Definition Next_cntinit (v : Z) (n : regs) : regs :=
  mkRegs (fsm n) (isinit n) (trunc 8 v) (cnt n) (wrsel n) (wrtmpdata n)
    (pads_data_oe n) (pads_data_o n).
Definition Next_cnt (v : Z) (n : regs) : regs :=
  mkRegs (fsm n) (isinit n) (cntinit n) (trunc 8 v) (wrsel n) (wrtmpdata n)
    (pads_data_oe n) (pads_data_o n).
Definition Next_wrsel (v : Z) (n : regs) : regs :=
  mkRegs (fsm n) (isinit n) (cntinit n) (cnt n) (trunc 3 v) (wrtmpdata n)
    (pads_data_oe n) (pads_data_o n).
Definition Next_wrtmpdata (v : Z) (n : regs) : regs :=
  mkRegs (fsm n) (isinit n) (cntinit n) (cnt n) (wrsel n) (trunc 8 v)
    (pads_data_oe n) (pads_data_o n).
Definition Next_pads_data_oe (v : bool) (n : regs) : regs :=
  mkRegs (fsm n) (isinit n) (cntinit n) (cnt n) (wrsel n) (wrtmpdata n)
    v (pads_data_o n).
Definition Next_pads_data_o (v : Z) (n : regs) : regs :=
  mkRegs (fsm n) (isinit n) (cntinit n) (cnt n) (wrsel n) (wrtmpdata n)
    (pads_data_oe n) (trunc 4 v).

(** [wrcases[i] = self.pads.cmd.o.eq(wrtmpdata[7-i])] for [i] in 0..7; the
    3-bit [wrsel] always has a case.  [pads.cmd.oe] is 1 in every cycle. *)
Definition comb (r : regs) (i : inputs) : outputs :=
  match fsm r with
  | IDLE =>
      if sink_valid i && isinit r
      then {| pads_clk := true; pads_cmd_o := Z.testbit (sink_data i) 7;
              pads_cmd_oe := true; sink_ready := false |}
      else {| pads_clk := false; pads_cmd_o := false;
              pads_cmd_oe := true; sink_ready := false |}
  | INIT =>
      {| pads_clk := true; pads_cmd_o := true;
         pads_cmd_oe := true; sink_ready := false |}
  | CMD_WRITE =>
      {| pads_clk := if wrsel r =? 0 then sink_last i else true;
         pads_cmd_o := Z.testbit (wrtmpdata r) (7 - wrsel r);
         pads_cmd_oe := true;
         sink_ready := (wrsel r =? 0) && negb (sink_last i) |}
  | CMD_CLK8 =>
      {| pads_clk := (cnt r <? 7); pads_cmd_o := true;
         pads_cmd_oe := true; sink_ready := negb (cnt r <? 7) |}
  end.

Definition next (r : regs) (i : inputs) : regs :=
  match fsm r with
  | IDLE =>
      If (sink_valid i)
        [ IfElse (negb (isinit r))
            [ NextState INIT ]
            [ Next_wrtmpdata (sink_data i);
              Next_wrsel 1;
              NextState CMD_WRITE ] ] r
  | INIT =>
      IfElse (cntinit r <? 80)
        [ Next_cntinit (cntinit r + 1);
          Next_pads_data_oe true;
          Next_pads_data_o 15 ]
        [ Next_cntinit 0;
          Next_isinit true;
          Next_pads_data_oe false;
          NextState IDLE ] r
  | CMD_WRITE =>
      stmts
        [ Next_wrsel (wrsel r + 1);
          If (wrsel r =? 0)
            [ IfElse (sink_last i)
                [ NextState CMD_CLK8 ]
                [ NextState IDLE ] ] ] r
  | CMD_CLK8 =>
      IfElse (cnt r <? 7)
        [ Next_cnt (cnt r + 1) ]
        [ Next_cnt 0; NextState IDLE ] r
  end.

Definition run (r : regs) (l : list inputs) : regs := fold_left next l r.

(** The outputs of the cycles of [l], in order. *)
Fixpoint trace (r : regs) (l : list inputs) : list outputs :=
  match l with
  | [] => []
  | i :: l' => comb r i :: trace (next r i) l'
  end.

(** The values of the command line in the cycles whose clock is pulsed. *)
Definition line (tr : list outputs) : list bool :=
  map pads_cmd_o (filter pads_clk tr).

(** Facts of every state reached from reset: the counters are 0 outside
    their states and bounded inside, the registers keep their widths, and
    [isinit] is clear whenever the machine is in INIT. *)
Definition reachable_facts (r : regs) : Prop :=
  (fsm r = INIT -> isinit r = false)
  /\ match fsm r with
     | INIT => 0 <= cntinit r <= 80
     | _ => cntinit r = 0
     end
  /\ match fsm r with
     | CMD_CLK8 => 0 <= cnt r <= 7
     | _ => cnt r = 0
     end
  /\ 0 <= wrsel r < 8
  /\ 0 <= wrtmpdata r < 256.

End SDPHYCMDW.

(** ** Values of bit and byte sequences *)

(** The value of a sequence of bits, most significant first. *)
Definition byte_of_bits (l : list bool) : Z :=
  fold_left (fun acc b => 2 * acc + b2z b) l 0.

(** The bits 7..0 of a byte, most significant first. *)
Definition bits_of_byte (d : Z) : list bool :=
  map (Z.testbit d) [7; 6; 5; 4; 3; 2; 1; 0].

(** The value of a sequence of bytes, most significant first, from [acc]. *)
Definition be_value (acc : Z) (l : list Z) : Z :=
  fold_left (fun a b => 256 * a + b) l acc.

(** ** Traces of the command reader *)

(** The cycles the reader spends in the states selected by [p], and the
    registers at the first cycle outside them (or at the end of the
    input). *)
Fixpoint cmdr_during (p : SDPHYCMDR.fsm_state -> bool) (r : SDPHYCMDR.regs)
    (l : list SDPHYCMDR.inputs)
  : list (SDPHYCMDR.regs * SDPHYCMDR.inputs) * SDPHYCMDR.regs :=
  match l with
  | [] => ([], r)
  | i :: l' =>
      if p (SDPHYCMDR.fsm r)
      then let (tr, r') := cmdr_during p (SDPHYCMDR.next r i) l' in
           ((r, i) :: tr, r')
      else ([], r)
  end.

Definition cmdr_in_read (x : SDPHYCMDR.fsm_state) : bool :=
  match x with SDPHYCMDR.CMD_READ => true | _ => false end.

Definition cmdr_in_clk8 (x : SDPHYCMDR.fsm_state) : bool :=
  match x with SDPHYCMDR.CMD_CLK8 => true | _ => false end.

(** A byte leaves the reader through [source] in the cycle. *)
Definition cmdr_fired (c : SDPHYCMDR.regs * SDPHYCMDR.inputs) : bool :=
  SDPHYCMDR.source_fire (fst c) (snd c).

(** The bytes handed over in the cycles of [tr] with their last markers. *)
Definition cmdr_bytes (tr : list (SDPHYCMDR.regs * SDPHYCMDR.inputs))
  : list (Z * bool) :=
  map (fun c => (SDPHYCMDR.source_data (SDPHYCMDR.comb (fst c) (snd c)),
                 SDPHYCMDR.source_last (SDPHYCMDR.comb (fst c) (snd c))))
      (filter cmdr_fired tr).

(** The cycles of [l] in which the FIFO holds a byte and the source is
    ready. *)
Definition cmdr_transfers (l : list SDPHYCMDR.inputs) : nat :=
  length (filter (fun i => SDPHYCMDR.fifo_source_valid i
                           && SDPHYCMDR.source_ready i) l).

(** The outputs of the reader in the cycles of [l], in order. *)
Fixpoint cmdr_outputs (r : SDPHYCMDR.regs) (l : list SDPHYCMDR.inputs)
  : list SDPHYCMDR.outputs :=
  match l with
  | [] => []
  | i :: l' => SDPHYCMDR.comb r i :: cmdr_outputs (SDPHYCMDR.next r i) l'
  end.

(** Facts of every state of the reader reached from reset: the trailer
    counter is 0 outside CMD_CLK8 and at most 7 inside, the byte counter is
    0 while the reader waits for the first byte, and the registers keep
    their widths. *)
Definition cmdr_facts (r : SDPHYCMDR.regs) : Prop :=
  match SDPHYCMDR.fsm r with
  | SDPHYCMDR.CMD_CLK8 => 0 <= SDPHYCMDR.cnt r <= 7
  | _ => SDPHYCMDR.cnt r = 0
  end
  /\ (SDPHYCMDR.fsm r = SDPHYCMDR.CMD_READSTART -> SDPHYCMDR.cread r = 0)
  /\ 0 <= SDPHYCMDR.ctoread r < 256
  /\ 0 <= SDPHYCMDR.cread r < 256
  /\ 0 <= SDPHYCMDR.ctimeout r < 2 ^ 32.

(** A byte can move from the FIFO to the source in the cycle. *)
Definition cmdr_transfer (i : SDPHYCMDR.inputs) : bool :=
  SDPHYCMDR.fifo_source_valid i && SDPHYCMDR.source_ready i.

(** ** Traces of the bit sampler *)

(** A cycle of the enabled sampler with the line at [b]. *)
Definition sample (b rdy : bool) : SDPHYCMDRFB.inputs :=
  SDPHYCMDRFB.mkInputs true b rdy.

(** The source of the sampler (valid, payload) in the cycles of [l]. *)
Fixpoint rfb_outputs (r : SDPHYCMDRFB.regs) (l : list SDPHYCMDRFB.inputs)
  : list (bool * Z) :=
  match l with
  | [] => []
  | i :: l' =>
      (SDPHYCMDRFB.source_valid r i, SDPHYCMDRFB.source_data r i)
      :: rfb_outputs (SDPHYCMDRFB.next r i) l'
  end.

(** ** Facts of the reachable states of the orchestrator *)

(** The byte selectors are within their case tables and back at 0 outside
    their states, and the status registers keep their widths. *)
Definition ctrl_selectors (r : SDCtrl.regs) : Prop :=
  match SDCtrl.fsm r with
  | SDCtrl.SEND_CMD => 0 <= SDCtrl.csel r <= 5
  | _ => SDCtrl.csel r = 0
  end
  /\ match SDCtrl.fsm r with
     | SDCtrl.CFG_TIMEOUT_DATA | SDCtrl.CFG_TIMEOUT_CMD =>
         0 <= SDCtrl.pos r <= 3
     | SDCtrl.CFG_BLKSIZE => 0 <= SDCtrl.pos r <= 1
     | SDCtrl.CFG_VOLTAGE => SDCtrl.pos r = 0
     | _ => 0 <= SDCtrl.pos r <= 3
     end
  /\ 0 <= SDCtrl.response_status r < 2 ^ 120
  /\ 0 <= SDCtrl.crc7checker_check r < 2 ^ 7
  /\ 0 <= SDCtrl.debug_status r < 2 ^ 32.

(** The six frames (payload, control tag) of a command: the index with
    the start and transmission bits, the argument most significant byte
    first, the CRC7 with the stop bit; each tagged CMD, WRITE, XFER. *)
Definition cmd_frames (h : SDCtrl.inputs) : list (Z * Z) :=
  [ (slice (SDCtrl.command_storage h) 8 14 + 64, 2);
    (slice (SDCtrl.argument_storage h) 24 32, 2);
    (slice (SDCtrl.argument_storage h) 16 24, 2);
    (slice (SDCtrl.argument_storage h) 8 16, 2);
    (slice (SDCtrl.argument_storage h) 0 8, 2);
    (1 + 2 * trunc 7 (SDCtrl.crc7_crc h), 2) ].

(** The sink carries a valid byte of a response that is neither the last
    one nor a timeout. *)
Definition response_byte (i : SDCtrl.inputs) : bool :=
  SDCtrl.sink_valid i
  && (slice (SDCtrl.sink_ctrl i) 0 1 =? SDCARD_STREAM_CMD)
  && negb (SDCtrl.status i =? SDCARD_STREAM_STATUS_TIMEOUT)
  && negb (SDCtrl.sink_last i).

(** The cycle leaves RECV_RESP as it is or shifts a byte in: there is no
    valid sink frame, or the frame is a response byte of 8 bits, or a
    frame of the data channel. *)
Definition response_cycle (i : SDCtrl.inputs) : Prop :=
  SDCtrl.sink_valid i = true ->
  slice (SDCtrl.sink_ctrl i) 0 1 = SDCARD_STREAM_CMD ->
  response_byte i = true /\ 0 <= SDCtrl.sink_data i < 256.

(** The response bytes carried by the cycles of [l], in order. *)
Definition response_bytes (l : list SDCtrl.inputs) : list Z :=
  map SDCtrl.sink_data (filter response_byte l).

(** * Properties *)

Import SDCtrl.

(** ** Proof tools *)

Ltac ctrl_unfold :=
  cbv beta iota zeta delta
    [ next advance_block source_fire comb If IfElse stmts fold_left quiet
      NextState Next_csel Next_cmddone Next_datadone Next_blkcnt Next_pos
      Next_cerrtimeout Next_cerrcrc_en Next_derrtimeout Next_derrwrite
      Next_derrread_en Next_debug_status Next_response_status
      Next_crc7checker_check
      fsm csel cmddone datadone blkcnt pos cerrtimeout cerrcrc_en derrtimeout
      derrwrite derrread_en debug_status response_status crc7checker_check
      source_valid source_data source_last cmddata rdwr mode sink_ready
      crc16_source_ready crc16checker_sink_valid crc16checker_sink_data
      crc16checker_sink_last command_accepted fsm_eqb andb negb orb
      latched cleared in_state response_or_data timeout_frame bad_ack ].

Ltac break_if :=
  match goal with
  | |- context [if ?c then _ else _] => destruct c eqn:?
  | H : context [if ?c then _ else _] |- _ => destruct c eqn:?
  end.

Ltac ctrl_cases := ctrl_unfold; repeat (break_if; ctrl_unfold).

Ltac cmdr_unfold :=
  cbv beta iota zeta delta
    [ SDPHYCMDR.next SDPHYCMDR.comb SDPHYCMDR.source_fire SDPHYCMDR.quiet
      If IfElse stmts fold_left
      SDPHYCMDR.NextState SDPHYCMDR.Next_ctimeout SDPHYCMDR.Next_cread
      SDPHYCMDR.Next_ctoread SDPHYCMDR.Next_cnt
      SDPHYCMDR.fsm SDPHYCMDR.ctimeout SDPHYCMDR.cread SDPHYCMDR.ctoread
      SDPHYCMDR.cnt SDPHYCMDR.enable SDPHYCMDR.source_valid
      SDPHYCMDR.source_data SDPHYCMDR.source_last SDPHYCMDR.status
      SDPHYCMDR.sink_ready SDPHYCMDR.fifo_source_ready andb negb orb ].

Ltac rfb_unfold :=
  cbv beta iota zeta delta
    [ SDPHYCMDRFB.next SDPHYCMDRFB.source_valid SDPHYCMDRFB.source_data
      SDPHYCMDRFB.cases If IfElse stmts fold_left
      SDPHYCMDRFB.NextState SDPHYCMDRFB.Next_sel SDPHYCMDRFB.Next_data
      SDPHYCMDRFB.fsm SDPHYCMDRFB.sel SDPHYCMDRFB.data andb negb orb ].

Ltac bit_cases :=
  repeat match goal with
         | |- context [?a <=? ?b] => destruct (Z.leb_spec a b)
         | |- context [?a <? ?b] => destruct (Z.ltb_spec a b)
         end;
  cbn [andb orb negb]; try lia.

Lemma run_cons (r : regs) (i : inputs) (l : list inputs) :
  run r (i :: l) = run (next r i) l.
Proof. reflexivity. Qed.

Lemma run_app (r : regs) (l1 l2 : list inputs) :
  run r (l1 ++ l2) = run (run r l1) l2.
Proof. unfold run. apply fold_left_app. Qed.

Lemma trunc_mod (w v : Z) : 0 <= w -> trunc w v = v mod 2 ^ w.
Proof. intros Hw. unfold trunc. now rewrite Z.land_ones. Qed.

Lemma trunc_small (w v : Z) : 0 <= w -> 0 <= v < 2 ^ w -> trunc w v = v.
Proof. intros Hw Hv. rewrite trunc_mod by assumption. now apply Z.mod_small. Qed.

Lemma trunc_range (w v : Z) : 0 <= w -> 0 <= trunc w v < 2 ^ w.
Proof.
  intros Hw. rewrite trunc_mod by assumption.
  apply Z.mod_pos_bound. now apply Z.pow_pos_nonneg.
Qed.

(** ** The flag registers *)

(** A flag register that reads 1 keeps reading 1 over every clock edge at
    which no command write is taken. *)
Lemma flag_kept (r : regs) (i : inputs) (f : regs -> bool) :
  In f flag_registers -> command_accepted r i = false -> latched r i f.
Proof.
  intros Hin Hacc. destruct r as [st ? ? ? ? ? ? ? ? ? ? ? ? ?].
  unfold flag_registers in Hin. cbn [In] in Hin.
  repeat (destruct Hin as [<- | Hin]; [ | ]); try contradiction;
    revert Hacc; destruct st; ctrl_cases; intros; congruence.
Qed.

(** The clock edge at which a command write is taken clears them all. *)
Lemma flag_cleared (r : regs) (i : inputs) (f : regs -> bool) :
  In f flag_registers -> command_accepted r i = true -> cleared r i f.
Proof.
  intros Hin Hacc. destruct r as [st ? ? ? ? ? ? ? ? ? ? ? ? ?].
  unfold flag_registers in Hin. cbn [In] in Hin.
  repeat (destruct Hin as [<- | Hin]; [ | ]); try contradiction;
    revert Hacc; destruct st; ctrl_cases; intros; congruence.
Qed.

Lemma cmdevt_bits (r : regs) (i : inputs) :
  Z.testbit (cmdevt_status r i) 0 = cmddone r
  /\ Z.testbit (cmdevt_status r i) 1 = false
  /\ Z.testbit (cmdevt_status r i) 2 = cerrtimeout r
  /\ Z.testbit (cmdevt_status r i) 3
     = cerrcrc_en r && negb (crc7checker_valid i).
Proof.
  unfold cmdevt_status.
  destruct (cmddone r), (cerrtimeout r), (cerrcrc_en r),
    (crc7checker_valid i); repeat split; reflexivity.
Qed.

Lemma dataevt_bits (r : regs) (i : inputs) :
  Z.testbit (dataevt_status r i) 0 = datadone r
  /\ Z.testbit (dataevt_status r i) 1 = derrwrite r
  /\ Z.testbit (dataevt_status r i) 2 = derrtimeout r
  /\ Z.testbit (dataevt_status r i) 3
     = derrread_en r && negb (crc16checker_valid i).
Proof.
  unfold dataevt_status.
  destruct (datadone r), (derrwrite r), (derrtimeout r), (derrread_en r),
    (crc16checker_valid i); repeat split; reflexivity.
Qed.

Lemma no_strobe_no_command (r : regs) (i : inputs) :
  command_re i = false -> command_accepted r i = false.
Proof.
  intros H. unfold command_accepted. rewrite H. apply andb_false_r.
Qed.

Lemma done_kept_without_command (l : list inputs) :
  forall r,
    Forall (fun j => command_re j = false) l ->
    cmddone r = true -> datadone r = true ->
    cmddone (run r l) = true /\ datadone (run r l) = true.
Proof.
  induction l as [|i l IH]; intros r Hl Hc Hd.
  - now split.
  - inversion Hl as [|? ? Hi Hl']; subst. rewrite run_cons.
    apply IH; [assumption | |].
    + apply (flag_kept r i cmddone); cbn; auto using no_strobe_no_command.
    + apply (flag_kept r i datadone); cbn; auto using no_strobe_no_command.
Qed.

(** C9. After reset, and for as long as no command write has been made,
    the done bit (bit 0) of [cmdevt] and of [dataevt] reads 1: both
    [cmddone] and [datadone] have reset value 1 and only a command write
    clears them.  The empty list of cycles is the reset state itself. *)
Theorem done_reads_one_before_first_command :
  forall (l : list inputs) (i : inputs),
    Forall (fun j => command_re j = false) l ->
    cmddone reset = true /\ datadone reset = true
    /\ Z.testbit (cmdevt_status (run reset l) i) 0 = true
    /\ Z.testbit (dataevt_status (run reset l) i) 0 = true.
Proof.
  intros l i Hl.
  destruct (done_kept_without_command l reset Hl eq_refl eq_refl) as [Hc Hd].
  destruct (cmdevt_bits (run reset l) i) as [Hc0 _].
  destruct (dataevt_bits (run reset l) i) as [Hd0 _].
  repeat split; congruence.
Qed.

Lemma done_reads_one_before_first_command_witness :
  Forall (fun j => command_re j = false)
    [low; host_datatimeout 1000 true low; ready true low]
  /\ (cmddone reset = true /\ datadone reset = true
      /\ Z.testbit
           (cmdevt_status
              (run reset [low; host_datatimeout 1000 true low; ready true low])
              low) 0 = true
      /\ Z.testbit
           (dataevt_status
              (run reset [low; host_datatimeout 1000 true low; ready true low])
              low) 0 = true).
Proof.
  assert (H : Forall (fun j => command_re j = false)
                [low; host_datatimeout 1000 true low; ready true low])
    by (repeat constructor).
  split; [exact H | exact (done_reads_one_before_first_command _ low H)].
Defined.

(** ** Commands without a response *)

(** While the command register asks for no response, the machine stays out
    of RECV_RESP, RECV_DATA and SEND_DATA, and neither [cerrcrc_en] nor
    [datadone] is set. *)
Lemma none_response_step (r : regs) (i : inputs) :
  waitresp i = SDCARD_CTRL_RESPONSE_NONE ->
  response_or_data (fsm r) = false ->
  cerrcrc_en r = false -> datadone r = false ->
  response_or_data (fsm (next r i)) = false
  /\ cerrcrc_en (next r i) = false /\ datadone (next r i) = false.
Proof.
  intros Hw. destruct r as [st ? ? ? ? ? ? ? ? ? ? ? ? ?].
  destruct st; ctrl_unfold; rewrite ?Hw, ?Z.eqb_refl; ctrl_cases;
    intros; repeat split; congruence.
Qed.

Lemma none_response_run (l : list inputs) :
  forall r,
    Forall (fun j => waitresp j = SDCARD_CTRL_RESPONSE_NONE) l ->
    response_or_data (fsm r) = false ->
    cerrcrc_en r = false -> datadone r = false ->
    response_or_data (fsm (run r l)) = false
    /\ cerrcrc_en (run r l) = false /\ datadone (run r l) = false.
Proof.
  induction l as [|i l IH]; intros r Hl Hs Hc Hd.
  - now repeat split.
  - inversion Hl as [|? ? Hi Hl']; subst. rewrite run_cons.
    destruct (none_response_step r i Hi Hs Hc Hd) as (Hs' & Hc' & Hd').
    now apply IH.
Qed.

Lemma command_accepted_next (r : regs) (i : inputs) :
  command_accepted r i = true ->
  fsm (next r i) = SEND_CMD
  /\ cerrcrc_en (next r i) = false /\ datadone (next r i) = false.
Proof.
  destruct r as [st ? ? ? ? ? ? ? ? ? ? ? ? ?].
  destruct st; ctrl_cases; intros; repeat split; congruence.
Qed.

(** [cerrcrc_en] is set only by the edge that leaves SEND_CMD for
    RECV_RESP. *)
Lemma cerrcrc_en_set_only_entering_recv_resp (r : regs) (i : inputs) :
  cerrcrc_en r = false -> cerrcrc_en (next r i) = true ->
  fsm r = SEND_CMD /\ fsm (next r i) = RECV_RESP.
Proof.
  destruct r as [st ? ? ? ? ? ? ? ? ? ? ? ? ?].
  destruct st; ctrl_cases; intros; split; congruence.
Qed.

(** C1 (the code at the failing input).  CMD0 with response kind NONE,
    issued from the reset state with every byte taken at once: after the
    sixth byte the machine is back in IDLE with [cmddone] set, and
    [datadone] still reads 0, so bit 0 of [dataevt] is 0.  The only
    assignment on that path is [NextValue(cmddone, 1)]; the paths of
    RECV_RESP that end a command without a data phase also set
    [datadone]. *)
Theorem cmd0_done_flags :
  let go := ready true low in
  let r := run reset [host_command 0 0 true low; go; go; go; go; go; go] in
  fsm r = IDLE /\ cmddone r = true /\ datadone r = false
  /\ Z.testbit (cmdevt_status r low) 0 = true
  /\ Z.testbit (dataevt_status r low) 0 = false.
Proof. cbv zeta. repeat split; vm_compute; reflexivity. Qed.

(** C10. From the edge that takes a command write, and for as long as the
    command register asks for no response, [cerrcrc_en] reads 0, so the
    crc-error bit (bit 3) of [cmdevt] reads 0 whatever the checker says,
    and the machine is in none of RECV_RESP, RECV_DATA, SEND_DATA.  The
    flag can only be set by the edge from SEND_CMD into RECV_RESP. *)
Theorem none_response_crc_error_reads_zero :
  forall (r : regs) (i0 : inputs) (l : list inputs) (i : inputs),
    command_accepted r i0 = true ->
    Forall (fun j => waitresp j = SDCARD_CTRL_RESPONSE_NONE) l ->
    cerrcrc_en (run (next r i0) l) = false
    /\ cmd_crc_error (run (next r i0) l) i = false
    /\ response_or_data (fsm (run (next r i0) l)) = false
    /\ (forall s j, cerrcrc_en s = false -> cerrcrc_en (next s j) = true ->
          fsm s = SEND_CMD /\ fsm (next s j) = RECV_RESP).
Proof.
  intros r i0 l i Hacc Hl.
  destruct (command_accepted_next r i0 Hacc) as (Hs & Hc & Hd).
  assert (Hrd : response_or_data (fsm (next r i0)) = false)
    by (rewrite Hs; reflexivity).
  destruct (none_response_run l (next r i0) Hl Hrd Hc Hd) as (Hs' & Hc' & _).
  repeat split; try assumption.
  - unfold cmd_crc_error.
    destruct (cmdevt_bits (run (next r i0) l) i) as (_ & _ & _ & H3).
    rewrite H3, Hc'. reflexivity.
  - eapply cerrcrc_en_set_only_entering_recv_resp; eassumption.
  - eapply cerrcrc_en_set_only_entering_recv_resp; eassumption.
Qed.

Lemma none_response_crc_error_reads_zero_witness :
  let go := ready true (host_command 0 0 false low) in
  let l := [go; go; go; go; go; go; low] in
  command_accepted reset (host_command 0 0 true low) = true
  /\ Forall (fun j => waitresp j = SDCARD_CTRL_RESPONSE_NONE) l
  /\ cmd_crc_error (run (next reset (host_command 0 0 true low)) l) low
     = false.
Proof.
  cbv zeta.
  assert (Ha : command_accepted reset (host_command 0 0 true low) = true)
    by reflexivity.
  assert (Hl : Forall (fun j => waitresp j = SDCARD_CTRL_RESPONSE_NONE)
                 (let go := ready true (host_command 0 0 false low) in
                  [go; go; go; go; go; go; low]))
    by (repeat constructor).
  split; [exact Ha | split; [exact Hl | ]].
  exact (proj1 (proj2
    (none_response_crc_error_reads_zero reset _ _ low Ha Hl))).
Defined.

(** ** Event status bits *)

(** C2 (counterexample).  CMD8 with a short response, issued from reset.
    Five response bytes have arrived and the checker does not yet report a
    valid CRC, so the crc-error bit of [cmdevt] reads 1.  The sixth byte
    ends the response; in the next cycle the checker reports a valid CRC
    and the bit reads 0, although no command write was taken. *)
Lemma cmd_crc_error_bit_drops_without_command :
  let host := host_command 426 2049 false low in
  let go := ready true host in
  let rx d l := checker false false false (sink d 0 l host) in
  let r := run reset
             [ host_command 426 2049 true low; go; go; go; go; go; go;
               rx 8 false; rx 0 false; rx 0 false; rx 1 false; rx 170 false ] in
  let i1 := rx 19 true in
  let i2 := checker false true false host in
  fsm r = RECV_RESP
  /\ cmd_crc_error r i1 = true
  /\ command_accepted r i1 = false
  /\ cmd_crc_error (next r i1) i2 = false.
Proof. cbv zeta. repeat split; vm_compute; reflexivity. Qed.

(** C2 (amended).  The registers [cmddone], [cerrtimeout], [datadone],
    [derrwrite], [derrtimeout] and the two enables [cerrcrc_en],
    [derrread_en] are latched: one that reads 1 still reads 1 after every
    clock edge at which no command write is taken, and the edge that takes
    a command write clears all seven.  The crc-error bits are not
    registers: each reads its enable and-ed with the negated [valid]
    output of its checker in the same cycle. *)
Theorem event_flags_latched_until_command :
  forall (r : regs) (i : inputs),
    (if command_accepted r i
     then Forall (cleared r i) flag_registers
     else Forall (latched r i) flag_registers)
    /\ Z.testbit (cmdevt_status r i) 0 = cmddone r
    /\ Z.testbit (cmdevt_status r i) 2 = cerrtimeout r
    /\ Z.testbit (dataevt_status r i) 0 = datadone r
    /\ Z.testbit (dataevt_status r i) 1 = derrwrite r
    /\ Z.testbit (dataevt_status r i) 2 = derrtimeout r
    /\ cmd_crc_error r i = cerrcrc_en r && negb (crc7checker_valid i)
    /\ data_crc_error r i = derrread_en r && negb (crc16checker_valid i).
Proof.
  intros r i.
  destruct (cmdevt_bits r i) as (Hc0 & _ & Hc2 & Hc3).
  destruct (dataevt_bits r i) as (Hd0 & Hd1 & Hd2 & Hd3).
  repeat split; try assumption.
  destruct (command_accepted r i) eqn:Hacc; apply Forall_forall; intros f Hf.
  - now apply flag_cleared.
  - now apply flag_kept.
Qed.

(** ** RECV_DATA *)

(** C6. In RECV_DATA, a valid sink frame with status TIMEOUT, whatever the
    block counter and the other inputs are, is taken in that cycle
    ([sink.ready] = 1) and the clock edge of the cycle sets [derrtimeout]
    (and [datadone]), resets [blkcnt] to 0 and moves to IDLE, where the
    source presents no frame, so no further block request is made. *)
Theorem recv_data_timeout_aborts :
  forall (r : regs) (i i' : inputs),
    fsm r = RECV_DATA ->
    sink_valid i = true ->
    status i = SDCARD_STREAM_STATUS_TIMEOUT ->
    sink_ready (comb r i) = true
    /\ fsm (next r i) = IDLE
    /\ derrtimeout (next r i) = true
    /\ blkcnt (next r i) = 0
    /\ datadone (next r i) = true
    /\ source_valid (comb (next r i) i') = false.
Proof.
  intros r i i' Hs Hv Ht. destruct r as [st ? ? ? ? ? ? ? ? ? ? ? ? ?].
  cbn in Hs. subst st.
  ctrl_unfold. rewrite Hv, Ht. cbn. repeat split; reflexivity.
Qed.

Lemma recv_data_timeout_aborts_witness :
  let r := mkRegs RECV_DATA 0 true false 3 0
             false true false false true 0 0 0 in
  let i := ready true (sink 0 3 true (host_blockcount 7 low)) in
  fsm r = RECV_DATA
  /\ sink_valid i = true
  /\ status i = SDCARD_STREAM_STATUS_TIMEOUT
  /\ fsm (next r i) = IDLE
  /\ derrtimeout (next r i) = true
  /\ blkcnt (next r i) = 0.
Proof.
  cbv zeta.
  do 3 (split; [reflexivity | ]).
  destruct (recv_data_timeout_aborts
    (mkRegs RECV_DATA 0 true false 3 0 false true false false true 0 0 0)
    (ready true (sink 0 3 true (host_blockcount 7 low))) low
    eq_refl eq_refl eq_refl) as (_ & Hs & Ht & Hb & _).
  exact (conj Hs (conj Ht Hb)).
Defined.

(** ** Valid/ready handshake of the stream sources *)

(** A frame built from the host registers stays as it is while it is not
    taken: the registers of the machine do not move. *)
Lemma ctrl_stalls_until_ready (r : regs) (i : inputs) :
  sends_registers (fsm r) = true -> source_ready i = false -> next r i = r.
Proof.
  intros Hs Hr. destruct r as [st ? ? ? ? ? ? ? ? ? ? ? ? ?].
  destruct st; try discriminate Hs; ctrl_unfold; rewrite Hr; reflexivity.
Qed.

(** An untaken frame leaves the orchestrator where it is, unless the sink
    frame of the cycle ends the request: the outputs of the next cycle are
    those of the present registers. *)
Lemma ctrl_untaken_frame_stays (r : regs) (i i' : inputs) :
  source_valid (comb r i) = true -> source_ready i = false ->
  ends_request r i = false ->
  fsm (next r i) = fsm r /\ comb (next r i) i' = comb r i'.
Proof.
  intros Hv Hr He. destruct r as [st ? ? ? ? ? ? ? ? ? ? ? ? ?].
  unfold ends_request in He. cbn [fsm] in He.
  destruct st; try discriminate Hv; revert Hv He;
    ctrl_unfold; rewrite ?Hr; intros Hv He;
    repeat (break_if; ctrl_unfold); try discriminate; split; reflexivity.
Qed.

(** With its sources reading the same, a state presents the same frame. *)
Lemma ctrl_frame_of_source (r : regs) (i i' : inputs) :
  same_source (fsm r) i i' ->
  source_valid (comb r i') = source_valid (comb r i)
  /\ frame (r, i') = frame (r, i)
  /\ source_last (comb r i') = source_last (comb r i).
Proof.
  destruct r as [st ? ? ? ? ? ? ? ? ? ? ? ? ?]. cbn [fsm same_source].
  destruct st;
    try (intros (Ha & Hc & Hd & Ht & Hv & Hb & Hcrc);
         unfold frame, source_ctrl; cbn [fst snd]; ctrl_unfold;
         unfold ccases_data, ccases_last, blkcases_data, waitresp, dataxfer;
         rewrite ?Ha, ?Hc, ?Hd, ?Ht, ?Hv, ?Hb, ?Hcrc;
         repeat split; reflexivity).
  - intros Hbc. unfold frame, source_ctrl; cbn [fst snd]; ctrl_unfold.
    rewrite Hbc. repeat split; reflexivity.
  - intros (Hgv & Hgd & Hgl).
    unfold frame, source_ctrl; cbn [fst snd]; ctrl_unfold.
    rewrite Hgv, Hgd, Hgl. repeat split; reflexivity.
Qed.

(** The sink frame that ends the request moves the machine on, whether
    the request on the source was taken or not. *)
Lemma ctrl_request_withdrawn (r : regs) (i i' : inputs) :
  ends_request r i = true ->
  source_valid (comb r i) = true
  /\ fsm (next r i) <> fsm r
  /\ (source_valid (comb (next r i) i') = false
      \/ snd (frame (next r i, i')) <> snd (frame (r, i))).
Proof.
  intros He. destruct r as [st ? ? ? ? ? ? ? ? ? ? ? ? ?].
  unfold ends_request in He. cbn [fsm] in He.
  destruct st; try discriminate He.
  - (* RECV_RESP *)
    apply andb_prop in He. destruct He as (He & Hend).
    apply andb_prop in He. destruct He as (Hv & Hc).
    unfold frame, source_ctrl; cbn [fst snd]; ctrl_unfold.
    rewrite Hv, Hc.
    destruct (status i =? SDCARD_STREAM_STATUS_TIMEOUT); ctrl_unfold.
    + split; [reflexivity | split; [discriminate | left; reflexivity]].
    + cbn [orb] in Hend. rewrite Hend.
      repeat (break_if; ctrl_unfold);
        (split; [reflexivity | split; [discriminate | ]]);
        first [left; reflexivity | right; discriminate].
  - (* RECV_DATA *)
    apply andb_prop in He. destruct He as (Hv & Ht).
    ctrl_unfold. rewrite Hv, Ht. ctrl_unfold.
    split; [reflexivity | split; [discriminate | left; reflexivity]].
Qed.

(** The reader presents a frame in CMD_READ (the byte at the head of the
    FIFO) and in TIMEOUT; untaken, it leaves the registers as they are. *)
Lemma cmdr_untaken_frame_held (r : SDPHYCMDR.regs) (i i' : SDPHYCMDR.inputs) :
  SDPHYCMDR.source_valid (SDPHYCMDR.comb r i) = true ->
  SDPHYCMDR.source_ready i = false ->
  (SDPHYCMDR.fsm r = SDPHYCMDR.CMD_READ \/ SDPHYCMDR.fsm r = SDPHYCMDR.TIMEOUT)
  /\ SDPHYCMDR.next r i = r
  /\ ((SDPHYCMDR.fsm r = SDPHYCMDR.CMD_READ ->
       SDPHYCMDR.fifo_source_valid i' = SDPHYCMDR.fifo_source_valid i
       /\ SDPHYCMDR.fifo_source_data i' = SDPHYCMDR.fifo_source_data i) ->
      SDPHYCMDR.source_valid (SDPHYCMDR.comb r i') = true
      /\ SDPHYCMDR.source_data (SDPHYCMDR.comb r i')
         = SDPHYCMDR.source_data (SDPHYCMDR.comb r i)
      /\ SDPHYCMDR.source_ctrl (SDPHYCMDR.comb r i')
         = SDPHYCMDR.source_ctrl (SDPHYCMDR.comb r i)
      /\ SDPHYCMDR.source_last (SDPHYCMDR.comb r i')
         = SDPHYCMDR.source_last (SDPHYCMDR.comb r i)).
Proof.
  intros Hv Hr. destruct r as [st ? ? ? ?].
  destruct st; try discriminate Hv; revert Hv;
    unfold SDPHYCMDR.source_ctrl; cmdr_unfold; rewrite Hr;
    intros Hv; rewrite ?Hv.
  - split; [left; reflexivity | ]. split; [reflexivity | ].
    intros Hf. destruct (Hf eq_refl) as (Hfv & Hfd).
    rewrite Hfv, Hfd. repeat split; reflexivity.
  - split; [right; reflexivity | ]. split; [reflexivity | ].
    intros _. repeat split; reflexivity.
Qed.

(** The sampler presents a byte in the cycle where [sel] is 7 and moves to
    [sel] = 0 at the clock edge, whatever [source.ready] is. *)
Lemma sampler_valid_one_cycle (r : SDPHYCMDRFB.regs) (i i' : SDPHYCMDRFB.inputs) :
  SDPHYCMDRFB.source_valid r i = true ->
  SDPHYCMDRFB.sel (SDPHYCMDRFB.next r i) = 0
  /\ SDPHYCMDRFB.source_valid (SDPHYCMDRFB.next r i) i' = false.
Proof.
  destruct r as [st s d]. destruct st; rfb_unfold; try discriminate.
  destruct (SDPHYCMDRFB.enable i); try discriminate.
  destruct (s =? 7) eqn:Hs; try discriminate. intros _.
  rfb_unfold. split; [reflexivity | ].
  destruct (SDPHYCMDRFB.enable i'); reflexivity.
Qed.

(** C3 (counterexample).  The sampler has shifted in the start bit and six
    more bits; in the cycle of the eighth bit it presents the byte 85 while
    the FIFO is not ready.  One clock edge later the sampler presents
    nothing: the byte was on the stream for that one cycle only. *)
Lemma sampler_byte_lost_when_fifo_not_ready :
  let bit b := SDPHYCMDRFB.mkInputs true b true in
  let r := SDPHYCMDRFB.run SDPHYCMDRFB.reset
             [ bit true; bit false; bit true; bit false; bit true; bit false;
               bit true; bit false ] in
  let i := SDPHYCMDRFB.mkInputs true true false in
  SDPHYCMDRFB.source_valid r i = true
  /\ SDPHYCMDRFB.source_data r i = 85
  /\ SDPHYCMDRFB.source_ready i = false
  /\ SDPHYCMDRFB.source_valid (SDPHYCMDRFB.next r i) i = false.
Proof. cbv zeta. repeat split; vm_compute; reflexivity. Qed.

(** C3 (amended).  A valid source frame that is not taken is held, with
    two exceptions.
    Orchestrator: unless the sink frame of the cycle ends the request (see
    below), the machine stays in its state and the outputs of the next
    cycle are those of the present registers; with the sources of the
    frame reading the same (host registers and CRC7; block count in
    RECV_DATA; CRC16 generator in SEND_DATA) the same payload, tag and last
    marker are valid in the next cycle.
    First exception: in RECV_RESP a valid frame of the command channel
    that is a timeout or the last byte, and in RECV_DATA a valid frame with
    status TIMEOUT, end the state whether the request on the source was
    taken or not: the next cycle presents no frame or a frame with another
    tag.
    Command reader: it presents a frame in CMD_READ and TIMEOUT only; not
    taken, the registers stay as they are and the same frame is valid in
    the next cycle (in CMD_READ as long as the FIFO holds the byte).
    Second exception: the bit sampler SDPHYCMDRFB never reads
    [source.ready]: a byte is valid only in the cycle where [sel] is 7 and
    is not valid in the next cycle, taken or not. *)
Theorem source_frames_held_unless_request_ended :
  (forall (r : regs) (i i' : inputs),
      source_valid (comb r i) = true ->
      source_ready i = false ->
      ends_request r i = false ->
      fsm (next r i) = fsm r
      /\ comb (next r i) i' = comb r i'
      /\ (same_source (fsm r) i i' ->
          source_valid (comb (next r i) i') = true
          /\ frame (next r i, i') = frame (r, i)
          /\ source_last (comb (next r i) i') = source_last (comb r i)))
  /\ (forall (r : regs) (i i' : inputs),
      ends_request r i = true ->
      source_valid (comb r i) = true
      /\ fsm (next r i) <> fsm r
      /\ (source_valid (comb (next r i) i') = false
          \/ snd (frame (next r i, i')) <> snd (frame (r, i))))
  /\ (forall (r : SDPHYCMDR.regs) (i i' : SDPHYCMDR.inputs),
      SDPHYCMDR.source_valid (SDPHYCMDR.comb r i) = true ->
      SDPHYCMDR.source_ready i = false ->
      (SDPHYCMDR.fsm r = SDPHYCMDR.CMD_READ
       \/ SDPHYCMDR.fsm r = SDPHYCMDR.TIMEOUT)
      /\ SDPHYCMDR.next r i = r
      /\ ((SDPHYCMDR.fsm r = SDPHYCMDR.CMD_READ ->
           SDPHYCMDR.fifo_source_valid i' = SDPHYCMDR.fifo_source_valid i
           /\ SDPHYCMDR.fifo_source_data i' = SDPHYCMDR.fifo_source_data i) ->
          SDPHYCMDR.source_valid (SDPHYCMDR.comb (SDPHYCMDR.next r i) i')
          = true
          /\ SDPHYCMDR.source_data (SDPHYCMDR.comb (SDPHYCMDR.next r i) i')
             = SDPHYCMDR.source_data (SDPHYCMDR.comb r i)
          /\ SDPHYCMDR.source_ctrl (SDPHYCMDR.comb (SDPHYCMDR.next r i) i')
             = SDPHYCMDR.source_ctrl (SDPHYCMDR.comb r i)
          /\ SDPHYCMDR.source_last (SDPHYCMDR.comb (SDPHYCMDR.next r i) i')
             = SDPHYCMDR.source_last (SDPHYCMDR.comb r i)))
  /\ (forall (r : SDPHYCMDRFB.regs) (i i' : SDPHYCMDRFB.inputs),
      SDPHYCMDRFB.source_valid r i = true ->
      SDPHYCMDRFB.source_valid (SDPHYCMDRFB.next r i) i' = false).
Proof.
  split; [ | split; [ | split]].
  - intros r i i' Hv Hr He.
    destruct (ctrl_untaken_frame_stays r i i' Hv Hr He) as (Hs & Hc).
    split; [exact Hs | ]. split; [exact Hc | ]. intros Hsame.
    destruct (ctrl_frame_of_source r i i' Hsame) as (Hv' & Hf & Hl).
    unfold frame in *. cbn [fst snd] in *. rewrite Hc.
    split; [congruence | split; assumption].
  - intros r i i' He. now apply ctrl_request_withdrawn.
  - intros r i i' Hv Hr.
    destruct (cmdr_untaken_frame_held r i i' Hv Hr) as (Hst & Hn & Hh).
    rewrite Hn. split; [exact Hst | ]. split; [reflexivity | exact Hh].
  - intros r i i' Hv. now apply sampler_valid_one_cycle.
Qed.

Lemma source_frames_held_unless_request_ended_witness :
  let r := mkRegs CFG_TIMEOUT_DATA 0 true true 0 2
             false false false false false 0 0 0 in
  let i := host_datatimeout 305419896 false low in
  let d := mkRegs RECV_DATA 0 true false 1 0
             false true false false true 0 0 0 in
  let t := sink 0 3 true (host_blockcount 2 low) in
  let c := SDPHYCMDR.mkRegs SDPHYCMDR.CMD_READ 9 0 5 0 in
  let b := SDPHYCMDR.mkInputs true 5 false false true 17 100 in
  let s := SDPHYCMDRFB.mkRegs SDPHYCMDRFB.READ 7 42 in
  let j := SDPHYCMDRFB.mkInputs true true false in
  (source_valid (comb r i) = true
   /\ source_ready i = false
   /\ ends_request r i = false
   /\ same_source (fsm r) i i
   /\ fsm (next r i) = fsm r
   /\ frame (next r i, i) = frame (r, i))
  /\ (ends_request d t = true
      /\ source_ready t = false
      /\ source_valid (comb d t) = true
      /\ fsm (next d t) <> fsm d)
  /\ (SDPHYCMDR.source_valid (SDPHYCMDR.comb c b) = true
      /\ SDPHYCMDR.source_ready b = false
      /\ SDPHYCMDR.next c b = c)
  /\ (SDPHYCMDRFB.source_valid s j = true
      /\ SDPHYCMDRFB.source_valid (SDPHYCMDRFB.next s j) j = false).
Proof.
  cbv zeta.
  assert (Hsame : same_source CFG_TIMEOUT_DATA
                    (host_datatimeout 305419896 false low)
                    (host_datatimeout 305419896 false low))
    by (repeat split; reflexivity).
  pose proof source_frames_held_unless_request_ended as (H1 & H2 & H3 & H4).
  split; [ | split; [ | split]].
  - do 3 (split; [reflexivity | ]). split; [exact Hsame | ].
    destruct (H1 (mkRegs CFG_TIMEOUT_DATA 0 true true 0 2
                    false false false false false 0 0 0)
                (host_datatimeout 305419896 false low)
                (host_datatimeout 305419896 false low)
                eq_refl eq_refl eq_refl) as (Hs & _ & Hf).
    split; [exact Hs | ]. exact (proj1 (proj2 (Hf Hsame))).
  - do 2 (split; [reflexivity | ]).
    destruct (H2 (mkRegs RECV_DATA 0 true false 1 0
                    false true false false true 0 0 0)
                (sink 0 3 true (host_blockcount 2 low))
                (sink 0 3 true (host_blockcount 2 low)) eq_refl)
      as (Hv & Hne & _).
    exact (conj Hv Hne).
  - do 2 (split; [reflexivity | ]).
    exact (proj1 (proj2
             (H3 (SDPHYCMDR.mkRegs SDPHYCMDR.CMD_READ 9 0 5 0)
                 (SDPHYCMDR.mkInputs true 5 false false true 17 100)
                 (SDPHYCMDR.mkInputs true 5 false false true 17 100)
                 eq_refl eq_refl))).
  - split; [reflexivity | ].
    exact (H4 (SDPHYCMDRFB.mkRegs SDPHYCMDRFB.READ 7 42)
              (SDPHYCMDRFB.mkInputs true true false)
              (SDPHYCMDRFB.mkInputs true true false) eq_refl).
Defined.

(** ** Command timeout *)

Lemma cmdr_run_cons (r : SDPHYCMDR.regs) (i : SDPHYCMDR.inputs) l :
  SDPHYCMDR.run r (i :: l) = SDPHYCMDR.run (SDPHYCMDR.next r i) l.
Proof. reflexivity. Qed.

Lemma cmdr_run_snoc (r : SDPHYCMDR.regs) l (i : SDPHYCMDR.inputs) :
  SDPHYCMDR.run r (l ++ [i]) = SDPHYCMDR.next (SDPHYCMDR.run r l) i.
Proof. unfold SDPHYCMDR.run. now rewrite fold_left_app. Qed.

(** The read request starts the wait with the counter at 0. *)
Lemma cmdr_request_starts_counter (r : SDPHYCMDR.regs) (i : SDPHYCMDR.inputs) :
  SDPHYCMDR.fsm r = SDPHYCMDR.IDLE -> SDPHYCMDR.sink_valid i = true ->
  SDPHYCMDR.fsm (SDPHYCMDR.next r i) = SDPHYCMDR.CMD_READSTART
  /\ SDPHYCMDR.ctimeout (SDPHYCMDR.next r i) = 0.
Proof.
  intros Hs Hv. destruct r as [st ? ? ? ?]. cbn in Hs. subst st.
  cmdr_unfold. rewrite Hv. split; reflexivity.
Qed.

(** One cycle of CMD_READSTART without a byte: the counter is compared
    with the threshold and incremented on 32 bits. *)
Lemma cmdr_readstart_step (r : SDPHYCMDR.regs) (i : SDPHYCMDR.inputs) :
  SDPHYCMDR.fsm r = SDPHYCMDR.CMD_READSTART ->
  SDPHYCMDR.fifo_source_valid i = false ->
  SDPHYCMDR.fsm (SDPHYCMDR.next r i)
  = (if SDPHYCMDR.cfgctimeout i <? SDPHYCMDR.ctimeout r
     then SDPHYCMDR.TIMEOUT else SDPHYCMDR.CMD_READSTART)
  /\ SDPHYCMDR.ctimeout (SDPHYCMDR.next r i)
     = (SDPHYCMDR.ctimeout r + 1) mod 2 ^ 32.
Proof.
  intros Hs Hv. destruct r as [st c ? ? ?]. cbn in Hs. subst st.
  cmdr_unfold. rewrite Hv.
  destruct (SDPHYCMDR.cfgctimeout i <? c); cmdr_unfold;
    (split; [reflexivity | apply trunc_mod; lia]).
Qed.

(** A byte in the FIFO ends the wait, whatever the counter reads. *)
Lemma cmdr_byte_ends_wait (r : SDPHYCMDR.regs) (i : SDPHYCMDR.inputs) :
  SDPHYCMDR.fsm r = SDPHYCMDR.CMD_READSTART ->
  SDPHYCMDR.fifo_source_valid i = true ->
  SDPHYCMDR.fsm (SDPHYCMDR.next r i) = SDPHYCMDR.CMD_READ.
Proof.
  intros Hs Hv. destruct r as [st c ? ? ?]. cbn in Hs. subst st.
  cmdr_unfold. rewrite Hv. reflexivity.
Qed.

(** TIMEOUT is entered from CMD_READSTART only, in a cycle without a byte
    whose counter is above the threshold. *)
Lemma cmdr_timeout_entry (r : SDPHYCMDR.regs) (i : SDPHYCMDR.inputs) :
  SDPHYCMDR.fsm (SDPHYCMDR.next r i) = SDPHYCMDR.TIMEOUT ->
  SDPHYCMDR.fsm r = SDPHYCMDR.TIMEOUT
  \/ (SDPHYCMDR.fsm r = SDPHYCMDR.CMD_READSTART
      /\ SDPHYCMDR.fifo_source_valid i = false
      /\ SDPHYCMDR.cfgctimeout i < SDPHYCMDR.ctimeout r).
Proof.
  destruct r as [st c ? ? ?]. destruct st; cmdr_unfold;
    repeat (break_if; cmdr_unfold); intros H; try discriminate H;
    try (left; reflexivity).
  right. repeat split. now apply Z.ltb_lt.
Qed.

Lemma cmdr_waits_below_threshold (T : Z) (l : list SDPHYCMDR.inputs) :
  forall (r : SDPHYCMDR.regs),
    T < 2 ^ 32 - 1 ->
    SDPHYCMDR.fsm r = SDPHYCMDR.CMD_READSTART ->
    0 <= SDPHYCMDR.ctimeout r ->
    Forall (fun j => SDPHYCMDR.fifo_source_valid j = false
                     /\ SDPHYCMDR.cfgctimeout j = T) l ->
    SDPHYCMDR.ctimeout r + Z.of_nat (length l) <= T + 1 ->
    SDPHYCMDR.fsm (SDPHYCMDR.run r l) = SDPHYCMDR.CMD_READSTART
    /\ SDPHYCMDR.ctimeout (SDPHYCMDR.run r l)
       = SDPHYCMDR.ctimeout r + Z.of_nat (length l).
Proof.
  induction l as [|i l IH]; intros r HT Hs Hc Hl Hlen.
  - cbn. split; [assumption | lia].
  - inversion Hl as [|? ? (Hv & Hcfg) Hl']; subst.
    cbn [length] in Hlen. rewrite Nat2Z.inj_succ in Hlen.
    rewrite cmdr_run_cons.
    destruct (cmdr_readstart_step r i Hs Hv) as (Hs' & Hc').
    assert (Hno : (SDPHYCMDR.cfgctimeout i <? SDPHYCMDR.ctimeout r) = false)
      by (apply Z.ltb_ge; lia).
    rewrite Hno in Hs'.
    rewrite Z.mod_small in Hc' by lia.
    destruct (IH (SDPHYCMDR.next r i)) as (Hf & Hcf);
      try assumption; try lia.
    split; [assumption | ].
    rewrite Hcf, Hc'. cbn [length]. rewrite Nat2Z.inj_succ. lia.
Qed.

(** With the largest threshold the 32-bit counter never exceeds it. *)
Lemma cmdr_waits_forever_at_max (i : SDPHYCMDR.inputs) (r : SDPHYCMDR.regs) :
  SDPHYCMDR.fsm r = SDPHYCMDR.CMD_READSTART ->
  0 <= SDPHYCMDR.ctimeout r < 2 ^ 32 ->
  SDPHYCMDR.fifo_source_valid i = false ->
  SDPHYCMDR.cfgctimeout i = 2 ^ 32 - 1 ->
  forall n : N,
    SDPHYCMDR.fsm (SDPHYCMDR.wait n i r) = SDPHYCMDR.CMD_READSTART
    /\ 0 <= SDPHYCMDR.ctimeout (SDPHYCMDR.wait n i r) < 2 ^ 32.
Proof.
  intros Hs Hc Hv HT n. unfold SDPHYCMDR.wait.
  induction n as [|n IH] using N.peano_ind.
  - cbn. now split.
  - rewrite N.iter_succ. destruct IH as (Hs' & Hc').
    destruct (cmdr_readstart_step _ i Hs' Hv) as (Hs'' & Hc'').
    assert (Hno : (SDPHYCMDR.cfgctimeout i
                   <? SDPHYCMDR.ctimeout
                        (N.iter n (fun s => SDPHYCMDR.next s i) r)) = false)
      by (apply Z.ltb_ge; lia).
    rewrite Hno in Hs''. split; [assumption | ].
    rewrite Hc''. apply Z.mod_pos_bound. lia.
Qed.

(** C7 (counterexample).  The threshold is the largest 32-bit value.  A
    read request starts the wait and no byte ever arrives; the source is
    not ready, so a machine that had entered TIMEOUT would still be there.
    4294967301 cycles later, more than the threshold plus one, the reader
    is still in CMD_READSTART. *)
Lemma no_timeout_at_largest_threshold :
  let i := SDPHYCMDR.mkInputs true 5 false false false 0 4294967295 in
  let r := SDPHYCMDR.next SDPHYCMDR.reset i in
  SDPHYCMDR.fsm r = SDPHYCMDR.CMD_READSTART
  /\ SDPHYCMDR.ctimeout r = 0
  /\ SDPHYCMDR.cfgctimeout i < 4294967301
  /\ SDPHYCMDR.fsm (SDPHYCMDR.wait 4294967301 i r) = SDPHYCMDR.CMD_READSTART
  /\ SDPHYCMDR.fsm (SDPHYCMDR.wait 4294967301 i r) <> SDPHYCMDR.TIMEOUT.
Proof.
  cbv zeta.
  assert (H : SDPHYCMDR.fsm
                (SDPHYCMDR.wait 4294967301
                   (SDPHYCMDR.mkInputs true 5 false false false 0 4294967295)
                   (SDPHYCMDR.next SDPHYCMDR.reset
                      (SDPHYCMDR.mkInputs true 5 false false false 0
                         4294967295)))
              = SDPHYCMDR.CMD_READSTART).
  { apply cmdr_waits_forever_at_max;
      [reflexivity | cbn; lia | reflexivity | reflexivity]. }
  split; [reflexivity | ].
  split; [reflexivity | ].
  split; [reflexivity | ].
  split; [exact H | ].
  rewrite H. discriminate.
Qed.

(** C7 (amended).  For every threshold [T] below the largest 32-bit value:
    a read request starts the wait with the counter at 0; while no byte
    arrives the reader stays in CMD_READSTART for [T] + 2 cycles, the
    counter reading the number of cycles waited, and it is in TIMEOUT right
    after them, that is, the edge of the first cycle whose count exceeds
    [T] enters TIMEOUT.  A byte in the FIFO moves the reader to CMD_READ in
    any cycle of the wait, and TIMEOUT can only be entered from
    CMD_READSTART in a cycle without a byte.  With [T] = 2^32 - 1 the
    counter never exceeds the threshold and TIMEOUT is never entered. *)
Theorem command_timeout_fires_after_threshold :
  forall (T : Z) (r0 : SDPHYCMDR.regs) (i0 : SDPHYCMDR.inputs)
         (l : list SDPHYCMDR.inputs),
    0 <= T < 2 ^ 32 - 1 ->
    SDPHYCMDR.fsm r0 = SDPHYCMDR.IDLE ->
    SDPHYCMDR.sink_valid i0 = true ->
    Forall (fun j => SDPHYCMDR.fifo_source_valid j = false
                     /\ SDPHYCMDR.cfgctimeout j = T) l ->
    let r := SDPHYCMDR.next r0 i0 in
    (Z.of_nat (length l) <= T + 1 ->
       SDPHYCMDR.fsm (SDPHYCMDR.run r l) = SDPHYCMDR.CMD_READSTART
       /\ SDPHYCMDR.ctimeout (SDPHYCMDR.run r l) = Z.of_nat (length l))
    /\ (Z.of_nat (length l) = T + 2 ->
          SDPHYCMDR.fsm (SDPHYCMDR.run r l) = SDPHYCMDR.TIMEOUT)
    /\ (forall s j,
          SDPHYCMDR.fsm s = SDPHYCMDR.CMD_READSTART ->
          SDPHYCMDR.fifo_source_valid j = true ->
          SDPHYCMDR.fsm (SDPHYCMDR.next s j) = SDPHYCMDR.CMD_READ)
    /\ (forall s j,
          SDPHYCMDR.fsm (SDPHYCMDR.next s j) = SDPHYCMDR.TIMEOUT ->
          SDPHYCMDR.fsm s = SDPHYCMDR.TIMEOUT
          \/ (SDPHYCMDR.fsm s = SDPHYCMDR.CMD_READSTART
              /\ SDPHYCMDR.fifo_source_valid j = false
              /\ SDPHYCMDR.cfgctimeout j < SDPHYCMDR.ctimeout s))
    /\ (forall (n : N) j,
          SDPHYCMDR.fifo_source_valid j = false ->
          SDPHYCMDR.cfgctimeout j = 2 ^ 32 - 1 ->
          SDPHYCMDR.fsm (SDPHYCMDR.wait n j r) = SDPHYCMDR.CMD_READSTART).
Proof.
  intros T r0 i0 l HT Hs0 Hv0 Hl r.
  destruct (cmdr_request_starts_counter r0 i0 Hs0 Hv0) as (Hs & Hc).
  fold r in Hs, Hc.
  split; [ | split; [ | split; [ | split]]].
  - intros Hlen.
    destruct (cmdr_waits_below_threshold T l r) as (Hf & Hcf);
      try assumption; try lia.
    split; [assumption | lia].
  - intros Hlen.
    destruct (exists_last (l := l)) as (l' & j & ->).
    { intros ->. cbn in Hlen. lia. }
    rewrite length_app in Hlen. cbn [length] in Hlen.
    apply Forall_app in Hl. destruct Hl as (Hl' & Hj).
    inversion Hj as [|? ? (Hjv & Hjc) _]; subst.
    destruct (cmdr_waits_below_threshold (SDPHYCMDR.cfgctimeout j) l' r)
      as (Hf & Hcf); try assumption; try lia.
    rewrite cmdr_run_snoc.
    destruct (cmdr_readstart_step _ j Hf Hjv) as (Hs' & _).
    rewrite Hs'.
    assert (Hyes : (SDPHYCMDR.cfgctimeout j
                    <? SDPHYCMDR.ctimeout (SDPHYCMDR.run r l')) = true)
      by (apply Z.ltb_lt; lia).
    now rewrite Hyes.
  - intros s j. apply cmdr_byte_ends_wait.
  - intros s j. apply cmdr_timeout_entry.
  - intros n j Hjv Hjc.
    apply cmdr_waits_forever_at_max; try assumption. rewrite Hc. lia.
Qed.

(** ** Configuration writes *)

Lemma slice_spec (x lo hi n : Z) :
  0 <= lo -> lo <= hi -> 0 <= n ->
  Z.testbit (slice x lo hi) n = (n <? hi - lo) && Z.testbit x (n + lo).
Proof.
  intros Hlo Hhi Hn. unfold slice.
  rewrite Z.land_spec, Z.shiftr_spec by assumption.
  rewrite Z.testbit_ones_nonneg by lia. apply andb_comm.
Qed.

Lemma set_slice_spec (x lo hi d n : Z) :
  0 <= lo -> lo <= hi -> 0 <= n ->
  Z.testbit (set_slice x lo hi d) n
  = if (lo <=? n) && (n <? hi) then Z.testbit d (n - lo) else Z.testbit x n.
Proof.
  intros Hlo Hhi Hn. unfold set_slice, trunc.
  rewrite Z.lor_spec, Z.land_spec, Z.lnot_spec by assumption.
  rewrite !Z.shiftl_spec by assumption.
  destruct (Z.leb_spec lo n) as [Hle | Hlt].
  - rewrite Z.land_spec, !Z.testbit_ones_nonneg by lia.
    replace (n - lo <? hi - lo) with (n <? hi)
      by (destruct (Z.ltb_spec n hi), (Z.ltb_spec (n - lo) (hi - lo)); lia).
    destruct (n <? hi); cbn.
    + now rewrite andb_false_r, andb_true_r.
    + now rewrite andb_true_r, andb_false_r, orb_false_r.
  - rewrite (Z.testbit_neg_r (Z.ones (hi - lo)) (n - lo)) by lia.
    rewrite (Z.testbit_neg_r (Z.land d (Z.ones (hi - lo))) (n - lo)) by lia.
    cbn. now rewrite andb_true_r, orb_false_r.
Qed.

Lemma high_bits_clear (w v n : Z) :
  0 <= w -> 0 <= v < 2 ^ w -> w <= n -> Z.testbit v n = false.
Proof.
  intros Hw Hv Hn. rewrite <- (Z.mod_small v (2 ^ w)) by assumption.
  apply Z.mod_pow2_bits_high. lia.
Qed.

(** Four bytes written most significant first rebuild a 32-bit value. *)
Lemma latch_four_bytes (c v : Z) :
  0 <= c < 2 ^ 32 -> 0 <= v < 2 ^ 32 ->
  set_slice
    (set_slice
       (set_slice (set_slice c 24 32 (slice v 24 32)) 16 24 (slice v 16 24))
       8 16 (slice v 8 16))
    0 8 (slice v 0 8) = v.
Proof.
  intros Hc Hv. apply Z.bits_inj'. intros n Hn.
  rewrite !set_slice_spec by lia.
  destruct (Z.lt_ge_cases n 32) as [Hlt | Hge].
  - bit_cases; rewrite slice_spec by lia; bit_cases; f_equal; lia.
  - bit_cases. rewrite (high_bits_clear 32 c n), (high_bits_clear 32 v n);
      try reflexivity; lia.
Qed.

(** Two bytes written most significant first rebuild a 16-bit value. *)
Lemma latch_two_bytes (c v : Z) :
  0 <= c < 2 ^ 16 -> 0 <= v < 2 ^ 16 ->
  set_slice (set_slice c 8 16 (slice v 8 16)) 0 8 (slice v 0 8) = v.
Proof.
  intros Hc Hv. apply Z.bits_inj'. intros n Hn.
  rewrite !set_slice_spec by lia.
  destruct (Z.lt_ge_cases n 16) as [Hlt | Hge].
  - bit_cases; rewrite slice_spec by lia; bit_cases; f_equal; lia.
  - bit_cases. rewrite (high_bits_clear 16 c n), (high_bits_clear 16 v n);
      try reflexivity; lia.
Qed.

Lemma low_bit_of_byte (v : Z) : Z.testbit (slice v 0 8) 0 = Z.testbit v 0.
Proof. rewrite slice_spec by lia. reflexivity. Qed.

Lemma during_cons (p : fsm_state -> bool) (r : regs) (i : inputs) l :
  during p r (i :: l)
  = if p (fsm r)
    then ((r, i) :: fst (during p (next r i) l), snd (during p (next r i) l))
    else ([], r).
Proof.
  cbn [during]. destruct (p (fsm r)); [ | reflexivity].
  destruct (during p (next r i) l); reflexivity.
Qed.

Lemma during_outside (p : fsm_state -> bool) (r : regs) l :
  p (fsm r) = false -> during p r l = ([], r).
Proof. destruct l; cbn [during]; [reflexivity | ]. now intros ->. Qed.

Lemma frames_cons (c : regs * inputs) tr :
  frames (c :: tr) = if fired c then frame c :: frames tr else frames tr.
Proof. unfold frames. cbn [filter]. destruct (fired c); reflexivity. Qed.

Lemma skipn_nth {A : Type} (d : A) (l : list A) :
  forall n, (n < length l)%nat -> skipn n l = nth n l d :: skipn (S n) l.
Proof.
  induction l as [|a l IH]; intros n Hn; cbn [length] in Hn.
  - lia.
  - destruct n as [|n]; [reflexivity | ].
    cbn [skipn nth]. rewrite IH by lia. reflexivity.
Qed.

Lemma is_cfg_busy (x : fsm_state) : is_cfg x = true -> busy x = true.
Proof. destruct x; cbn; congruence. Qed.

Lemma is_cfg_sends_registers (x : fsm_state) :
  is_cfg x = true -> sends_registers x = true.
Proof. destruct x; cbn; congruence. Qed.

Lemma not_ready_not_fired (r : regs) (i : inputs) :
  source_ready i = false -> fired (r, i) = false.
Proof.
  intros H. unfold fired, source_fire. cbn [fst snd]. rewrite H.
  apply andb_false_r.
Qed.

(** One accepted byte of a configuration write. *)
Lemma cfg_fire (r : regs) (h i : inputs) :
  is_cfg (fsm r) = true ->
  0 <= pos r < Z.of_nat (length (cfg_frames (fsm r) h)) ->
  source_ready i = true -> same_registers h i ->
  fired (r, i) = true
  /\ frame (r, i) = nth (Z.to_nat (pos r)) (cfg_frames (fsm r) h) (0, 0)
  /\ (if pos r + 1 =? Z.of_nat (length (cfg_frames (fsm r) h))
      then fsm (next r i) = IDLE
      else fsm (next r i) = fsm r
           /\ is_cfg (fsm (next r i)) = true
           /\ pos (next r i) = pos r + 1).
Proof.
  intros Hc Hp Hr (Ha & Hcm & Hd & Ht & Hv & Hb & Hcrc).
  destruct r as [st ? ? ? ? p ? ? ? ? ? ? ? ?].
  destruct st; try discriminate Hc; cbn [fsm pos cfg_frames length] in *;
    change (Z.of_nat 4) with 4 in *; change (Z.of_nat 2) with 2 in *;
    change (Z.of_nat 1) with 1 in *.
  - assert (Hp4 : p = 0 \/ p = 1 \/ p = 2 \/ p = 3) by lia.
    destruct Hp4 as [-> | [-> | [-> | ->]]];
      unfold fired, frame, source_ctrl; cbn [fst snd]; ctrl_unfold;
      rewrite Hr; unfold timeout_byte; rewrite Hd;
      repeat split; reflexivity.
  - assert (Hp4 : p = 0 \/ p = 1 \/ p = 2 \/ p = 3) by lia.
    destruct Hp4 as [-> | [-> | [-> | ->]]];
      unfold fired, frame, source_ctrl; cbn [fst snd]; ctrl_unfold;
      rewrite Hr; unfold timeout_byte; rewrite Ht;
      repeat split; reflexivity.
  - assert (Hp2 : p = 0 \/ p = 1) by lia.
    destruct Hp2 as [-> | ->];
      unfold fired, frame, source_ctrl; cbn [fst snd]; ctrl_unfold;
      rewrite Hr; unfold blkcases_data, blkcases_mode; rewrite Hb;
      repeat split; reflexivity.
  - assert (p = 0) by lia. subst p.
    unfold fired, frame, source_ctrl; cbn [fst snd]; ctrl_unfold;
      rewrite Hr, Hv; repeat split; reflexivity.
Qed.

(** The frames of a configuration write from byte [pos] on, and its end. *)
Lemma cfg_stream (h : inputs) (l : list inputs) :
  forall r,
    is_cfg (fsm r) = true ->
    0 <= pos r < Z.of_nat (length (cfg_frames (fsm r) h)) ->
    Forall (same_registers h) l ->
    (fsm (snd (during busy r l)) = IDLE ->
       frames (fst (during busy r l))
       = skipn (Z.to_nat (pos r)) (cfg_frames (fsm r) h))
    /\ ((length (cfg_frames (fsm r) h) - Z.to_nat (pos r)
         <= ready_cycles l)%nat ->
        fsm (snd (during busy r l)) = IDLE).
Proof.
  induction l as [|i l IH]; intros r Hc Hp Hl.
  - cbn [during fst snd]. split.
    + intros Hi. rewrite Hi in Hc. discriminate Hc.
    + unfold ready_cycles. cbn [filter length]. lia.
  - inversion Hl as [|? ? Hi Hl']; subst.
    rewrite during_cons, (is_cfg_busy _ Hc). cbn [fst snd].
    rewrite frames_cons.
    destruct (source_ready i) eqn:Hr.
    + destruct (cfg_fire r h i Hc Hp Hr Hi) as (Hf & Hfr & Hn).
      rewrite Hf, Hfr.
      rewrite (skipn_nth (0, 0)) by lia.
      replace (ready_cycles (i :: l)) with (S (ready_cycles l))
        by (unfold ready_cycles; cbn [filter]; now rewrite Hr).
      destruct (pos r + 1 =? Z.of_nat (length (cfg_frames (fsm r) h)))
        eqn:Hlast.
      * apply Z.eqb_eq in Hlast.
        rewrite during_outside by (rewrite Hn; reflexivity).
        cbn [fst snd]. split; [ | intros _; exact Hn].
        intros _. unfold frames at 1. cbn [filter map]. f_equal.
        symmetry. apply skipn_all2. lia.
      * apply Z.eqb_neq in Hlast. destruct Hn as (Hs & Hc' & Hp').
        destruct (IH (next r i)) as (IH1 & IH2);
          [assumption | rewrite Hs, Hp'; lia | assumption | ].
        rewrite Hs, Hp' in IH1, IH2.
        replace (Z.to_nat (pos r + 1)) with (S (Z.to_nat (pos r)))
          in IH1, IH2 by lia.
        split.
        -- intros Hidle. now rewrite IH1.
        -- intros Hcnt. apply IH2. lia.
    + rewrite (ctrl_stalls_until_ready r i (is_cfg_sends_registers _ Hc) Hr).
      rewrite not_ready_not_fired by assumption.
      replace (ready_cycles (i :: l)) with (ready_cycles l)
        by (unfold ready_cycles; cbn [filter]; now rewrite Hr).
      now apply IH.
Qed.

Lemma idle_services_strobe (r : regs) (i : inputs) :
  fsm r = IDLE ->
  pos (next r i) = 0
  /\ (datatimeout_re i = true -> fsm (next r i) = CFG_TIMEOUT_DATA)
  /\ (datatimeout_re i = false -> cmdtimeout_re i = true ->
      fsm (next r i) = CFG_TIMEOUT_CMD)
  /\ (datatimeout_re i = false -> cmdtimeout_re i = false ->
      voltage_re i = true -> fsm (next r i) = CFG_VOLTAGE)
  /\ (datatimeout_re i = false -> cmdtimeout_re i = false ->
      voltage_re i = false -> blocksize_re i = true ->
      fsm (next r i) = CFG_BLKSIZE).
Proof.
  intros Hs. destruct r as [st ? ? ? ? ? ? ? ? ? ? ? ? ?].
  cbn in Hs. subst st. ctrl_cases; repeat split; intros; congruence.
Qed.

(** Outside IDLE no statement reads a write strobe. *)
Lemma strobes_ignored_when_busy (s : regs) (j : inputs) (dt ct vo bs cm : bool) :
  fsm s <> IDLE ->
  next s (strobes dt ct vo bs cm j) = next s j
  /\ comb s (strobes dt ct vo bs cm j) = comb s j.
Proof.
  intros Hs. destruct s as [st ? ? ? ? ? ? ? ? ? ? ? ? ?].
  destruct j. destruct st; [now contradiction Hs | ..]; split; reflexivity.
Qed.

Lemma configure_datatimeout (h : inputs) (c : SDPHYCFG.regs) :
  registers_in_range h -> SDPHYCFG.wf c ->
  SDPHY.configure (cfg_frames CFG_TIMEOUT_DATA h) c
  = SDPHYCFG.mkRegs (datatimeout_storage h) (SDPHYCFG.cfgctimeout c)
      (SDPHYCFG.cfgblksize c) (SDPHYCFG.cfgvoltage c).
Proof.
  intros (Hd & _) (Hc & _).
  transitivity
    (SDPHYCFG.mkRegs
       (set_slice
          (set_slice
             (set_slice
                (set_slice (SDPHYCFG.cfgdtimeout c) 24 32
                   (slice (datatimeout_storage h) 24 32))
                16 24 (slice (datatimeout_storage h) 16 24))
             8 16 (slice (datatimeout_storage h) 8 16))
          0 8 (slice (datatimeout_storage h) 0 8))
       (SDPHYCFG.cfgctimeout c) (SDPHYCFG.cfgblksize c)
       (SDPHYCFG.cfgvoltage c)).
  - reflexivity.
  - now rewrite latch_four_bytes.
Qed.

Lemma configure_cmdtimeout (h : inputs) (c : SDPHYCFG.regs) :
  registers_in_range h -> SDPHYCFG.wf c ->
  SDPHY.configure (cfg_frames CFG_TIMEOUT_CMD h) c
  = SDPHYCFG.mkRegs (SDPHYCFG.cfgdtimeout c) (cmdtimeout_storage h)
      (SDPHYCFG.cfgblksize c) (SDPHYCFG.cfgvoltage c).
Proof.
  intros (_ & Hd & _) (_ & Hc & _).
  transitivity
    (SDPHYCFG.mkRegs (SDPHYCFG.cfgdtimeout c)
       (set_slice
          (set_slice
             (set_slice
                (set_slice (SDPHYCFG.cfgctimeout c) 24 32
                   (slice (cmdtimeout_storage h) 24 32))
                16 24 (slice (cmdtimeout_storage h) 16 24))
             8 16 (slice (cmdtimeout_storage h) 8 16))
          0 8 (slice (cmdtimeout_storage h) 0 8))
       (SDPHYCFG.cfgblksize c) (SDPHYCFG.cfgvoltage c)).
  - reflexivity.
  - now rewrite latch_four_bytes.
Qed.

Lemma configure_blocksize (h : inputs) (c : SDPHYCFG.regs) :
  registers_in_range h -> SDPHYCFG.wf c ->
  SDPHY.configure (cfg_frames CFG_BLKSIZE h) c
  = SDPHYCFG.mkRegs (SDPHYCFG.cfgdtimeout c) (SDPHYCFG.cfgctimeout c)
      (blocksize_storage h) (SDPHYCFG.cfgvoltage c).
Proof.
  intros (_ & _ & Hd & _) (_ & _ & Hc).
  transitivity
    (SDPHYCFG.mkRegs (SDPHYCFG.cfgdtimeout c) (SDPHYCFG.cfgctimeout c)
       (set_slice
          (set_slice (SDPHYCFG.cfgblksize c) 8 16
             (slice (blocksize_storage h) 8 16))
          0 8 (slice (blocksize_storage h) 0 8))
       (SDPHYCFG.cfgvoltage c)).
  - reflexivity.
  - now rewrite latch_two_bytes.
Qed.

Lemma configure_voltage (h : inputs) (c : SDPHYCFG.regs) :
  SDPHY.configure (cfg_frames CFG_VOLTAGE h) c
  = SDPHYCFG.mkRegs (SDPHYCFG.cfgdtimeout c) (SDPHYCFG.cfgctimeout c)
      (SDPHYCFG.cfgblksize c) (Z.testbit (voltage_storage h) 0).
Proof.
  transitivity
    (SDPHYCFG.mkRegs (SDPHYCFG.cfgdtimeout c) (SDPHYCFG.cfgctimeout c)
       (SDPHYCFG.cfgblksize c)
       (Z.testbit (slice (voltage_storage h) 0 8) 0)).
  - reflexivity.
  - now rewrite low_bit_of_byte.
Qed.

Lemma cfg_frames_reach_latch (x : fsm_state) (h : inputs) :
  Forall (fun f => SDPHY.connect true (snd f) = SDPHY.TO_CFG) (cfg_frames x h).
Proof. destruct x; cbn [cfg_frames]; repeat constructor. Qed.

(** C8 (counterexample).  The value 2 is written to the voltage register
    in IDLE.  The write is streamed as the single frame (2, tag of
    CFG_VOLTAGE) and latched by the framer, whose [cfgvoltage] then reads
    0, not the written value 2: the latch is one bit wide and keeps bit 0
    of the byte. *)
Lemma voltage_copy_differs_from_register :
  let h := host_voltage 2 false low in
  let r1 := next reset (host_voltage 2 true low) in
  let tr := fst (during busy r1 [h; ready true h; h]) in
  fsm r1 = CFG_VOLTAGE
  /\ fsm (snd (during busy r1 [h; ready true h; h])) = IDLE
  /\ frames tr = [(2, 44)]
  /\ b2z (SDPHYCFG.cfgvoltage (SDPHY.configure (frames tr) SDPHYCFG.reset))
     = 0
  /\ b2z (SDPHYCFG.cfgvoltage (SDPHY.configure (frames tr) SDPHYCFG.reset))
     <> voltage_storage h.
Proof. cbv zeta. repeat split; vm_compute; congruence. Qed.

(** C8 (amended).  A configuration write serviced in IDLE, with the
    registers holding values of their widths and unchanged while the write
    is streamed, and with enough cycles in which the source is ready: the
    machine returns to IDLE having sent exactly the frames of the register
    (4 bytes for a timeout, 2 for the block size, 1 for the voltage, each
    tagged with its mode); every frame is dispatched to the latch, and
    after them the framer's copy of a timeout or of the block size equals
    the register, [cfgvoltage] equals bit 0 of the voltage register, and
    the other three fields are unchanged.  IDLE services one strobe per
    cycle, in the order datatimeout, cmdtimeout, voltage, blocksize.
    Outside IDLE no write strobe is read: the next registers and the
    outputs do not depend on the strobes. *)
Theorem configuration_round_trip :
  forall (r : regs) (i0 h : inputs) (l : list inputs) (c : SDPHYCFG.regs),
    fsm r = IDLE ->
    is_cfg (fsm (next r i0)) = true ->
    registers_in_range h ->
    SDPHYCFG.wf c ->
    Forall (same_registers h) l ->
    (length (cfg_frames (fsm (next r i0)) h) <= ready_cycles l)%nat ->
    let st := fsm (next r i0) in
    let tr := fst (during busy (next r i0) l) in
    let r' := snd (during busy (next r i0) l) in
    fsm r' = IDLE
    /\ frames tr = cfg_frames st h
    /\ Forall (fun f => SDPHY.connect true (snd f) = SDPHY.TO_CFG) (frames tr)
    /\ SDPHY.configure (frames tr) c
       = match st with
         | CFG_TIMEOUT_DATA =>
             SDPHYCFG.mkRegs (datatimeout_storage h) (SDPHYCFG.cfgctimeout c)
               (SDPHYCFG.cfgblksize c) (SDPHYCFG.cfgvoltage c)
         | CFG_TIMEOUT_CMD =>
             SDPHYCFG.mkRegs (SDPHYCFG.cfgdtimeout c) (cmdtimeout_storage h)
               (SDPHYCFG.cfgblksize c) (SDPHYCFG.cfgvoltage c)
         | CFG_BLKSIZE =>
             SDPHYCFG.mkRegs (SDPHYCFG.cfgdtimeout c) (SDPHYCFG.cfgctimeout c)
               (blocksize_storage h) (SDPHYCFG.cfgvoltage c)
         | CFG_VOLTAGE =>
             SDPHYCFG.mkRegs (SDPHYCFG.cfgdtimeout c) (SDPHYCFG.cfgctimeout c)
               (SDPHYCFG.cfgblksize c) (Z.testbit (voltage_storage h) 0)
         | _ => c
         end
    /\ (datatimeout_re i0 = true -> st = CFG_TIMEOUT_DATA)
    /\ (datatimeout_re i0 = false -> cmdtimeout_re i0 = true ->
        st = CFG_TIMEOUT_CMD)
    /\ (datatimeout_re i0 = false -> cmdtimeout_re i0 = false ->
        voltage_re i0 = true -> st = CFG_VOLTAGE)
    /\ (datatimeout_re i0 = false -> cmdtimeout_re i0 = false ->
        voltage_re i0 = false -> blocksize_re i0 = true -> st = CFG_BLKSIZE)
    /\ (forall (s : regs) (j : inputs) (dt ct vo bs cm : bool),
          fsm s <> IDLE ->
          next s (strobes dt ct vo bs cm j) = next s j
          /\ comb s (strobes dt ct vo bs cm j) = comb s j).
Proof.
  intros r i0 h l c Hs Hcfg Hrange Hwf Hl Hcnt st tr r'.
  destruct (idle_services_strobe r i0 Hs) as (Hpos & Hdt & Hct & Hvo & Hbs).
  assert (Hlen : 0 <= pos (next r i0)
                 < Z.of_nat (length (cfg_frames (fsm (next r i0)) h))).
  { rewrite Hpos. destruct (fsm (next r i0)); try discriminate Hcfg;
      cbn; lia. }
  destruct (cfg_stream h l (next r i0) Hcfg Hlen Hl) as (Hfr & Hend).
  rewrite Hpos in Hfr, Hend. cbn [Z.to_nat skipn] in Hfr, Hend.
  assert (Hidle : fsm r' = IDLE) by (apply Hend; lia).
  assert (Hframes : frames tr = cfg_frames st h) by (apply Hfr; exact Hidle).
  split; [exact Hidle | ]. split; [exact Hframes | ].
  split; [rewrite Hframes; apply cfg_frames_reach_latch | ].
  split.
  { rewrite Hframes. subst st.
    destruct (fsm (next r i0)); try discriminate Hcfg.
    - now apply configure_datatimeout.
    - now apply configure_cmdtimeout.
    - now apply configure_blocksize.
    - apply configure_voltage. }
  do 4 (split; [assumption | ]).
  intros s j dt ct vo bs cm Hbusy.
  apply (strobes_ignored_when_busy s j dt ct vo bs cm Hbusy).
Qed.

Lemma configuration_round_trip_witness :
  let i0 := host_blocksize 512 true low in
  let h := host_blocksize 512 false low in
  let l := [h; ready true h; h; ready true h] in
  fsm reset = IDLE
  /\ is_cfg (fsm (next reset i0)) = true
  /\ registers_in_range h
  /\ SDPHYCFG.wf SDPHYCFG.reset
  /\ Forall (same_registers h) l
  /\ (length (cfg_frames (fsm (next reset i0)) h) <= ready_cycles l)%nat
  /\ fsm (snd (during busy (next reset i0) l)) = IDLE
  /\ frames (fst (during busy (next reset i0) l))
     = cfg_frames (fsm (next reset i0)) h.
Proof.
  cbv zeta.
  assert (Hrange : registers_in_range (host_blocksize 512 false low))
    by (unfold registers_in_range; cbn; lia).
  assert (Hwf : SDPHYCFG.wf SDPHYCFG.reset)
    by (unfold SDPHYCFG.wf; cbn; lia).
  assert (Hl : Forall (same_registers (host_blocksize 512 false low))
                 [ host_blocksize 512 false low;
                   ready true (host_blocksize 512 false low);
                   host_blocksize 512 false low;
                   ready true (host_blocksize 512 false low) ])
    by (repeat constructor).
  assert (Hcnt : (length (cfg_frames
                            (fsm (next reset (host_blocksize 512 true low)))
                            (host_blocksize 512 false low))
                  <= ready_cycles
                       [ host_blocksize 512 false low;
                         ready true (host_blocksize 512 false low);
                         host_blocksize 512 false low;
                         ready true (host_blocksize 512 false low) ])%nat)
    by (vm_compute; apply le_n).
  do 2 (split; [reflexivity | ]).
  split; [exact Hrange | ]. split; [exact Hwf | ].
  split; [exact Hl | ]. split; [exact Hcnt | ].
  destruct (configuration_round_trip reset
              (host_blocksize 512 true low) (host_blocksize 512 false low)
              _ SDPHYCFG.reset eq_refl eq_refl Hrange Hwf Hl Hcnt)
    as (Hidle & Hframes & _).
  exact (conj Hidle Hframes).
Defined.

Lemma command_timeout_fires_after_threshold_witness :
  let i0 := SDPHYCMDR.mkInputs true 5 false false false 0 3 in
  let w := SDPHYCMDR.mkInputs true 5 false false false 0 3 in
  0 <= 3 < 2 ^ 32 - 1
  /\ SDPHYCMDR.fsm SDPHYCMDR.reset = SDPHYCMDR.IDLE
  /\ SDPHYCMDR.sink_valid i0 = true
  /\ Forall (fun j => SDPHYCMDR.fifo_source_valid j = false
                      /\ SDPHYCMDR.cfgctimeout j = 3) [w; w; w; w; w]
  /\ Z.of_nat (length [w; w; w; w; w]) = 3 + 2
  /\ SDPHYCMDR.fsm
       (SDPHYCMDR.run (SDPHYCMDR.next SDPHYCMDR.reset i0) [w; w; w; w; w])
     = SDPHYCMDR.TIMEOUT.
Proof.
  cbv zeta.
  assert (HT : 0 <= 3 < 2 ^ 32 - 1) by (cbn; lia).
  assert (Hl : Forall (fun j => SDPHYCMDR.fifo_source_valid j = false
                                /\ SDPHYCMDR.cfgctimeout j = 3)
                 (let w := SDPHYCMDR.mkInputs true 5 false false false 0 3 in
                  [w; w; w; w; w]))
    by (repeat constructor).
  split; [exact HT | ]. do 2 (split; [reflexivity | ]).
  split; [exact Hl | ]. split; [reflexivity | ].
  destruct (command_timeout_fires_after_threshold 3 SDPHYCMDR.reset
              (SDPHYCMDR.mkInputs true 5 false false false 0 3) _
              HT eq_refl eq_refl Hl) as (_ & Hfire & _).
  exact (Hfire eq_refl).
Defined.

(** ** Block loops of RECV_DATA and SEND_DATA *)

Lemma reachable_facts_next (r : regs) (i : inputs) :
  reachable_facts r -> reachable_facts (next r i).
Proof.
  intros (Hr & Hz & Hd). destruct r as [st ? ? dd bc ? ? ? ? ? ? ? ? ?].
  cbn [fsm blkcnt datadone] in *.
  assert (Ht : 0 <= trunc 16 (bc + 1) < 2 ^ 16) by (apply trunc_range; lia).
  assert (Ht0 : trunc 16 0 = 0) by reflexivity.
  destruct st; unfold reachable_facts; ctrl_cases;
    (split; [ | split]); intros;
    try (rewrite ?Ht0; lia); try congruence; try reflexivity;
    try (rewrite ?Ht0; apply Hz; congruence);
    try (apply Hd; tauto);
    try (repeat match goal with H : _ \/ _ |- _ => destruct H end;
         congruence).
Qed.

Lemma reachable_facts_run (l : list inputs) :
  forall r, reachable_facts r -> reachable_facts (run r l).
Proof.
  induction l as [|i l IH]; intros r Hr; [exact Hr | ].
  rewrite run_cons. apply IH. now apply reachable_facts_next.
Qed.

Lemma reachable_facts_reset : reachable_facts reset.
Proof.
  unfold reachable_facts. cbn. repeat split; try lia; try reflexivity.
  intros [H | [H | [H | H]]]; discriminate H.
Qed.

(** The data states are entered from RECV_RESP, with the block counter and
    [datadone] unchanged. *)
Lemma data_state_entry (r : regs) (i : inputs) :
  fsm (next r i) = RECV_DATA \/ fsm (next r i) = SEND_DATA ->
  fsm r <> fsm (next r i) ->
  fsm r = RECV_RESP
  /\ blkcnt (next r i) = blkcnt r /\ datadone (next r i) = datadone r.
Proof.
  destruct r as [st ? ? ? ? ? ? ? ? ? ? ? ? ?].
  destruct st; ctrl_cases; intros [H | H] Hne;
    try discriminate H; try congruence; repeat split; reflexivity.
Qed.

(** A data state entered in a run from reset starts with the block counter
    at 0 and [datadone] at 0. *)
Lemma data_state_entry_from_reset (l0 : list inputs) (i0 : inputs) :
  fsm (next (run reset l0) i0) = RECV_DATA
  \/ fsm (next (run reset l0) i0) = SEND_DATA ->
  fsm (run reset l0) <> fsm (next (run reset l0) i0) ->
  blkcnt (next (run reset l0) i0) = 0
  /\ datadone (next (run reset l0) i0) = false.
Proof.
  intros Hin Hne.
  destruct (data_state_entry _ _ Hin Hne) as (Hs & Hb & Hd).
  destruct (reachable_facts_run l0 reset reachable_facts_reset)
    as (_ & Hz & Hdd).
  rewrite Hb, Hd. split.
  - apply Hz; rewrite Hs; discriminate.
  - apply Hdd. tauto.
Qed.

Lemma fsm_eqb_eq (a b : fsm_state) : fsm_eqb a b = true <-> a = b.
Proof. destruct a, b; cbn; split; intros H; congruence. Qed.

Lemma in_state_refl (st : fsm_state) : in_state st st = true.
Proof. destruct st; reflexivity. Qed.

Section BlockLoop.

(** The state of the loop, the input event that ends a block, and the
    condition on the inputs under which the loop is not aborted. *)
Variable st : fsm_state.
Variable ev : inputs -> bool.
Variable ok : inputs -> Prop.

Hypothesis st_busy : st <> IDLE.

Hypothesis loop_step :
  forall r i,
    fsm r = st -> ok i ->
    fsm (next r i)
    = (if ev i && negb (blkcnt r <? blockcount_storage i) then IDLE else st)
    /\ blkcnt (next r i)
       = (if ev i
          then if blkcnt r <? blockcount_storage i
               then trunc 16 (blkcnt r + 1) else 0
          else blkcnt r)
    /\ datadone (next r i)
       = (if ev i && negb (blkcnt r <? blockcount_storage i)
          then true else datadone r).

Lemma block_loop (N : Z) (l : list inputs) :
  forall r,
    fsm r = st -> 0 <= blkcnt r <= N -> N < 2 ^ 16 -> datadone r = false ->
    Forall (fun j => blockcount_storage j = N /\ ok j) l ->
    Forall (fun c => fsm (fst c) = st /\ datadone (fst c) = false)
      (fst (during (in_state st) r l))
    /\ Z.of_nat (count (fun c => ev (snd c)) (fst (during (in_state st) r l)))
       <= N + 1 - blkcnt r
    /\ (fsm (snd (during (in_state st) r l)) <> st ->
        fsm (snd (during (in_state st) r l)) = IDLE
        /\ blkcnt (snd (during (in_state st) r l)) = 0
        /\ datadone (snd (during (in_state st) r l)) = true
        /\ Z.of_nat
             (count (fun c => ev (snd c)) (fst (during (in_state st) r l)))
           = N + 1 - blkcnt r)
    /\ (N + 1 - blkcnt r <= Z.of_nat (length (filter ev l)) ->
        fsm (snd (during (in_state st) r l)) <> st).
Proof.
  induction l as [|i l IH]; intros r Hs Hb HN Hd Hl.
  - cbn [during fst snd filter length count].
    repeat split; try constructor; try congruence; cbn; intros; lia.
  - destruct (Forall_inv Hl) as (Hbc & Hok).
    pose proof (Forall_inv_tail Hl) as Hl'.
    rewrite during_cons, Hs, in_state_refl. cbn [fst snd].
    destruct (loop_step r i Hs Hok) as (Hs' & Hb' & Hd').
    unfold count in *. cbn [filter snd].
    destruct (ev i) eqn:Hev; cbn [andb] in Hs', Hb', Hd'.
    + destruct (blkcnt r <? blockcount_storage i) eqn:Hlt;
        cbn [negb] in Hs', Hb', Hd'.
      * apply Z.ltb_lt in Hlt.
        rewrite trunc_small in Hb' by lia.
        destruct (IH (next r i)) as (IH1 & IH2 & IH3 & IH4);
          try assumption; try lia; try congruence.
        rewrite Hb' in IH2, IH3, IH4. cbn [length].
        rewrite Nat2Z.inj_succ.
        split; [constructor; [now split | exact IH1] | ].
        split; [lia | ]. split.
        -- intros Hout. destruct (IH3 Hout) as (? & ? & ? & ?).
           repeat split; try assumption. lia.
        -- intros Hcnt. apply IH4. lia.
      * apply Z.ltb_ge in Hlt.
        rewrite during_outside
          by (rewrite Hs'; clear - st_busy; destruct st;
              try reflexivity; now contradiction st_busy).
        cbn [fst snd filter length].
        split; [constructor; [now split | constructor] | ].
        split; [cbn; lia | ]. split.
        -- intros _. repeat split; try assumption. cbn. lia.
        -- intros _. rewrite Hs'. congruence.
    + destruct (IH (next r i)) as (IH1 & IH2 & IH3 & IH4);
        try assumption; try lia; try congruence.
      rewrite Hb' in IH2, IH3, IH4.
      split; [constructor; [now split | exact IH1] | ].
      split; [exact IH2 | ]. split; assumption.
Qed.

End BlockLoop.

Lemma recv_data_step (r : regs) (i : inputs) :
  fsm r = RECV_DATA -> timeout_frame i = false ->
  fsm (next r i)
  = (if source_ready i && negb (blkcnt r <? blockcount_storage i)
     then IDLE else RECV_DATA)
  /\ blkcnt (next r i)
     = (if source_ready i
        then if blkcnt r <? blockcount_storage i
             then trunc 16 (blkcnt r + 1) else 0
        else blkcnt r)
  /\ datadone (next r i)
     = (if source_ready i && negb (blkcnt r <? blockcount_storage i)
        then true else datadone r).
Proof.
  intros Hs Hok. destruct r as [st ? ? ? bc ? ? ? ? ? ? ? ? ?].
  cbn in Hs. subst st. cbv beta delta [timeout_frame andb] in Hok.
  ctrl_unfold. rewrite Hok.
  destruct (source_ready i), (bc <? blockcount_storage i);
    repeat split; reflexivity.
Qed.

Lemma send_data_step (r : regs) (i : inputs) :
  fsm r = SEND_DATA -> True ->
  fsm (next r i)
  = (if generator_fire i && negb (blkcnt r <? blockcount_storage i)
     then IDLE else SEND_DATA)
  /\ blkcnt (next r i)
     = (if generator_fire i
        then if blkcnt r <? blockcount_storage i
             then trunc 16 (blkcnt r + 1) else 0
        else blkcnt r)
  /\ datadone (next r i)
     = (if generator_fire i && negb (blkcnt r <? blockcount_storage i)
        then true else datadone r).
Proof.
  intros Hs _. destruct r as [st ? ? ? bc ? ? ? ? ? ? ? ? ?].
  cbn in Hs. subst st. unfold generator_fire. ctrl_unfold.
  destruct (crc16_source_valid i), (crc16_source_last i), (source_ready i),
    (bc <? blockcount_storage i), (sink_valid i),
    (status i =? SDCARD_STREAM_STATUS_DATAACCEPTED);
    repeat split; reflexivity.
Qed.

(** In SEND_DATA a valid sink frame whose status is not DATA_ACCEPTED sets
    [derrwrite]; nothing in the state clears it. *)
Lemma send_data_write_error (r : regs) (i : inputs) :
  fsm r = SEND_DATA -> derrwrite (next r i) = derrwrite r || bad_ack i.
Proof.
  intros Hs. destruct r as [st ? ? ? bc ? ? ? ? dw ? ? ? ?].
  cbn in Hs. subst st. ctrl_unfold.
  destruct (crc16_source_valid i), (crc16_source_last i), (source_ready i),
    (bc <? blockcount_storage i), (sink_valid i),
    (status i =? SDCARD_STREAM_STATUS_DATAACCEPTED), dw; reflexivity.
Qed.

Lemma write_error_sticky (l : list inputs) :
  forall r,
    derrwrite r = true
    \/ Exists (fun c => bad_ack (snd c) = true)
         (fst (during (in_state SEND_DATA) r l)) ->
    derrwrite (snd (during (in_state SEND_DATA) r l)) = true.
Proof.
  induction l as [|i l IH]; intros r H.
  - cbn [during fst snd] in *. destruct H as [H | H]; [exact H | ].
    inversion H.
  - rewrite during_cons in *.
    destruct (in_state SEND_DATA (fsm r)) eqn:Hin; cbn [fst snd] in *.
    + apply fsm_eqb_eq in Hin. apply IH.
      rewrite (send_data_write_error r i Hin).
      destruct H as [H | H].
      * left. now rewrite H.
      * inversion H as [? ? Hb | ? ? Hb]; subst.
        -- left. cbn [snd] in Hb. rewrite Hb. apply orb_true_r.
        -- now right.
    + destruct H as [H | H]; [exact H | inversion H].
Qed.

(** In RECV_DATA a sink frame of the data channel with status OK is
    connected to the CRC16 checker. *)
Lemma recv_data_forwards (s : regs) (j : inputs) :
  fsm s = RECV_DATA ->
  slice (sink_ctrl j) 0 1 = SDCARD_STREAM_DATA ->
  status j = SDCARD_STREAM_STATUS_OK ->
  crc16checker_sink_valid (comb s j) = sink_valid j
  /\ crc16checker_sink_data (comb s j) = sink_data j
  /\ crc16checker_sink_last (comb s j) = sink_last j
  /\ sink_ready (comb s j) = crc16checker_sink_ready j.
Proof.
  intros Hs Hc Hst. destruct s as [st ? ? ? ? ? ? ? ? ? ? ? ? ?].
  cbn in Hs. subst st. ctrl_unfold. rewrite Hc, Hst.
  destruct (sink_valid j); repeat split; reflexivity.
Qed.

Lemma count_ext_in (f g : regs * inputs -> bool) tr :
  Forall (fun c => f c = g c) tr -> count f tr = count g tr.
Proof.
  intros H. unfold count. f_equal. apply filter_ext_in.
  now apply Forall_forall.
Qed.

Lemma recv_data_fired (c : regs * inputs) :
  fsm (fst c) = RECV_DATA ->
  fired c = source_ready (snd c) /\ frame c = (0, 1).
Proof.
  destruct c as [r i]. cbn [fst snd]. intros Hs.
  destruct r as [st ? ? ? ? ? ? ? ? ? ? ? ? ?]. cbn in Hs. subst st.
  split; reflexivity.
Qed.

Lemma send_data_block_sent (c : regs * inputs) :
  fsm (fst c) = SEND_DATA -> block_sent c = generator_fire (snd c).
Proof.
  destruct c as [r i]. cbn [fst snd]. intros Hs.
  destruct r as [st ? ? ? ? ? ? ? ? ? ? ? ? ?]. cbn in Hs. subst st.
  reflexivity.
Qed.

(** C4 (counterexample).  CMD18 with a short response and a data read,
    block count 2.  After the response the machine is in RECV_DATA.  Two
    block requests are taken at once; the six bytes of the first block
    (four of payload, two of CRC) arrive with status OK and the checker
    takes them; then the third request is taken.  That edge ends the
    transfer: the machine is in IDLE with [datadone] set after three
    requests, and one block has reached the checker.  A byte of the second
    block that arrives now is not connected to the checker. *)
Lemma recv_data_done_before_blocks_checked :
  let host := host_blockcount 2 (host_command 0 4641 false low) in
  let go := ready true host in
  let rsp d l := sink d 0 l host in
  let byte d l := checker true true true (sink d 1 l host) in
  let entry :=
    run reset
      [ host_command 0 4641 true host; go; go; go; go; go; go; go;
        rsp 18 false; rsp 0 false; rsp 0 false; rsp 9 false; rsp 0 false;
        rsp 55 true ] in
  let xfer :=
    [ go; go; byte 1 false; byte 2 false; byte 3 false; byte 4 false;
      byte 170 false; byte 187 true; go ] in
  let tr := fst (during (in_state RECV_DATA) entry xfer) in
  let r' := snd (during (in_state RECV_DATA) entry xfer) in
  fsm entry = RECV_DATA
  /\ forallb (fun j => (blockcount_storage j =? 2)
                       && (status j =? SDCARD_STREAM_STATUS_OK)) xfer = true
  /\ fsm r' = IDLE
  /\ datadone r' = true
  /\ blkcnt r' = 0
  /\ count fired tr = 3%nat
  /\ count block_checked tr = 1%nat
  /\ count block_checked tr <> 3%nat
  /\ crc16checker_sink_valid (comb r' (byte 5 false)) = false.
Proof. cbv zeta. repeat split; vm_compute; congruence. Qed.

(** C4 (amended).  A RECV_DATA phase entered in a run from reset, with the
    block count register holding [N] and no valid TIMEOUT frame on the
    sink: the phase starts with [blkcnt] = 0 and [datadone] = 0; every
    frame it sends is a block read request (payload 0, tag DATA/READ/XFER);
    it sends at most [N] + 1 of them and [datadone] stays 0 while it lasts;
    when the machine has left RECV_DATA it is in IDLE with [blkcnt] = 0 and
    [datadone] = 1 and has sent exactly [N] + 1 requests, and it leaves as
    soon as the source was ready in [N] + 1 cycles.  While in RECV_DATA a
    sink frame of the data channel with status OK is connected to the CRC16
    checker.  The transfer ends at the edge that takes the last request,
    not at the last byte of the last block. *)
Theorem recv_data_requests_blocks :
  forall (l0 : list inputs) (i0 : inputs) (l : list inputs) (N : Z),
    fsm (run reset l0) <> RECV_DATA ->
    fsm (next (run reset l0) i0) = RECV_DATA ->
    0 <= N < 2 ^ 16 ->
    Forall (fun j => blockcount_storage j = N /\ timeout_frame j = false) l ->
    let r := next (run reset l0) i0 in
    let tr := fst (during (in_state RECV_DATA) r l) in
    let r' := snd (during (in_state RECV_DATA) r l) in
    blkcnt r = 0 /\ datadone r = false
    /\ Forall (fun c => fsm (fst c) = RECV_DATA /\ datadone (fst c) = false) tr
    /\ Forall (fun f => f = (0, 1)) (frames tr)
    /\ Z.of_nat (count fired tr) <= N + 1
    /\ (fsm r' <> RECV_DATA ->
        fsm r' = IDLE /\ blkcnt r' = 0 /\ datadone r' = true
        /\ Z.of_nat (count fired tr) = N + 1)
    /\ (N + 1 <= Z.of_nat (ready_cycles l) -> fsm r' <> RECV_DATA)
    /\ (forall (s : regs) (j : inputs),
          fsm s = RECV_DATA ->
          slice (sink_ctrl j) 0 1 = SDCARD_STREAM_DATA ->
          status j = SDCARD_STREAM_STATUS_OK ->
          crc16checker_sink_valid (comb s j) = sink_valid j
          /\ crc16checker_sink_data (comb s j) = sink_data j
          /\ crc16checker_sink_last (comb s j) = sink_last j
          /\ sink_ready (comb s j) = crc16checker_sink_ready j).
Proof.
  intros l0 i0 l N Hne Hin HN Hl r tr r'.
  destruct (data_state_entry_from_reset l0 i0 (or_introl Hin))
    as (Hb0 & Hd0); [congruence | ].
  fold r in Hb0, Hd0, Hin.
  assert (Hst : RECV_DATA <> IDLE) by discriminate.
  destruct (block_loop RECV_DATA source_ready
              (fun j => timeout_frame j = false) Hst recv_data_step N l r)
    as (Hall & Hle & Hout & Hend); try assumption; try lia.
  fold tr in Hall, Hle, Hout. fold r' in Hout, Hend.
  assert (Hcnt : count fired tr = count (fun c => source_ready (snd c)) tr).
  { apply count_ext_in. eapply Forall_impl; [ | exact Hall].
    intros c (Hc & _). now destruct (recv_data_fired c Hc). }
  rewrite Hb0 in Hle, Hout, Hend. rewrite <- Hcnt in Hle, Hout.
  split; [exact Hb0 | ]. split; [exact Hd0 | ]. split; [exact Hall | ].
  split.
  { apply Forall_forall. intros f Hf. unfold frames in Hf.
    apply in_map_iff in Hf. destruct Hf as (c & <- & Hc).
    apply filter_In in Hc. destruct Hc as (Hc & _).
    rewrite Forall_forall in Hall. destruct (Hall c Hc) as (Hs & _).
    now destruct (recv_data_fired c Hs). }
  split; [lia | ]. split.
  { intros Hleft. destruct (Hout Hleft) as (? & ? & ? & ?).
    repeat split; try assumption. lia. }
  split.
  { intros Hrdy. apply Hend. unfold ready_cycles in Hrdy. lia. }
  intros s j. apply recv_data_forwards.
Qed.

Lemma recv_data_requests_blocks_witness :
  let host := host_blockcount 2 (host_command 0 4641 false low) in
  let go := ready true host in
  let rsp d l := sink d 0 l host in
  let l0 :=
    [ host_command 0 4641 true host; go; go; go; go; go; go; go;
      rsp 18 false; rsp 0 false; rsp 0 false; rsp 9 false; rsp 0 false ] in
  let i0 := rsp 55 true in
  let l := [go; host; go; host; host; go] in
  fsm (run reset l0) <> RECV_DATA
  /\ fsm (next (run reset l0) i0) = RECV_DATA
  /\ 0 <= 2 < 2 ^ 16
  /\ Forall (fun j => blockcount_storage j = 2 /\ timeout_frame j = false) l
  /\ fsm (snd (during (in_state RECV_DATA) (next (run reset l0) i0) l))
     = IDLE
  /\ Z.of_nat
       (count fired
          (fst (during (in_state RECV_DATA) (next (run reset l0) i0) l)))
     = 2 + 1.
Proof.
  cbv zeta.
  set (host := host_blockcount 2 (host_command 0 4641 false low)).
  set (l0 := [ host_command 0 4641 true host;
               ready true host; ready true host; ready true host;
               ready true host; ready true host; ready true host;
               ready true host;
               sink 18 0 false host; sink 0 0 false host;
               sink 0 0 false host; sink 9 0 false host;
               sink 0 0 false host ]).
  set (l := [ready true host; host; ready true host; host; host;
             ready true host]).
  assert (H1 : fsm (run reset l0) <> RECV_DATA) by (vm_compute; discriminate).
  assert (H2 : fsm (next (run reset l0) (sink 55 0 true host)) = RECV_DATA)
    by reflexivity.
  assert (H3 : 0 <= 2 < 2 ^ 16) by (cbn; lia).
  assert (H4 : Forall (fun j => blockcount_storage j = 2
                                /\ timeout_frame j = false) l)
    by (repeat constructor).
  do 4 (split; [assumption | ]).
  destruct (recv_data_requests_blocks l0 (sink 55 0 true host) l 2
              H1 H2 H3 H4) as (_ & _ & _ & _ & _ & Hout & Hend & _).
  assert (Hleft : fsm (snd (during (in_state RECV_DATA)
                              (next (run reset l0) (sink 55 0 true host)) l))
                  <> RECV_DATA)
    by (apply Hend; vm_compute; discriminate).
  destruct (Hout Hleft) as (Hidle & _ & _ & Hcnt).
  exact (conj Hidle Hcnt).
Defined.

(** ** SEND_DATA *)

(** C5. A SEND_DATA phase entered in a run from reset, with the block
    count register holding [N], whatever arrives on the sink: every valid
    sink frame whose status is not DATA_ACCEPTED sets [derrwrite] at the
    edge of its cycle, and once one has been seen [derrwrite] reads 1 at
    the end of the phase; the machine stays in SEND_DATA with [datadone]
    at 0 until the phase ends, it sends at most [N] + 1 blocks, when it
    has left SEND_DATA it is in IDLE with [datadone] = 1 and [blkcnt] = 0
    after exactly [N] + 1 blocks, and it leaves as soon as [N] + 1 blocks
    have left the generator.  The sink frames have no part in the state,
    the counter or [datadone]. *)
Theorem send_data_write_error_is_sticky :
  forall (l0 : list inputs) (i0 : inputs) (l : list inputs) (N : Z),
    fsm (run reset l0) <> SEND_DATA ->
    fsm (next (run reset l0) i0) = SEND_DATA ->
    0 <= N < 2 ^ 16 ->
    Forall (fun j => blockcount_storage j = N) l ->
    let r := next (run reset l0) i0 in
    let tr := fst (during (in_state SEND_DATA) r l) in
    let r' := snd (during (in_state SEND_DATA) r l) in
    Forall (fun c => bad_ack (snd c) = true ->
                     derrwrite (next (fst c) (snd c)) = true) tr
    /\ (Exists (fun c => bad_ack (snd c) = true) tr -> derrwrite r' = true)
    /\ Forall (fun c => fsm (fst c) = SEND_DATA /\ datadone (fst c) = false) tr
    /\ Z.of_nat (count block_sent tr) <= N + 1
    /\ (fsm r' <> SEND_DATA ->
        fsm r' = IDLE /\ blkcnt r' = 0 /\ datadone r' = true
        /\ Z.of_nat (count block_sent tr) = N + 1)
    /\ (N + 1 <= Z.of_nat (sent_cycles l) -> fsm r' <> SEND_DATA).
Proof.
  intros l0 i0 l N Hne Hin HN Hl r tr r'.
  destruct (data_state_entry_from_reset l0 i0 (or_intror Hin))
    as (Hb0 & Hd0); [congruence | ].
  fold r in Hb0, Hd0, Hin.
  assert (Hst : SEND_DATA <> IDLE) by discriminate.
  assert (Hl' : Forall (fun j => blockcount_storage j = N /\ True) l)
    by (eapply Forall_impl; [ | exact Hl]; intros j Hj; now split).
  destruct (block_loop SEND_DATA generator_fire (fun _ => True) Hst
              send_data_step N l r)
    as (Hall & Hle & Hout & Hend); try assumption; try lia.
  fold tr in Hall, Hle, Hout. fold r' in Hout, Hend.
  assert (Hcnt : count block_sent tr
                 = count (fun c => generator_fire (snd c)) tr).
  { apply count_ext_in. eapply Forall_impl; [ | exact Hall].
    intros c (Hc & _). now apply send_data_block_sent. }
  rewrite Hb0 in Hle, Hout, Hend. rewrite <- Hcnt in Hle, Hout.
  split.
  { eapply Forall_impl; [ | exact Hall]. intros c (Hc & _) Hbad.
    rewrite (send_data_write_error _ (snd c) Hc), Hbad.
    apply orb_true_r. }
  split.
  { intros Hex. apply write_error_sticky. now right. }
  split; [exact Hall | ]. split; [lia | ]. split.
  { intros Hleft. destruct (Hout Hleft) as (? & ? & ? & ?).
    repeat split; try assumption. lia. }
  intros Hsent. apply Hend. unfold sent_cycles in Hsent. lia.
Qed.

Lemma send_data_write_error_is_sticky_witness :
  let host := host_blockcount 1 (host_command 0 6209 false low) in
  let go := ready true host in
  let rsp d l := sink d 0 l host in
  let l0 :=
    [ host_command 0 6209 true host; go; go; go; go; go; go; go;
      rsp 24 false; rsp 0 false; rsp 0 false; rsp 9 false; rsp 0 false ] in
  let i0 := rsp 1 true in
  let l :=
    [ ready true (generator 17 false host);
      ready true (generator 34 true host);
      sink 0 13 true host;
      ready true (generator 51 false host);
      ready true (generator 68 true host) ] in
  fsm (run reset l0) <> SEND_DATA
  /\ fsm (next (run reset l0) i0) = SEND_DATA
  /\ 0 <= 1 < 2 ^ 16
  /\ Forall (fun j => blockcount_storage j = 1) l
  /\ Exists (fun c => bad_ack (snd c) = true)
       (fst (during (in_state SEND_DATA) (next (run reset l0) i0) l))
  /\ derrwrite (snd (during (in_state SEND_DATA) (next (run reset l0) i0) l))
     = true
  /\ fsm (snd (during (in_state SEND_DATA) (next (run reset l0) i0) l))
     = IDLE
  /\ datadone (snd (during (in_state SEND_DATA) (next (run reset l0) i0) l))
     = true.
Proof.
  cbv zeta.
  set (host := host_blockcount 1 (host_command 0 6209 false low)).
  set (l0 := [ host_command 0 6209 true host;
               ready true host; ready true host; ready true host;
               ready true host; ready true host; ready true host;
               ready true host;
               sink 24 0 false host; sink 0 0 false host;
               sink 0 0 false host; sink 9 0 false host;
               sink 0 0 false host ]).
  set (l := [ ready true (generator 17 false host);
              ready true (generator 34 true host);
              sink 0 13 true host;
              ready true (generator 51 false host);
              ready true (generator 68 true host) ]).
  assert (H1 : fsm (run reset l0) <> SEND_DATA) by (vm_compute; discriminate).
  assert (H2 : fsm (next (run reset l0) (sink 1 0 true host)) = SEND_DATA)
    by (vm_compute; reflexivity).
  assert (H3 : 0 <= 1 < 2 ^ 16) by (cbn; lia).
  assert (H4 : Forall (fun j => blockcount_storage j = 1) l)
    by (repeat constructor).
  assert (H5 : Exists (fun c => bad_ack (snd c) = true)
                 (fst (during (in_state SEND_DATA)
                         (next (run reset l0) (sink 1 0 true host)) l))).
  { vm_compute. do 2 apply Exists_cons_tl. apply Exists_cons_hd.
    reflexivity. }
  split; [exact H1 | ]. split; [exact H2 | ]. split; [exact H3 | ].
  split; [exact H4 | ]. split; [exact H5 | ].
  destruct (send_data_write_error_is_sticky l0 (sink 1 0 true host) l 1
              H1 H2 H3 H4) as (_ & Hsticky & _ & _ & Hout & Hend).
  assert (Hleft : fsm (snd (during (in_state SEND_DATA)
                              (next (run reset l0) (sink 1 0 true host)) l))
                  <> SEND_DATA)
    by (apply Hend; vm_compute; discriminate).
  destruct (Hout Hleft) as (Hidle & _ & Hdone & _).
  exact (conj (Hsticky H5) (conj Hidle Hdone)).
Defined.

(** * Further properties of the state machines *)

Ltac zify_conds :=
  repeat match goal with
         | H : (_ <? _) = true |- _ => apply Z.ltb_lt in H
         | H : (_ <? _) = false |- _ => apply Z.ltb_ge in H
         | H : (_ =? _) = true |- _ => apply Z.eqb_eq in H
         | H : (_ =? _) = false |- _ => apply Z.eqb_neq in H
         end.

Lemma slice_range (x lo hi : Z) :
  lo <= hi -> 0 <= slice x lo hi < 2 ^ (hi - lo).
Proof.
  intros H. unfold slice. rewrite Z.land_ones by lia.
  apply Z.mod_pos_bound. apply Z.pow_pos_nonneg; lia.
Qed.

Lemma ctrl_selectors_next (r : regs) (i : inputs) :
  ctrl_selectors r -> ctrl_selectors (next r i).
Proof.
  intros (Hc & Hp & Hr & Hk & Hd).
  destruct r as [st c ? ? ? p ? ? ? ? ? dbg rsp chk].
  cbn [fsm csel pos response_status crc7checker_check debug_status] in *.
  pose proof (trunc_range 3 (c + 1) ltac:(lia)) as Tc.
  pose proof (trunc_range 2 (p + 1) ltac:(lia)) as Tp.
  pose proof (trunc_range 120
                (trunc 8 (sink_data i) + 256 * slice rsp 0 112) ltac:(lia))
    as Tr.
  pose proof (trunc_range 7 (slice (sink_data i) 1 8) ltac:(lia)) as Tk.
  pose proof (trunc_range 32 (status i) ltac:(lia)) as Td.
  assert (T30 : trunc 3 0 = 0) by reflexivity.
  assert (T20 : trunc 2 0 = 0) by reflexivity.
  assert (T320 : trunc 32 0 = 0) by reflexivity.
  assert (T1200 : trunc 120 0 = 0) by reflexivity.
  change (2 ^ 3) with 8 in *. change (2 ^ 2) with 4 in *.
  destruct st; unfold ctrl_selectors; ctrl_cases; zify_conds;
    rewrite ?T30, ?T20, ?T320, ?T1200;
    repeat split; try lia;
    try (rewrite trunc_small by (change (2 ^ 3) with 8; lia); lia);
    try (rewrite trunc_small by (change (2 ^ 2) with 4; lia); lia).
Qed.

Lemma slice_div_mod (x lo hi : Z) :
  0 <= lo -> lo <= hi -> slice x lo hi = (x / 2 ^ lo) mod 2 ^ (hi - lo).
Proof.
  intros Hlo Hhi. unfold slice.
  rewrite Z.land_ones by lia. now rewrite Z.shiftr_div_pow2 by lia.
Qed.

(** Four byte slices, most significant first, give back a 32-bit value. *)
Lemma four_bytes_value (v : Z) :
  0 <= v < 2 ^ 32 ->
  be_value 0 [slice v 24 32; slice v 16 24; slice v 8 16; slice v 0 8] = v.
Proof.
  intros Hv. unfold be_value. cbn [fold_left].
  rewrite !slice_div_mod by lia.
  change (2 ^ (32 - 24)) with 256. change (2 ^ (24 - 16)) with 256.
  change (2 ^ (16 - 8)) with 256. change (2 ^ (8 - 0)) with 256.
  change (2 ^ 24) with 16777216. change (2 ^ 16) with 65536.
  change (2 ^ 8) with 256. change (2 ^ 0) with 1.
  change (2 ^ 32) with 4294967296 in Hv.
  Z.div_mod_to_equations. lia.
Qed.

Lemma cmd_fire (r : regs) (h i : inputs) :
  fsm r = SEND_CMD -> 0 <= csel r <= 5 ->
  source_ready i = true -> same_registers h i ->
  fired (r, i) = true
  /\ frame (r, i) = nth (Z.to_nat (csel r)) (cmd_frames h) (0, 0)
  /\ source_last (comb r i)
     = (csel r =? 5) && (waitresp h =? SDCARD_CTRL_RESPONSE_NONE)
  /\ cmddone (next r i)
     = (if (csel r =? 5) && (waitresp h =? SDCARD_CTRL_RESPONSE_NONE)
        then true else cmddone r)
  /\ cerrcrc_en (next r i)
     = (if (csel r =? 5)
           && negb (waitresp h =? SDCARD_CTRL_RESPONSE_NONE)
        then true else cerrcrc_en r)
  /\ (if csel r =? 5
      then fsm (next r i)
           = (if waitresp h =? SDCARD_CTRL_RESPONSE_NONE
              then IDLE else RECV_RESP)
           /\ csel (next r i) = 0
      else fsm (next r i) = SEND_CMD /\ csel (next r i) = csel r + 1).
Proof.
  intros Hs Hc Hr (Ha & Hcm & _ & _ & _ & _ & Hcrc).
  destruct r as [st c ? ? ? ? ? ? ? ? ? ? ? ?].
  cbn [fsm csel] in *. subst st.
  pose proof (slice_range (command_storage h) 8 14 ltac:(lia)) as Hidx.
  pose proof (trunc_range 7 (crc7_crc h) ltac:(lia)) as Hcrc7.
  change (2 ^ (14 - 8)) with 64 in Hidx. change (2 ^ 7) with 128 in Hcrc7.
  assert (T0 : trunc 8 (slice (command_storage h) 8 14 + 64)
               = slice (command_storage h) 8 14 + 64)
    by (apply trunc_small; [lia | change (2 ^ 8) with 256; lia]).
  assert (T5 : trunc 8 (1 + 2 * trunc 7 (crc7_crc h))
               = 1 + 2 * trunc 7 (crc7_crc h))
    by (apply trunc_small; [lia | change (2 ^ 8) with 256; lia]).
  assert (Hc6 : c = 0 \/ c = 1 \/ c = 2 \/ c = 3 \/ c = 4 \/ c = 5) by lia.
  destruct Hc6 as [-> | [-> | [-> | [-> | [-> | ->]]]]];
    unfold fired, frame, source_ctrl; cbn [fst snd]; ctrl_unfold;
    rewrite Hr; unfold ccases_data, ccases_last, waitresp;
    rewrite ?Ha, ?Hcm, ?Hcrc; cbn [Z.eqb Z.to_nat nth cmd_frames Pos.to_nat
      Pos.iter_op Nat.add Pos.eqb andb negb];
    rewrite ?T0, ?T5;
    try (destruct (slice (command_storage h) 0 2
                   =? SDCARD_CTRL_RESPONSE_NONE));
    repeat split; reflexivity.
Qed.

Lemma send_cmd_stalls (r : regs) (i : inputs) :
  fsm r = SEND_CMD -> source_ready i = false -> next r i = r.
Proof.
  intros Hs Hr. apply ctrl_stalls_until_ready; [ | exact Hr].
  now rewrite Hs.
Qed.

(** The frames of a command from byte [csel] on, and the end of SEND_CMD. *)
Lemma cmd_stream (h : inputs) (l : list inputs) :
  forall r,
    fsm r = SEND_CMD -> 0 <= csel r <= 5 ->
    cmddone r = false -> cerrcrc_en r = false ->
    Forall (same_registers h) l ->
    (fsm (snd (during (in_state SEND_CMD) r l)) <> SEND_CMD ->
       frames (fst (during (in_state SEND_CMD) r l))
       = skipn (Z.to_nat (csel r)) (cmd_frames h)
       /\ fsm (snd (during (in_state SEND_CMD) r l))
          = (if waitresp h =? SDCARD_CTRL_RESPONSE_NONE
             then IDLE else RECV_RESP)
       /\ cmddone (snd (during (in_state SEND_CMD) r l))
          = (waitresp h =? SDCARD_CTRL_RESPONSE_NONE)
       /\ cerrcrc_en (snd (during (in_state SEND_CMD) r l))
          = negb (waitresp h =? SDCARD_CTRL_RESPONSE_NONE))
    /\ ((6 - Z.to_nat (csel r) <= ready_cycles l)%nat ->
        fsm (snd (during (in_state SEND_CMD) r l)) <> SEND_CMD).
Proof.
  induction l as [|i l IH]; intros r Hs Hc Hd He Hl.
  - cbn [during fst snd]. split.
    + intros Hne. now contradiction Hne.
    + unfold ready_cycles. cbn [filter length]. lia.
  - pose proof (Forall_inv Hl) as Hi. pose proof (Forall_inv_tail Hl) as Hl'.
    rewrite during_cons, Hs, in_state_refl. cbn [fst snd].
    rewrite frames_cons.
    destruct (source_ready i) eqn:Hr.
    + destruct (cmd_fire r h i Hs Hc Hr Hi)
        as (Hf & Hfr & _ & Hd' & He' & Hn).
      rewrite Hf, Hfr.
      rewrite (skipn_nth (0, 0)) by (cbn [cmd_frames length]; lia).
      replace (ready_cycles (i :: l)) with (S (ready_cycles l))
        by (unfold ready_cycles; cbn [filter]; now rewrite Hr).
      destruct (csel r =? 5) eqn:Hlast; cbn [andb] in Hd', He'.
      * apply Z.eqb_eq in Hlast. destruct Hn as (Hs' & _).
        rewrite during_outside
          by (rewrite Hs';
              destruct (waitresp h =? SDCARD_CTRL_RESPONSE_NONE);
              reflexivity).
        cbn [fst snd]. split.
        -- intros _. split.
           ++ unfold frames at 1. cbn [filter map]. f_equal.
              symmetry. apply skipn_all2. cbn [cmd_frames length]. lia.
           ++ split; [exact Hs' | ].
              rewrite Hd', He', Hd, He.
              destruct (waitresp h =? SDCARD_CTRL_RESPONSE_NONE);
                split; reflexivity.
        -- intros _. rewrite Hs'.
           destruct (waitresp h =? SDCARD_CTRL_RESPONSE_NONE); discriminate.
      * apply Z.eqb_neq in Hlast. destruct Hn as (Hs' & Hc').
        destruct (IH (next r i)) as (IH1 & IH2);
          [assumption | lia | congruence | congruence | assumption | ].
        rewrite Hc' in IH1, IH2.
        replace (Z.to_nat (csel r + 1)) with (S (Z.to_nat (csel r)))
          in IH1, IH2 by lia.
        split.
        -- intros Hout. destruct (IH1 Hout) as (-> & Hrest).
           split; [reflexivity | exact Hrest].
        -- intros Hcnt. apply IH2. lia.
    + rewrite (send_cmd_stalls r i Hs Hr).
      rewrite not_ready_not_fired by assumption.
      replace (ready_cycles (i :: l)) with (ready_cycles l)
        by (unfold ready_cycles; cbn [filter]; now rewrite Hr).
      now apply IH.
Qed.

Lemma ctrl_selectors_run (l : list inputs) :
  forall r, ctrl_selectors r -> ctrl_selectors (run r l).
Proof.
  induction l as [|i l IH]; intros r Hr; [exact Hr | ].
  rewrite run_cons. apply IH. now apply ctrl_selectors_next.
Qed.

Lemma ctrl_selectors_reset : ctrl_selectors reset.
Proof. unfold ctrl_selectors. cbn. repeat split; lia. Qed.

Lemma command_accepted_state (r : regs) (i : inputs) :
  command_accepted r i = true ->
  fsm r = IDLE /\ fsm (next r i) = SEND_CMD /\ csel (next r i) = csel r
  /\ cmddone (next r i) = false /\ cerrcrc_en (next r i) = false.
Proof.
  destruct r as [st ? ? ? ? ? ? ? ? ? ? ? ? ?].
  destruct st; ctrl_cases; intros; repeat split; congruence.
Qed.

(** X1. A command taken in IDLE in a run from reset, with the host
    registers unchanged while it is sent and the source ready in at least
    six cycles: SEND_CMD hands over exactly six frames, in order the index
    byte (bits 01 then the 6-bit index), the four argument bytes most
    significant first and the CRC7 byte (CRC then the stop bit 1), each
    tagged CMD/WRITE/XFER and dispatched to the command writer; it then
    leaves to IDLE with [cmddone] set when the response kind is NONE, and
    to RECV_RESP with [cerrcrc_en] set otherwise. *)
Theorem command_sent_as_six_frames :
  forall (l0 : list inputs) (i0 h : inputs) (l : list inputs),
    command_accepted (run reset l0) i0 = true ->
    Forall (same_registers h) l ->
    (6 <= ready_cycles l)%nat ->
    let tr := fst (during (in_state SEND_CMD) (next (run reset l0) i0) l) in
    let r' := snd (during (in_state SEND_CMD) (next (run reset l0) i0) l) in
    frames tr = cmd_frames h
    /\ fsm r' = (if waitresp h =? SDCARD_CTRL_RESPONSE_NONE
                 then IDLE else RECV_RESP)
    /\ cmddone r' = (waitresp h =? SDCARD_CTRL_RESPONSE_NONE)
    /\ cerrcrc_en r' = negb (waitresp h =? SDCARD_CTRL_RESPONSE_NONE)
    /\ Forall (fun f => SDPHY.connect true (snd f) = SDPHY.TO_CMDW) (frames tr).
Proof.
  intros l0 i0 h l Hacc Hl Hcnt tr r'.
  destruct (command_accepted_state _ _ Hacc) as (Hidle & Hs & Hc & Hd & He).
  destruct (ctrl_selectors_run l0 reset ctrl_selectors_reset) as (Hsel & _).
  rewrite Hidle in Hsel.
  destruct (cmd_stream h l (next (run reset l0) i0)) as (Hout & Hend);
    try assumption; [rewrite Hc, Hsel; lia | ].
  rewrite Hc, Hsel in Hout, Hend. cbn [Z.to_nat skipn] in Hout, Hend.
  assert (Hleft : fsm r' <> SEND_CMD) by (apply Hend; lia).
  destruct (Hout Hleft) as (Hfr & Hx & Hdone & Hen).
  fold tr in Hfr. rewrite Hfr.
  repeat split; try assumption.
  unfold cmd_frames. repeat constructor.
Qed.

Lemma command_sent_as_six_frames_witness :
  let h := host_command 426 2049 false low in
  let l := [ready true h; h; ready true h; ready true h; ready true h;
            ready true h; ready true h] in
  command_accepted (run reset []) (host_command 426 2049 true low) = true
  /\ Forall (same_registers h) l
  /\ (6 <= ready_cycles l)%nat
  /\ frames (fst (during (in_state SEND_CMD)
                    (next (run reset []) (host_command 426 2049 true low)) l))
     = cmd_frames h.
Proof.
  cbv zeta.
  set (h := host_command 426 2049 false low).
  set (l := [ready true h; h; ready true h; ready true h; ready true h;
             ready true h; ready true h]).
  assert (H1 : command_accepted (run reset [])
                 (host_command 426 2049 true low) = true) by reflexivity.
  assert (H2 : Forall (same_registers h) l) by (repeat constructor).
  assert (H3 : (6 <= ready_cycles l)%nat) by (vm_compute; apply le_n).
  split; [exact H1 | ]. split; [exact H2 | ]. split; [exact H3 | ].
  exact (proj1 (command_sent_as_six_frames []
                  (host_command 426 2049 true low) h l H1 H2 H3)).
Defined.

(** X2. Read most significant byte first, the six payload bytes that
    SEND_CMD hands over for a command taken in a run from reset (registers
    unchanged while it is sent, the source ready in at least six cycles)
    are the 48-bit frame: start bit 0, transmission bit 1, the 6-bit
    index, the 32-bit argument, the 7-bit CRC and the stop bit 1. *)
Theorem command_frame_layout :
  forall (l0 : list inputs) (i0 h : inputs) (l : list inputs),
    command_accepted (run reset l0) i0 = true ->
    Forall (same_registers h) l ->
    (6 <= ready_cycles l)%nat ->
    0 <= argument_storage h < 2 ^ 32 ->
    0 <= crc7_crc h < 2 ^ 7 ->
    let tr := fst (during (in_state SEND_CMD) (next (run reset l0) i0) l) in
    length (frames tr) = 6%nat
    /\ be_value 0 (map fst (frames tr))
       = 2 ^ 46 + slice (command_storage h) 8 14 * 2 ^ 40
         + argument_storage h * 2 ^ 8 + crc7_crc h * 2 + 1.
Proof.
  intros l0 i0 h l Hacc Hl Hcnt Ha Hcrc tr.
  destruct (command_accepted_state _ _ Hacc) as (Hidle & Hs & Hc & Hd & He).
  destruct (ctrl_selectors_run l0 reset ctrl_selectors_reset) as (Hsel & _).
  rewrite Hidle in Hsel.
  destruct (cmd_stream h l (next (run reset l0) i0)) as (Hout & Hend);
    try assumption; [rewrite Hc, Hsel; lia | ].
  rewrite Hc, Hsel in Hout, Hend. cbn [Z.to_nat skipn] in Hout, Hend.
  destruct (Hout (Hend ltac:(lia))) as (Hfr & _).
  fold tr in Hfr. rewrite Hfr. split; [reflexivity | ].
  pose proof (four_bytes_value (argument_storage h) Ha) as H4.
  unfold be_value in *. unfold cmd_frames. cbn [map fst fold_left] in *.
  rewrite (trunc_small 7) by lia.
  change (2 ^ 46) with 70368744177664. change (2 ^ 40) with 1099511627776.
  change (2 ^ 8) with 256. lia.
Qed.

Lemma command_frame_layout_witness :
  let h := host_command 426 2049 false low in
  let l := [ready true h; ready true h; h; ready true h; ready true h;
            ready true h; ready true h] in
  let tr := fst (during (in_state SEND_CMD)
                   (next (run reset []) (host_command 426 2049 true low)) l) in
  command_accepted (run reset []) (host_command 426 2049 true low) = true
  /\ Forall (same_registers h) l
  /\ (6 <= ready_cycles l)%nat
  /\ 0 <= argument_storage h < 2 ^ 32
  /\ 0 <= crc7_crc h < 2 ^ 7
  /\ be_value 0 (map fst (frames tr))
     = 2 ^ 46 + slice (command_storage h) 8 14 * 2 ^ 40
       + argument_storage h * 2 ^ 8 + crc7_crc h * 2 + 1.
Proof.
  cbv zeta.
  set (h := host_command 426 2049 false low).
  set (l := [ready true h; ready true h; h; ready true h; ready true h;
             ready true h; ready true h]).
  assert (H1 : command_accepted (run reset [])
                 (host_command 426 2049 true low) = true) by reflexivity.
  assert (H2 : Forall (same_registers h) l) by (repeat constructor).
  assert (H3 : (6 <= ready_cycles l)%nat) by (vm_compute; apply le_n).
  assert (H4 : 0 <= argument_storage h < 2 ^ 32) by (cbn; lia).
  assert (H5 : 0 <= crc7_crc h < 2 ^ 7) by (cbn; lia).
  split; [exact H1 | ]. split; [exact H2 | ]. split; [exact H3 | ].
  split; [exact H4 | ]. split; [exact H5 | ].
  exact (proj2 (command_frame_layout []
                  (host_command 426 2049 true low) h l H1 H2 H3 H4 H5)).
Defined.

Lemma next_response_twice (v w : Z) (r : regs) :
  Next_response_status v (Next_response_status w r)
  = Next_response_status v r.
Proof. destruct r; reflexivity. Qed.

Lemma next_response_same (r : regs) :
  0 <= response_status r < 2 ^ 120 ->
  Next_response_status (response_status r) r = r.
Proof.
  intros H. destruct r. unfold Next_response_status.
  cbn [fsm csel cmddone datadone blkcnt pos cerrtimeout cerrcrc_en derrtimeout
       derrwrite derrread_en debug_status response_status crc7checker_check]
    in *.
  now rewrite trunc_small by lia.
Qed.

Lemma next_response_trunc (v w : Z) (r : regs) :
  trunc 120 v = trunc 120 w ->
  Next_response_status v r = Next_response_status w r.
Proof. intros H. unfold Next_response_status. now rewrite H. Qed.

(** Shifting a byte into the 120-bit register. *)
Lemma shift_in_byte (d x : Z) :
  0 <= d < 256 ->
  trunc 120 (trunc 8 d + 256 * slice x 0 112) = trunc 120 (256 * x + d).
Proof.
  intros Hd. rewrite (trunc_small 8) by (change (2 ^ 8) with 256; lia).
  rewrite slice_div_mod by lia. rewrite !trunc_mod by lia.
  change (2 ^ 0) with 1. rewrite Z.div_1_r.
  change (2 ^ (112 - 0)) with (2 ^ 112).
  change (2 ^ 120) with (256 * 2 ^ 112).
  rewrite <- Zmult_mod_distr_l.
  rewrite Z.add_mod_idemp_r by (change (256 * 2 ^ 112) with (2 ^ 120); lia).
  f_equal. lia.
Qed.

Lemma be_value_mod (M : Z) (l : list Z) :
  0 < M ->
  forall x, be_value (x mod M) l mod M = be_value x l mod M.
Proof.
  intros HM. induction l as [|b l IH]; intros x; unfold be_value in *;
    cbn [fold_left].
  - apply Z.mod_mod. lia.
  - rewrite <- (IH (256 * (x mod M) + b)), <- (IH (256 * x + b)).
    f_equal. f_equal.
    rewrite Z.add_mod, Z.mul_mod_idemp_r, <- Z.add_mod by lia.
    reflexivity.
Qed.

Lemma be_value_bound (l : list Z) :
  Forall (fun b => 0 <= b < 256) l ->
  forall acc k,
    0 <= k -> 0 <= acc < 256 ^ k ->
    0 <= be_value acc l < 256 ^ (k + Z.of_nat (length l)).
Proof.
  induction 1 as [|b l Hb Hl IH]; intros acc k Hk Hacc;
    unfold be_value in *; cbn [fold_left length].
  - now rewrite Z.add_0_r.
  - rewrite Nat2Z.inj_succ.
    replace (k + Z.succ (Z.of_nat (length l)))
      with ((k + 1) + Z.of_nat (length l)) by lia.
    apply IH; [lia | ].
    rewrite Z.pow_add_r by lia. change (256 ^ 1) with 256. lia.
Qed.

(** One cycle of RECV_RESP that does not end the response. *)
Lemma recv_resp_cycle (r : regs) (i : inputs) :
  fsm r = RECV_RESP -> response_cycle i ->
  next r i
  = (if response_byte i
     then Next_response_status (256 * response_status r + sink_data i) r
     else r).
Proof.
  intros Hs Hcyc. destruct r as [st ? ? ? ? ? ? ? ? ? ? ? rsp ?].
  cbn [fsm] in Hs. subst st.
  unfold response_cycle, response_byte in *.
  ctrl_unfold. cbn [response_status].
  destruct (sink_valid i) eqn:Hv; [ | reflexivity].
  destruct (slice (sink_ctrl i) 0 1 =? SDCARD_STREAM_CMD) eqn:Hc;
    [ | reflexivity].
  destruct (Hcyc eq_refl (proj1 (Z.eqb_eq _ _) Hc)) as (Hb & Hd).
  rewrite ?Hv, ?Hc in Hb.
  cbn [andb] in Hb. apply andb_prop in Hb. destruct Hb as (Ht & Hl).
  apply negb_true_iff in Ht, Hl. rewrite Ht, Hl. cbn [negb andb].
  unfold Next_response_status. cbn. f_equal. now apply shift_in_byte.
Qed.

Lemma response_bytes_cons (i : inputs) (l : list inputs) :
  response_bytes (i :: l)
  = if response_byte i then sink_data i :: response_bytes l
    else response_bytes l.
Proof.
  unfold response_bytes. cbn [filter]. now destruct (response_byte i).
Qed.

Lemma response_shifted_in (l : list inputs) :
  forall r,
    fsm r = RECV_RESP -> 0 <= response_status r < 2 ^ 120 ->
    Forall response_cycle l ->
    run r l
    = Next_response_status
        (be_value (response_status r) (response_bytes l)) r.
Proof.
  induction l as [|i l IH]; intros r Hs Hr Hl.
  - cbn. symmetry. now apply next_response_same.
  - pose proof (Forall_inv Hl) as Hi. pose proof (Forall_inv_tail Hl) as Hl'.
    rewrite run_cons, response_bytes_cons, (recv_resp_cycle r i Hs Hi).
    destruct (response_byte i).
    + rewrite IH; [ | exact Hs | | exact Hl'].
      * rewrite next_response_twice. apply next_response_trunc.
        destruct r as [? ? ? ? ? ? ? ? ? ? ? ? rsp ?].
        cbn [response_status Next_response_status].
        unfold be_value at 2. cbn [fold_left].
        fold (be_value (256 * rsp + sink_data i) (response_bytes l)).
        rewrite !trunc_mod by lia. apply be_value_mod. lia.
      * destruct r as [? ? ? ? ? ? ? ? ? ? ? ? rsp ?].
        cbn [response_status Next_response_status].
        apply trunc_range. lia.
    + now apply IH.
Qed.

Lemma response_bytes_are_bytes (l : list inputs) :
  Forall response_cycle l -> Forall (fun b => 0 <= b < 256) (response_bytes l).
Proof.
  intros Hl. apply Forall_forall. intros b Hb. unfold response_bytes in Hb.
  apply in_map_iff in Hb. destruct Hb as (i & <- & Hi).
  apply filter_In in Hi. destruct Hi as (Hin & Hrb).
  rewrite Forall_forall in Hl. specialize (Hl i Hin).
  unfold response_cycle in Hl. pose proof Hrb as Hrb'.
  unfold response_byte in Hrb'.
  apply andb_prop in Hrb'. destruct Hrb' as (Hrb' & _).
  apply andb_prop in Hrb'. destruct Hrb' as (Hrb' & _).
  apply andb_prop in Hrb'. destruct Hrb' as (Hv & Hc).
  apply Z.eqb_eq in Hc. now destruct (Hl Hv Hc).
Qed.

(** X3. In RECV_RESP, cycles without a sink frame, with a frame of the
    data channel, or with a response byte that is neither last nor a
    timeout change nothing but the response register, which shifts each
    response byte in at the low end: after them it holds the bytes read
    most significant first on top of its former content, cut to 120 bits.
    From an empty register, up to 15 bytes are held exactly. *)
Theorem response_register_big_endian :
  forall (l0 l : list inputs),
    fsm (run reset l0) = RECV_RESP ->
    Forall response_cycle l ->
    run (run reset l0) l
    = Next_response_status
        (be_value (response_status (run reset l0)) (response_bytes l))
        (run reset l0)
    /\ (response_status (run reset l0) = 0 ->
        (length (response_bytes l) <= 15)%nat ->
        response_status (run (run reset l0) l)
        = be_value 0 (response_bytes l)).
Proof.
  intros l0 l Hs Hl.
  destruct (ctrl_selectors_run l0 reset ctrl_selectors_reset)
    as (_ & _ & Hr & _).
  pose proof (response_shifted_in l (run reset l0) Hs Hr Hl) as Hrun.
  split; [exact Hrun | ].
  intros H0 Hlen. rewrite Hrun, H0.
  destruct (run reset l0) as [? ? ? ? ? ? ? ? ? ? ? ? rsp ?].
  cbn [response_status Next_response_status].
  apply trunc_small; [lia | ].
  pose proof (be_value_bound (response_bytes l)
                (response_bytes_are_bytes l Hl) 0 0 ltac:(lia) ltac:(cbn; lia))
    as Hb.
  split; [lia | ].
  apply Z.lt_le_trans with (256 ^ (0 + Z.of_nat (length (response_bytes l))));
    [lia | ].
  change (2 ^ 120) with (256 ^ 15). apply Z.pow_le_mono_r; lia.
Qed.

Lemma response_register_big_endian_witness :
  let h := host_command 426 2049 false low in
  let l0 := [host_command 426 2049 true low; ready true h; ready true h;
             ready true h; ready true h; ready true h; ready true h] in
  let l := [sink 8 0 false h; h; sink 1 0 false h; sink 170 0 false h] in
  fsm (run reset l0) = RECV_RESP
  /\ Forall response_cycle l
  /\ response_status (run reset l0) = 0
  /\ (length (response_bytes l) <= 15)%nat
  /\ response_status (run (run reset l0) l) = be_value 0 (response_bytes l).
Proof.
  cbv zeta.
  set (h := host_command 426 2049 false low).
  set (l0 := [host_command 426 2049 true low; ready true h; ready true h;
              ready true h; ready true h; ready true h; ready true h]).
  set (l := [sink 8 0 false h; h; sink 1 0 false h; sink 170 0 false h]).
  assert (H1 : fsm (run reset l0) = RECV_RESP) by (vm_compute; reflexivity).
  assert (H2 : Forall response_cycle l).
  { repeat (constructor;
            [intros Hv Hc; first [discriminate Hv
                                 | split; [reflexivity | cbn; lia]] | ]).
    constructor. }
  assert (H3 : response_status (run reset l0) = 0)
    by (vm_compute; reflexivity).
  assert (H4 : (length (response_bytes l) <= 15)%nat)
    by (vm_compute; repeat constructor).
  split; [exact H1 | ]. split; [exact H2 | ]. split; [exact H3 | ].
  split; [exact H4 | ].
  exact (proj2 (response_register_big_endian l0 l H1 H2) H3 H4).
Defined.

(** X4. In RECV_RESP a valid frame of the command channel with status
    TIMEOUT is taken, and the edge sets [cerrtimeout], [cmddone] and
    [datadone] and returns to IDLE, whatever the last marker and the data
    transfer kind are; the response register, the CRC check value and the
    read-CRC enable are unchanged. *)
Theorem recv_resp_timeout_ends_command :
  forall (r : regs) (i : inputs),
    fsm r = RECV_RESP ->
    sink_valid i = true ->
    slice (sink_ctrl i) 0 1 = SDCARD_STREAM_CMD ->
    status i = SDCARD_STREAM_STATUS_TIMEOUT ->
    sink_ready (comb r i) = true
    /\ fsm (next r i) = IDLE
    /\ cerrtimeout (next r i) = true
    /\ cmddone (next r i) = true
    /\ datadone (next r i) = true
    /\ response_status (next r i) = response_status r
    /\ crc7checker_check (next r i) = crc7checker_check r
    /\ derrread_en (next r i) = derrread_en r.
Proof.
  intros r i Hs Hv Hc Ht. destruct r as [st ? ? ? ? ? ? ? ? ? ? ? ? ?].
  cbn [fsm] in Hs. subst st. ctrl_unfold. rewrite Hv, Hc, Ht.
  repeat split; reflexivity.
Qed.

Lemma recv_resp_timeout_ends_command_witness :
  let r := mkRegs RECV_RESP 0 false false 0 0
             false true false false false 0 0 0 in
  let i := sink 0 2 true low in
  fsm r = RECV_RESP
  /\ sink_valid i = true
  /\ slice (sink_ctrl i) 0 1 = SDCARD_STREAM_CMD
  /\ status i = SDCARD_STREAM_STATUS_TIMEOUT
  /\ fsm (next r i) = IDLE
  /\ cerrtimeout (next r i) = true.
Proof.
  cbv zeta. do 4 (split; [reflexivity | ]).
  destruct (recv_resp_timeout_ends_command
              (mkRegs RECV_RESP 0 false false 0 0
                 false true false false false 0 0 0)
              (sink 0 2 true low) eq_refl eq_refl eq_refl eq_refl)
    as (_ & Hs & Ht & _).
  exact (conj Hs Ht).
Defined.

(** X5. In RECV_RESP the last byte of a response (not a timeout) is not
    shifted into the response register: its bits 1..7 become the CRC7
    check value, [cmddone] is set, and the machine goes to RECV_DATA with
    [derrread_en] set for a READ transfer, to SEND_DATA for a WRITE
    transfer, and to IDLE with [datadone] set for any other transfer
    kind. *)
Theorem recv_resp_last_byte_branches :
  forall (r : regs) (i : inputs),
    fsm r = RECV_RESP ->
    sink_valid i = true ->
    slice (sink_ctrl i) 0 1 = SDCARD_STREAM_CMD ->
    status i <> SDCARD_STREAM_STATUS_TIMEOUT ->
    sink_last i = true ->
    crc7checker_check (next r i) = slice (sink_data i) 1 8
    /\ response_status (next r i) = response_status r
    /\ cmddone (next r i) = true
    /\ cerrtimeout (next r i) = cerrtimeout r
    /\ fsm (next r i)
       = (if dataxfer i =? SDCARD_CTRL_DATA_TRANSFER_READ then RECV_DATA
          else if dataxfer i =? SDCARD_CTRL_DATA_TRANSFER_WRITE then SEND_DATA
          else IDLE)
    /\ derrread_en (next r i)
       = (if dataxfer i =? SDCARD_CTRL_DATA_TRANSFER_READ then true
          else derrread_en r)
    /\ datadone (next r i)
       = (if (dataxfer i =? SDCARD_CTRL_DATA_TRANSFER_READ)
             || (dataxfer i =? SDCARD_CTRL_DATA_TRANSFER_WRITE)
          then datadone r else true).
Proof.
  intros r i Hs Hv Hc Ht Hl. destruct r as [st ? ? ? ? ? ? ? ? ? ? ? ? ?].
  cbn [fsm] in Hs. subst st. apply Z.eqb_neq in Ht.
  pose proof (slice_range (sink_data i) 1 8 ltac:(lia)) as Hk.
  ctrl_unfold. rewrite Hv, Hc, Ht, Hl.
  destruct (dataxfer i =? SDCARD_CTRL_DATA_TRANSFER_READ),
    (dataxfer i =? SDCARD_CTRL_DATA_TRANSFER_WRITE);
    repeat split; try reflexivity;
    cbn; apply trunc_small; lia.
Qed.

Lemma recv_resp_last_byte_branches_witness :
  let r := mkRegs RECV_RESP 0 false false 0 0
             false true false false false 0 0 0 in
  let i := sink 55 0 true (host_command 0 4641 false low) in
  fsm r = RECV_RESP
  /\ sink_valid i = true
  /\ slice (sink_ctrl i) 0 1 = SDCARD_STREAM_CMD
  /\ status i <> SDCARD_STREAM_STATUS_TIMEOUT
  /\ sink_last i = true
  /\ crc7checker_check (next r i) = slice (sink_data i) 1 8.
Proof.
  cbv zeta.
  assert (H4 : status (sink 55 0 true (host_command 0 4641 false low))
               <> SDCARD_STREAM_STATUS_TIMEOUT) by discriminate.
  do 3 (split; [reflexivity | ]). split; [exact H4 | ].
  split; [reflexivity | ].
  exact (proj1 (recv_resp_last_byte_branches
                  (mkRegs RECV_RESP 0 false false 0 0
                     false true false false false 0 0 0)
                  (sink 55 0 true (host_command 0 4641 false low))
                  eq_refl eq_refl eq_refl H4 eq_refl)).
Defined.

(** X6. In RECV_RESP a valid frame of the data channel is taken from the
    sink ([sink.ready] = 1) and dropped: no register changes. *)
Theorem recv_resp_discards_data_frames :
  forall (r : regs) (i : inputs),
    fsm r = RECV_RESP ->
    sink_valid i = true ->
    slice (sink_ctrl i) 0 1 <> SDCARD_STREAM_CMD ->
    sink_ready (comb r i) = true /\ next r i = r.
Proof.
  intros r i Hs Hv Hc. destruct r as [st ? ? ? ? ? ? ? ? ? ? ? ? ?].
  cbn [fsm] in Hs. subst st. apply Z.eqb_neq in Hc.
  ctrl_unfold. rewrite Hv, Hc. split; reflexivity.
Qed.

Lemma recv_resp_discards_data_frames_witness :
  let r := mkRegs RECV_RESP 0 false false 0 0
             false true false false false 0 77 0 in
  let i := sink 5 1 false low in
  fsm r = RECV_RESP
  /\ sink_valid i = true
  /\ slice (sink_ctrl i) 0 1 <> SDCARD_STREAM_CMD
  /\ next r i = r.
Proof.
  cbv zeta.
  assert (H3 : slice (sink_ctrl (sink 5 1 false low)) 0 1
               <> SDCARD_STREAM_CMD) by discriminate.
  do 2 (split; [reflexivity | ]). split; [exact H3 | ].
  exact (proj2 (recv_resp_discards_data_frames
                  (mkRegs RECV_RESP 0 false false 0 0
                     false true false false false 0 77 0)
                  (sink 5 1 false low) eq_refl eq_refl H3)).
Defined.

Lemma trunc_spec (w y n : Z) :
  0 <= w -> 0 <= n -> Z.testbit (trunc w y) n = Z.testbit y n && (n <? w).
Proof.
  intros Hw Hn. unfold trunc.
  now rewrite Z.land_spec, Z.testbit_ones_nonneg by lia.
Qed.

Lemma testbit_cat (a : Z) (b : bool) (n : Z) :
  0 <= n ->
  Z.testbit (b2z b + 2 * a) n = if n =? 0 then b else Z.testbit a (n - 1).
Proof.
  intros Hn. replace (b2z b + 2 * a) with (2 * a + Z.b2z b)
    by (destruct b; unfold b2z, Z.b2z; lia).
  destruct (Z.eqb_spec n 0) as [-> | Hne].
  - apply Z.testbit_0_r.
  - replace n with (Z.succ (n - 1)) at 1 by lia.
    apply Z.testbit_succ_r. lia.
Qed.

Lemma testbit_b2z (b : bool) (n : Z) :
  Z.testbit (b2z b) n = (n =? 0) && b.
Proof.
  destruct (Z.eqb_spec n 0) as [-> | Hne].
  - now destruct b.
  - destruct b; cbn [b2z andb].
    + destruct n; try reflexivity. now contradiction Hne.
    + apply Z.bits_0.
Qed.

Lemma byte_of_bits_snoc (l : list bool) (b : bool) :
  byte_of_bits (l ++ [b]) = b2z b + 2 * byte_of_bits l.
Proof. unfold byte_of_bits. rewrite fold_left_app. cbn [fold_left]. lia. Qed.

Lemma eight_bits (b7 b6 b5 b4 b3 b2 b1 b0 : bool) :
  byte_of_bits [b7; b6; b5; b4; b3; b2; b1; b0]
  = b2z b0 + 2 * (b2z b1 + 2 * (b2z b2 + 2 * (b2z b3 + 2 * (b2z b4
      + 2 * (b2z b5 + 2 * (b2z b6 + 2 * (b2z b7 + 2 * 0))))))).
Proof. unfold byte_of_bits. cbn [fold_left]. lia. Qed.

(** Seven bit writes and the concatenation of the eighth bit give the
    byte of the eight bits, whatever the register held before. *)
Lemma assemble_byte (x : Z) (b7 b6 b5 b4 b3 b2 b1 b0 : bool) :
  trunc 8
    (b2z b0
     + 2 * trunc 8 (set_slice
         (trunc 8 (set_slice
           (trunc 8 (set_slice
             (trunc 8 (set_slice
               (trunc 8 (set_slice
                 (trunc 8 (set_slice
                   (trunc 8 (set_slice x 6 7 (b2z b7)))
                   5 6 (b2z b6)))
                 4 5 (b2z b5)))
               3 4 (b2z b4)))
             2 3 (b2z b3)))
           1 2 (b2z b2)))
         0 1 (b2z b1)))
  = byte_of_bits [b7; b6; b5; b4; b3; b2; b1; b0].
Proof.
  rewrite eight_bits. apply Z.bits_inj'. intros n Hn.
  assert (Hcase : n = 0 \/ n = 1 \/ n = 2 \/ n = 3 \/ n = 4 \/ n = 5
                  \/ n = 6 \/ n = 7 \/ 8 <= n) by lia.
  destruct Hcase as [-> | [-> | [-> | [-> | [-> | [-> | [-> | [-> | H8]]]]]]]];
    try (repeat (first [ rewrite testbit_cat by lia
                       | rewrite trunc_spec by lia
                       | rewrite set_slice_spec by lia
                       | rewrite testbit_b2z ];
                 cbn [Z.eqb Z.sub Z.add Z.opp Z.pos_sub Z.leb Z.ltb Z.compare
                      Pos.compare Pos.compare_cont Pos.eqb Pos.pred_double
                      Pos.succ Pos.add Z.double Z.succ_double Z.pred_double
                      andb orb negb]);
         rewrite ?andb_true_r; reflexivity).
  rewrite trunc_spec by lia.
  replace (n <? 8) with false by (symmetry; apply Z.ltb_ge; lia).
  rewrite andb_false_r. symmetry.
  apply (high_bits_clear 8); [lia | | lia].
  destruct b0, b1, b2, b3, b4, b5, b6, b7; vm_compute; split; congruence.
Qed.

(** X7. The enabled sampler in READ with [sel] = 0 shifts in eight line
    samples: it presents nothing during the first seven cycles and in the
    eighth presents the byte of the eight samples, first sample in bit 7,
    whatever its data register held before; it is then back at [sel] = 0
    for the next byte. *)
Theorem sampler_assembles_byte :
  forall (r : SDPHYCMDRFB.regs) (rdy : nat -> bool)
         (b7 b6 b5 b4 b3 b2 b1 b0 : bool),
    SDPHYCMDRFB.fsm r = SDPHYCMDRFB.READ ->
    SDPHYCMDRFB.sel r = 0 ->
    let l := [ sample b7 (rdy 0%nat); sample b6 (rdy 1%nat);
               sample b5 (rdy 2%nat); sample b4 (rdy 3%nat);
               sample b3 (rdy 4%nat); sample b2 (rdy 5%nat);
               sample b1 (rdy 6%nat); sample b0 (rdy 7%nat) ] in
    rfb_outputs r l
    = [ (false, 0); (false, 0); (false, 0); (false, 0); (false, 0);
        (false, 0); (false, 0);
        (true, byte_of_bits [b7; b6; b5; b4; b3; b2; b1; b0]) ]
    /\ SDPHYCMDRFB.fsm (SDPHYCMDRFB.run r l) = SDPHYCMDRFB.READ
    /\ SDPHYCMDRFB.sel (SDPHYCMDRFB.run r l) = 0.
Proof.
  intros r rdy b7 b6 b5 b4 b3 b2 b1 b0 Hs Hsel l.
  destruct r as [st s x]. cbn [SDPHYCMDRFB.fsm SDPHYCMDRFB.sel] in *.
  subst st s l. rewrite <- (assemble_byte x).
  repeat split; reflexivity.
Qed.

Lemma sampler_assembles_byte_witness :
  let r := SDPHYCMDRFB.mkRegs SDPHYCMDRFB.READ 0 255 in
  SDPHYCMDRFB.fsm r = SDPHYCMDRFB.READ
  /\ SDPHYCMDRFB.sel r = 0
  /\ SDPHYCMDRFB.sel
       (SDPHYCMDRFB.run r
          [ sample false false; sample true false; sample false false;
            sample true false; sample false false; sample true false;
            sample false false; sample true false ]) = 0.
Proof.
  cbv zeta. do 2 (split; [reflexivity | ]).
  exact (proj2 (proj2
    (sampler_assembles_byte (SDPHYCMDRFB.mkRegs SDPHYCMDRFB.READ 0 255)
       (fun _ => false) false true false true false true false true
       eq_refl eq_refl))).
Defined.

(** X8. The enabled sampler waits in READSTART while the line is high.
    A low sample is the start bit: together with the seven samples after
    it, it is presented in the eighth cycle as one byte with bit 7 clear,
    whatever [sel] and the data register held before. *)
Theorem sampler_first_byte_after_start_bit :
  forall (r : SDPHYCMDRFB.regs) (rdy : nat -> bool)
         (b6 b5 b4 b3 b2 b1 b0 : bool),
    SDPHYCMDRFB.fsm r = SDPHYCMDRFB.READSTART ->
    let l := [ sample false (rdy 0%nat); sample b6 (rdy 1%nat);
               sample b5 (rdy 2%nat); sample b4 (rdy 3%nat);
               sample b3 (rdy 4%nat); sample b2 (rdy 5%nat);
               sample b1 (rdy 6%nat); sample b0 (rdy 7%nat) ] in
    SDPHYCMDRFB.next r (sample true (rdy 8%nat)) = r
    /\ rfb_outputs r l
       = [ (false, 0); (false, 0); (false, 0); (false, 0); (false, 0);
           (false, 0); (false, 0);
           (true, byte_of_bits [false; b6; b5; b4; b3; b2; b1; b0]) ]
    /\ SDPHYCMDRFB.fsm (SDPHYCMDRFB.run r l) = SDPHYCMDRFB.READ
    /\ SDPHYCMDRFB.sel (SDPHYCMDRFB.run r l) = 0.
Proof.
  intros r rdy b6 b5 b4 b3 b2 b1 b0 Hs l.
  destruct r as [st s x]. cbn [SDPHYCMDRFB.fsm] in *. subst st l.
  split; [reflexivity | ].
  rewrite <- (assemble_byte 0).
  repeat split; reflexivity.
Qed.

Lemma sampler_first_byte_after_start_bit_witness :
  let r := SDPHYCMDRFB.mkRegs SDPHYCMDRFB.READSTART 5 255 in
  SDPHYCMDRFB.fsm r = SDPHYCMDRFB.READSTART
  /\ SDPHYCMDRFB.next r (sample true false) = r.
Proof.
  cbv zeta. split; [reflexivity | ].
  exact (proj1
    (sampler_first_byte_after_start_bit
       (SDPHYCMDRFB.mkRegs SDPHYCMDRFB.READSTART 5 255)
       (fun _ => false) true false true false true false true eq_refl)).
Defined.

(** X9. A cycle with [enable] low presents no byte and returns the sampler
    to IDLE from every state, dropping a partly assembled byte; the next
    enabled cycle presents nothing either and enters READSTART with [sel]
    at 0. *)
Theorem sampler_disabled_drops_frame :
  forall (r : SDPHYCMDRFB.regs) (i j : SDPHYCMDRFB.inputs),
    SDPHYCMDRFB.enable i = false ->
    SDPHYCMDRFB.enable j = true ->
    SDPHYCMDRFB.source_valid r i = false
    /\ SDPHYCMDRFB.fsm (SDPHYCMDRFB.next r i) = SDPHYCMDRFB.IDLE
    /\ SDPHYCMDRFB.source_valid (SDPHYCMDRFB.next r i) j = false
    /\ SDPHYCMDRFB.fsm (SDPHYCMDRFB.next (SDPHYCMDRFB.next r i) j)
       = SDPHYCMDRFB.READSTART
    /\ SDPHYCMDRFB.sel (SDPHYCMDRFB.next (SDPHYCMDRFB.next r i) j) = 0.
Proof.
  intros r i j Hi Hj. destruct r as [st s x].
  destruct st; rfb_unfold; rewrite ?Hi; rfb_unfold; rewrite ?Hj;
    repeat split; reflexivity.
Qed.

Lemma sampler_disabled_drops_frame_witness :
  let r := SDPHYCMDRFB.mkRegs SDPHYCMDRFB.READ 4 40 in
  let i := SDPHYCMDRFB.mkInputs false true true in
  let j := SDPHYCMDRFB.mkInputs true true true in
  SDPHYCMDRFB.enable i = false
  /\ SDPHYCMDRFB.enable j = true
  /\ SDPHYCMDRFB.source_valid r i = false
  /\ SDPHYCMDRFB.fsm (SDPHYCMDRFB.next r i) = SDPHYCMDRFB.IDLE
  /\ SDPHYCMDRFB.fsm (SDPHYCMDRFB.next (SDPHYCMDRFB.next r i) j)
     = SDPHYCMDRFB.READSTART
  /\ SDPHYCMDRFB.sel (SDPHYCMDRFB.next (SDPHYCMDRFB.next r i) j) = 0.
Proof.
  cbv zeta. do 2 (split; [reflexivity | ]).
  destruct (sampler_disabled_drops_frame
              (SDPHYCMDRFB.mkRegs SDPHYCMDRFB.READ 4 40)
              (SDPHYCMDRFB.mkInputs false true true)
              (SDPHYCMDRFB.mkInputs true true true) eq_refl eq_refl)
    as (Hv & Hs & _ & Hr & Hsel).
  exact (conj Hv (conj Hs (conj Hr Hsel))).
Defined.

Ltac cmdw_unfold :=
  cbv beta iota zeta delta
    [ SDPHYCMDW.next SDPHYCMDW.comb If IfElse stmts fold_left
      SDPHYCMDW.NextState SDPHYCMDW.Next_isinit SDPHYCMDW.Next_cntinit
      SDPHYCMDW.Next_cnt SDPHYCMDW.Next_wrsel SDPHYCMDW.Next_wrtmpdata
      SDPHYCMDW.Next_pads_data_oe SDPHYCMDW.Next_pads_data_o
      SDPHYCMDW.fsm SDPHYCMDW.isinit SDPHYCMDW.cntinit SDPHYCMDW.cnt
      SDPHYCMDW.wrsel SDPHYCMDW.wrtmpdata SDPHYCMDW.pads_data_oe
      SDPHYCMDW.pads_data_o SDPHYCMDW.pads_clk SDPHYCMDW.pads_cmd_o
      SDPHYCMDW.pads_cmd_oe SDPHYCMDW.sink_ready andb negb orb ].

Lemma cmdw_facts_next (r : SDPHYCMDW.regs) (i : SDPHYCMDW.inputs) :
  SDPHYCMDW.reachable_facts r ->
  SDPHYCMDW.reachable_facts (SDPHYCMDW.next r i).
Proof.
  intros (Hi & Hci & Hc & Hw & Ht).
  destruct r as [st ini ci c w t oe o].
  cbn [SDPHYCMDW.fsm SDPHYCMDW.isinit SDPHYCMDW.cntinit SDPHYCMDW.cnt
       SDPHYCMDW.wrsel SDPHYCMDW.wrtmpdata] in *.
  pose proof (trunc_range 3 (w + 1) ltac:(lia)) as Tw.
  pose proof (trunc_range 8 (SDPHYCMDW.sink_data i) ltac:(lia)) as Tt.
  change (2 ^ 3) with 8 in Tw. change (2 ^ 8) with 256 in Tt.
  assert (T80 : trunc 8 0 = 0) by reflexivity.
  assert (T31 : trunc 3 1 = 1) by reflexivity.
  destruct st; unfold SDPHYCMDW.reachable_facts; cmdw_unfold;
    repeat (break_if; cmdw_unfold); zify_conds; rewrite ?T80, ?T31;
    repeat split; intros; try lia; try congruence;
    try (rewrite trunc_small by (change (2 ^ 8) with 256; lia); lia);
    try (apply Hi; reflexivity).
Qed.

Lemma cmdw_facts_run (l : list SDPHYCMDW.inputs) :
  forall r, SDPHYCMDW.reachable_facts r ->
            SDPHYCMDW.reachable_facts (SDPHYCMDW.run r l).
Proof.
  induction l as [|i l IH]; intros r Hr; [exact Hr | ].
  cbn [SDPHYCMDW.run fold_left]. apply IH. now apply cmdw_facts_next.
Qed.

Lemma cmdw_facts_reset : SDPHYCMDW.reachable_facts SDPHYCMDW.reset.
Proof.
  unfold SDPHYCMDW.reachable_facts. cbn. repeat split; try lia.
Qed.

Lemma cmdw_trace_app (r : SDPHYCMDW.regs) (l1 l2 : list SDPHYCMDW.inputs) :
  SDPHYCMDW.trace r (l1 ++ l2)
  = SDPHYCMDW.trace r l1 ++ SDPHYCMDW.trace (SDPHYCMDW.run r l1) l2.
Proof.
  revert r. induction l1 as [|i l1 IH]; intros r; [reflexivity | ].
  cbn [app SDPHYCMDW.trace SDPHYCMDW.run fold_left]. f_equal. apply IH.
Qed.

(** The cycles of INIT from counter value [cntinit]. *)
Lemma cmdw_init_cycles (l : list SDPHYCMDW.inputs) :
  forall r,
    SDPHYCMDW.fsm r = SDPHYCMDW.INIT ->
    0 <= SDPHYCMDW.cntinit r <= 80 ->
    Z.of_nat (length l) = 81 - SDPHYCMDW.cntinit r ->
    Forall (fun o => SDPHYCMDW.pads_clk o = true
                     /\ SDPHYCMDW.pads_cmd_o o = true
                     /\ SDPHYCMDW.pads_cmd_oe o = true
                     /\ SDPHYCMDW.sink_ready o = false)
      (SDPHYCMDW.trace r l)
    /\ SDPHYCMDW.fsm (SDPHYCMDW.run r l) = SDPHYCMDW.IDLE
    /\ SDPHYCMDW.isinit (SDPHYCMDW.run r l) = true
    /\ SDPHYCMDW.cntinit (SDPHYCMDW.run r l) = 0
    /\ SDPHYCMDW.pads_data_oe (SDPHYCMDW.run r l) = false
    /\ SDPHYCMDW.cnt (SDPHYCMDW.run r l) = SDPHYCMDW.cnt r
    /\ (forall k, (0 < k < length l)%nat ->
          SDPHYCMDW.fsm (SDPHYCMDW.run r (firstn k l)) = SDPHYCMDW.INIT
          /\ SDPHYCMDW.pads_data_oe (SDPHYCMDW.run r (firstn k l)) = true
          /\ SDPHYCMDW.pads_data_o (SDPHYCMDW.run r (firstn k l)) = 15).
Proof.
  induction l as [|i l IH]; intros r Hs Hc Hlen.
  - cbn [length] in Hlen. lia.
  - destruct r as [st ini ci c w t oe o].
    cbn [SDPHYCMDW.fsm SDPHYCMDW.cntinit SDPHYCMDW.cnt] in *. subst st.
    cbn [length] in Hlen. rewrite Nat2Z.inj_succ in Hlen.
    cbn [SDPHYCMDW.trace SDPHYCMDW.run fold_left].
    destruct (Z.ltb_spec ci 80) as [Hlt | Hge].
    + assert (Hn : SDPHYCMDW.next
                     (SDPHYCMDW.mkRegs SDPHYCMDW.INIT ini ci c w t oe o) i
                   = SDPHYCMDW.mkRegs SDPHYCMDW.INIT ini (ci + 1) c w t
                       true 15).
      { cmdw_unfold. replace (ci <? 80) with true
          by (symmetry; apply Z.ltb_lt; lia).
        cmdw_unfold. rewrite trunc_small by (change (2 ^ 8) with 256; lia).
        reflexivity. }
      rewrite Hn.
      destruct (IH (SDPHYCMDW.mkRegs SDPHYCMDW.INIT ini (ci + 1) c w t
                      true 15))
        as (Htr & Hf & Hi & Hci & Hoe & Hcnt & Hmid);
        [reflexivity | cbn [SDPHYCMDW.cntinit]; lia
        | cbn [SDPHYCMDW.cntinit]; lia | ].
      fold (SDPHYCMDW.run
              (SDPHYCMDW.mkRegs SDPHYCMDW.INIT ini (ci + 1) c w t true 15) l).
      split; [constructor; [repeat split | exact Htr] | ].
      do 5 (split; [assumption | ]).
      intros k Hk. destruct k as [|k]; [lia | ].
      cbn [firstn SDPHYCMDW.run fold_left]. rewrite Hn.
      destruct k as [|k].
      * cbn [firstn fold_left]. repeat split.
      * apply Hmid. cbn [length] in Hk. lia.
    + assert (ci = 80) by lia. subst ci.
      destruct l as [|j l]; [ | cbn [length] in Hlen; lia].
      cbn [SDPHYCMDW.trace fold_left].
      split; [constructor; [repeat split | constructor] | ].
      repeat split; try reflexivity; intros; cbn [length] in *; lia.
Qed.

(** X10. The first frame offered to the command writer in a run from
    reset, while [isinit] is clear, is not taken: the writer enters INIT
    and stays there for 81 cycles, each with the clock pulsed, the command
    line high and the sink not ready; from the second to the last of them
    the data lines are driven with 1111.  After the 81 cycles the writer is
    in IDLE with [isinit] set and the data lines released. *)
Theorem writer_init_preamble :
  forall (l0 : list SDPHYCMDW.inputs) (i0 : SDPHYCMDW.inputs)
         (l : list SDPHYCMDW.inputs),
    SDPHYCMDW.fsm (SDPHYCMDW.run SDPHYCMDW.reset l0) = SDPHYCMDW.IDLE ->
    SDPHYCMDW.isinit (SDPHYCMDW.run SDPHYCMDW.reset l0) = false ->
    SDPHYCMDW.sink_valid i0 = true ->
    length l = 81%nat ->
    let r0 := SDPHYCMDW.run SDPHYCMDW.reset l0 in
    let r1 := SDPHYCMDW.next r0 i0 in
    SDPHYCMDW.sink_ready (SDPHYCMDW.comb r0 i0) = false
    /\ SDPHYCMDW.pads_clk (SDPHYCMDW.comb r0 i0) = false
    /\ SDPHYCMDW.fsm r1 = SDPHYCMDW.INIT
    /\ Forall (fun o => SDPHYCMDW.pads_clk o = true
                        /\ SDPHYCMDW.pads_cmd_o o = true
                        /\ SDPHYCMDW.pads_cmd_oe o = true
                        /\ SDPHYCMDW.sink_ready o = false)
         (SDPHYCMDW.trace r1 l)
    /\ SDPHYCMDW.fsm (SDPHYCMDW.run r1 l) = SDPHYCMDW.IDLE
    /\ SDPHYCMDW.isinit (SDPHYCMDW.run r1 l) = true
    /\ SDPHYCMDW.pads_data_oe (SDPHYCMDW.run r1 l) = false
    /\ (forall k, (0 < k < 81)%nat ->
          SDPHYCMDW.fsm (SDPHYCMDW.run r1 (firstn k l)) = SDPHYCMDW.INIT
          /\ SDPHYCMDW.pads_data_oe (SDPHYCMDW.run r1 (firstn k l)) = true
          /\ SDPHYCMDW.pads_data_o (SDPHYCMDW.run r1 (firstn k l)) = 15).
Proof.
  intros l0 i0 l Hs Hi Hv Hlen r0 r1.
  destruct (cmdw_facts_run l0 SDPHYCMDW.reset cmdw_facts_reset)
    as (_ & Hci & _).
  fold r0 in Hs, Hi, Hci. rewrite Hs in Hci.
  assert (Hr1 : SDPHYCMDW.fsm r1 = SDPHYCMDW.INIT
                /\ SDPHYCMDW.cntinit r1 = 0
                /\ SDPHYCMDW.sink_ready (SDPHYCMDW.comb r0 i0) = false
                /\ SDPHYCMDW.pads_clk (SDPHYCMDW.comb r0 i0) = false).
  { subst r1. destruct r0 as [st ini ci c w t oe o].
    cbn [SDPHYCMDW.fsm SDPHYCMDW.isinit SDPHYCMDW.cntinit] in *.
    subst st ini ci. cmdw_unfold. rewrite Hv. repeat split. }
  destruct Hr1 as (Hs1 & Hc1 & Hrdy & Hclk).
  destruct (cmdw_init_cycles l r1 Hs1) as (Htr & Hf & Hini & _ & Hoe & _ & Hm);
    [lia | rewrite Hlen, Hc1; reflexivity | ].
  rewrite Hlen in Hm.
  repeat split; try assumption; apply Hm; assumption.
Qed.

Lemma writer_init_preamble_witness :
  let i0 := SDPHYCMDW.mkInputs true 64 false in
  let l := repeat i0 81 in
  SDPHYCMDW.fsm (SDPHYCMDW.run SDPHYCMDW.reset []) = SDPHYCMDW.IDLE
  /\ SDPHYCMDW.isinit (SDPHYCMDW.run SDPHYCMDW.reset []) = false
  /\ SDPHYCMDW.sink_valid i0 = true
  /\ length l = 81%nat
  /\ SDPHYCMDW.fsm
       (SDPHYCMDW.run
          (SDPHYCMDW.next (SDPHYCMDW.run SDPHYCMDW.reset []) i0) l)
     = SDPHYCMDW.IDLE
  /\ SDPHYCMDW.isinit
       (SDPHYCMDW.run
          (SDPHYCMDW.next (SDPHYCMDW.run SDPHYCMDW.reset []) i0) l)
     = true.
Proof.
  cbv zeta. do 4 (split; [reflexivity | ]).
  destruct (writer_init_preamble [] (SDPHYCMDW.mkInputs true 64 false)
              (repeat (SDPHYCMDW.mkInputs true 64 false) 81)
              eq_refl eq_refl eq_refl eq_refl)
    as (_ & _ & _ & _ & Hs & Hi & _).
  exact (conj Hs Hi).
Defined.

Lemma cmdw_init_once_step (r : SDPHYCMDW.regs) (i : SDPHYCMDW.inputs) :
  SDPHYCMDW.isinit r = true -> SDPHYCMDW.fsm r <> SDPHYCMDW.INIT ->
  SDPHYCMDW.isinit (SDPHYCMDW.next r i) = true
  /\ SDPHYCMDW.fsm (SDPHYCMDW.next r i) <> SDPHYCMDW.INIT.
Proof.
  destruct r as [st ini ci c w t oe o].
  cbn [SDPHYCMDW.fsm SDPHYCMDW.isinit]. intros -> Hne.
  destruct st; try (now contradiction Hne); cmdw_unfold;
    repeat (break_if; cmdw_unfold); split; congruence.
Qed.

Lemma cmdw_init_once_run (l : list SDPHYCMDW.inputs) :
  forall r,
    SDPHYCMDW.isinit r = true -> SDPHYCMDW.fsm r <> SDPHYCMDW.INIT ->
    SDPHYCMDW.isinit (SDPHYCMDW.run r l) = true
    /\ SDPHYCMDW.fsm (SDPHYCMDW.run r l) <> SDPHYCMDW.INIT.
Proof.
  induction l as [|i l IH]; intros r Hi Hs; [now split | ].
  cbn [SDPHYCMDW.run fold_left].
  destruct (cmdw_init_once_step r i Hi Hs). now apply IH.
Qed.

(** X11. Once [isinit] is set in a run from reset it stays set, and the
    writer never enters INIT again. *)
Theorem writer_initialises_once :
  forall (l0 l : list SDPHYCMDW.inputs),
    SDPHYCMDW.isinit (SDPHYCMDW.run SDPHYCMDW.reset l0) = true ->
    SDPHYCMDW.isinit (SDPHYCMDW.run (SDPHYCMDW.run SDPHYCMDW.reset l0) l)
    = true
    /\ SDPHYCMDW.fsm (SDPHYCMDW.run (SDPHYCMDW.run SDPHYCMDW.reset l0) l)
       <> SDPHYCMDW.INIT.
Proof.
  intros l0 l Hi.
  destruct (cmdw_facts_run l0 SDPHYCMDW.reset cmdw_facts_reset)
    as (Hinit & _).
  apply cmdw_init_once_run; [exact Hi | ].
  intros Hs. rewrite (Hinit Hs) in Hi. discriminate Hi.
Qed.

Lemma writer_initialises_once_witness :
  let i0 := SDPHYCMDW.mkInputs true 64 false in
  let l0 := i0 :: repeat i0 81 in
  SDPHYCMDW.isinit (SDPHYCMDW.run SDPHYCMDW.reset l0) = true
  /\ SDPHYCMDW.fsm (SDPHYCMDW.run (SDPHYCMDW.run SDPHYCMDW.reset l0) [i0])
     <> SDPHYCMDW.INIT.
Proof.
  cbv zeta.
  assert (H : SDPHYCMDW.isinit
                (SDPHYCMDW.run SDPHYCMDW.reset
                   (SDPHYCMDW.mkInputs true 64 false
                    :: repeat (SDPHYCMDW.mkInputs true 64 false) 81)) = true)
    by (vm_compute; reflexivity).
  split; [exact H | ].
  exact (proj2 (writer_initialises_once
                  (SDPHYCMDW.mkInputs true 64 false
                   :: repeat (SDPHYCMDW.mkInputs true 64 false) 81)
                  [SDPHYCMDW.mkInputs true 64 false] H)).
Defined.

Lemma cmdw_shift_out (ini : bool) (ci c t : Z) (oe : bool) (o : Z)
    (j1 j2 j3 j4 j5 j6 j7 : SDPHYCMDW.inputs) :
  SDPHYCMDW.trace (SDPHYCMDW.mkRegs SDPHYCMDW.CMD_WRITE ini ci c 1 t oe o)
    [j1; j2; j3; j4; j5; j6; j7]
  = map (fun b => SDPHYCMDW.mkOutputs true b true false)
      (map (Z.testbit t) [6; 5; 4; 3; 2; 1; 0])
  /\ SDPHYCMDW.run (SDPHYCMDW.mkRegs SDPHYCMDW.CMD_WRITE ini ci c 1 t oe o)
       [j1; j2; j3; j4; j5; j6; j7]
     = SDPHYCMDW.mkRegs SDPHYCMDW.CMD_WRITE ini ci c 0 t oe o.
Proof. split; reflexivity. Qed.

Lemma cmdw_byte_start (r : SDPHYCMDW.regs) (i : SDPHYCMDW.inputs) :
  SDPHYCMDW.fsm r = SDPHYCMDW.IDLE -> SDPHYCMDW.isinit r = true ->
  SDPHYCMDW.sink_valid i = true -> 0 <= SDPHYCMDW.sink_data i < 256 ->
  SDPHYCMDW.comb r i
  = SDPHYCMDW.mkOutputs true (Z.testbit (SDPHYCMDW.sink_data i) 7) true false
  /\ SDPHYCMDW.next r i
     = SDPHYCMDW.mkRegs SDPHYCMDW.CMD_WRITE true (SDPHYCMDW.cntinit r)
         (SDPHYCMDW.cnt r) 1 (SDPHYCMDW.sink_data i)
         (SDPHYCMDW.pads_data_oe r) (SDPHYCMDW.pads_data_o r).
Proof.
  intros Hs Hi Hv Hd. destruct r as [st ini ci c w t oe o].
  cbn [SDPHYCMDW.fsm SDPHYCMDW.isinit] in *. subst st ini.
  cmdw_unfold. rewrite Hv.
  rewrite (trunc_small 8 (SDPHYCMDW.sink_data i))
    by (change (2 ^ 8) with 256; lia).
  split; reflexivity.
Qed.

(** X12. An initialised writer in IDLE offered a byte that is not the last
    one of its unit: in that cycle and the seven after it the clock is
    pulsed with the command line at bits 7, 6, ..., 0 of the byte and the
    sink not ready, whatever the sink carries after the first cycle; in the
    ninth cycle the clock is not pulsed, the frame is taken and the writer
    returns to IDLE. *)
Theorem writer_shifts_byte_msb_first :
  forall (r : SDPHYCMDW.regs)
         (i0 i1 i2 i3 i4 i5 i6 i7 i8 : SDPHYCMDW.inputs),
    SDPHYCMDW.fsm r = SDPHYCMDW.IDLE ->
    SDPHYCMDW.isinit r = true ->
    SDPHYCMDW.sink_valid i0 = true ->
    0 <= SDPHYCMDW.sink_data i0 < 256 ->
    SDPHYCMDW.sink_last i8 = false ->
    let l := [i0; i1; i2; i3; i4; i5; i6; i7] in
    SDPHYCMDW.trace r l
    = map (fun b => SDPHYCMDW.mkOutputs true b true false)
        (bits_of_byte (SDPHYCMDW.sink_data i0))
    /\ SDPHYCMDW.line (SDPHYCMDW.trace r l)
       = bits_of_byte (SDPHYCMDW.sink_data i0)
    /\ SDPHYCMDW.comb (SDPHYCMDW.run r l) i8
       = SDPHYCMDW.mkOutputs false (Z.testbit (SDPHYCMDW.sink_data i0) 7)
           true true
    /\ SDPHYCMDW.fsm (SDPHYCMDW.next (SDPHYCMDW.run r l) i8)
       = SDPHYCMDW.IDLE.
Proof.
  intros r i0 i1 i2 i3 i4 i5 i6 i7 i8 Hs Hi Hv Hd Hl l.
  destruct (cmdw_byte_start r i0 Hs Hi Hv Hd) as (Hc & Hn).
  destruct (cmdw_shift_out true (SDPHYCMDW.cntinit r) (SDPHYCMDW.cnt r)
              (SDPHYCMDW.sink_data i0) (SDPHYCMDW.pads_data_oe r)
              (SDPHYCMDW.pads_data_o r) i1 i2 i3 i4 i5 i6 i7) as (Ht & Hr).
  assert (Htr : SDPHYCMDW.trace r l
                = map (fun b => SDPHYCMDW.mkOutputs true b true false)
                    (bits_of_byte (SDPHYCMDW.sink_data i0))).
  { subst l. cbn [SDPHYCMDW.trace]. rewrite Hc, Hn.
    cbn [SDPHYCMDW.trace] in Ht. rewrite Ht. reflexivity. }
  assert (Hrun : SDPHYCMDW.run r l
                 = SDPHYCMDW.mkRegs SDPHYCMDW.CMD_WRITE true
                     (SDPHYCMDW.cntinit r) (SDPHYCMDW.cnt r) 0
                     (SDPHYCMDW.sink_data i0) (SDPHYCMDW.pads_data_oe r)
                     (SDPHYCMDW.pads_data_o r)).
  { subst l. cbn [SDPHYCMDW.run fold_left]. rewrite Hn. exact Hr. }
  split; [exact Htr | ]. split; [rewrite Htr; reflexivity | ].
  rewrite Hrun. cmdw_unfold. cbn [Z.eqb]. rewrite Hl. split; reflexivity.
Qed.

Lemma writer_shifts_byte_msb_first_witness :
  let r := SDPHYCMDW.mkRegs SDPHYCMDW.IDLE true 0 0 0 0 false 15 in
  let i0 := SDPHYCMDW.mkInputs true 165 false in
  SDPHYCMDW.fsm r = SDPHYCMDW.IDLE
  /\ SDPHYCMDW.isinit r = true
  /\ SDPHYCMDW.sink_valid i0 = true
  /\ 0 <= SDPHYCMDW.sink_data i0 < 256
  /\ SDPHYCMDW.sink_last i0 = false
  /\ SDPHYCMDW.line (SDPHYCMDW.trace r [i0; i0; i0; i0; i0; i0; i0; i0])
     = bits_of_byte (SDPHYCMDW.sink_data i0).
Proof.
  cbv zeta.
  assert (Hd : 0 <= SDPHYCMDW.sink_data (SDPHYCMDW.mkInputs true 165 false)
               < 256) by (cbn; lia).
  do 3 (split; [reflexivity | ]). split; [exact Hd | ].
  split; [reflexivity | ].
  exact (proj1 (proj2
    (writer_shifts_byte_msb_first
       (SDPHYCMDW.mkRegs SDPHYCMDW.IDLE true 0 0 0 0 false 15)
       (SDPHYCMDW.mkInputs true 165 false) (SDPHYCMDW.mkInputs true 165 false)
       (SDPHYCMDW.mkInputs true 165 false) (SDPHYCMDW.mkInputs true 165 false)
       (SDPHYCMDW.mkInputs true 165 false) (SDPHYCMDW.mkInputs true 165 false)
       (SDPHYCMDW.mkInputs true 165 false) (SDPHYCMDW.mkInputs true 165 false)
       (SDPHYCMDW.mkInputs true 165 false)
       eq_refl eq_refl eq_refl Hd eq_refl))).
Defined.

(** X13. After the eight bits of a byte marked last, the writer pulses the
    clock in the ninth cycle with the command line still at bit 7 of the
    byte, then spends eight cycles in CMD_CLK8 with the line high: seven
    with the clock pulsed and one without, in which the frame is taken and
    the writer returns to IDLE with its counter at 0. *)
Theorem writer_last_byte_trailer :
  forall (l0 : list SDPHYCMDW.inputs)
         (i8 j1 j2 j3 j4 j5 j6 j7 j8 : SDPHYCMDW.inputs),
    SDPHYCMDW.fsm (SDPHYCMDW.run SDPHYCMDW.reset l0) = SDPHYCMDW.CMD_WRITE ->
    SDPHYCMDW.wrsel (SDPHYCMDW.run SDPHYCMDW.reset l0) = 0 ->
    SDPHYCMDW.sink_last i8 = true ->
    let r := SDPHYCMDW.run SDPHYCMDW.reset l0 in
    let l := [i8; j1; j2; j3; j4; j5; j6; j7; j8] in
    SDPHYCMDW.trace r l
    = SDPHYCMDW.mkOutputs true (Z.testbit (SDPHYCMDW.wrtmpdata r) 7) true false
      :: repeat (SDPHYCMDW.mkOutputs true true true false) 7
      ++ [SDPHYCMDW.mkOutputs false true true true]
    /\ SDPHYCMDW.fsm (SDPHYCMDW.run r l) = SDPHYCMDW.IDLE
    /\ SDPHYCMDW.cnt (SDPHYCMDW.run r l) = 0.
Proof.
  intros l0 i8 j1 j2 j3 j4 j5 j6 j7 j8 Hs Hw Hl r l.
  destruct (cmdw_facts_run l0 SDPHYCMDW.reset cmdw_facts_reset)
    as (_ & _ & Hc & _).
  fold r in Hs, Hw, Hc. rewrite Hs in Hc.
  destruct r as [st ini ci c w t oe o].
  cbn [SDPHYCMDW.fsm SDPHYCMDW.wrsel SDPHYCMDW.cnt SDPHYCMDW.wrtmpdata] in *.
  subst st w c l.
  assert (H1 : SDPHYCMDW.comb
                 (SDPHYCMDW.mkRegs SDPHYCMDW.CMD_WRITE ini ci 0 0 t oe o) i8
               = SDPHYCMDW.mkOutputs true (Z.testbit t 7) true false
               /\ SDPHYCMDW.next
                    (SDPHYCMDW.mkRegs SDPHYCMDW.CMD_WRITE ini ci 0 0 t oe o) i8
                  = SDPHYCMDW.mkRegs SDPHYCMDW.CMD_CLK8 ini ci 0 1 t oe o).
  { cmdw_unfold. cbn [Z.eqb]. rewrite Hl. split; reflexivity. }
  destruct H1 as (Hc1 & Hn1).
  cbn [SDPHYCMDW.trace SDPHYCMDW.run fold_left]. rewrite Hc1, Hn1.
  repeat split; reflexivity.
Qed.

Lemma writer_last_byte_trailer_witness :
  let i0 := SDPHYCMDW.mkInputs true 64 true in
  let l0 := i0 :: repeat i0 81 ++ repeat i0 8 in
  SDPHYCMDW.fsm (SDPHYCMDW.run SDPHYCMDW.reset l0) = SDPHYCMDW.CMD_WRITE
  /\ SDPHYCMDW.wrsel (SDPHYCMDW.run SDPHYCMDW.reset l0) = 0
  /\ SDPHYCMDW.sink_last i0 = true
  /\ SDPHYCMDW.fsm
       (SDPHYCMDW.run (SDPHYCMDW.run SDPHYCMDW.reset l0)
          [i0; i0; i0; i0; i0; i0; i0; i0; i0]) = SDPHYCMDW.IDLE.
Proof.
  cbv zeta.
  set (i0 := SDPHYCMDW.mkInputs true 64 true).
  assert (H1 : SDPHYCMDW.fsm
                 (SDPHYCMDW.run SDPHYCMDW.reset
                    (i0 :: repeat i0 81 ++ repeat i0 8))
               = SDPHYCMDW.CMD_WRITE) by (vm_compute; reflexivity).
  assert (H2 : SDPHYCMDW.wrsel
                 (SDPHYCMDW.run SDPHYCMDW.reset
                    (i0 :: repeat i0 81 ++ repeat i0 8)) = 0)
    by (vm_compute; reflexivity).
  split; [exact H1 | ]. split; [exact H2 | ]. split; [reflexivity | ].
  exact (proj1 (proj2
    (writer_last_byte_trailer (i0 :: repeat i0 81 ++ repeat i0 8)
       i0 i0 i0 i0 i0 i0 i0 i0 i0 H1 H2 eq_refl))).
Defined.

Lemma byte_of_bits_of_byte (d : Z) :
  0 <= d < 256 -> byte_of_bits (bits_of_byte d) = d.
Proof.
  intros Hd. unfold bits_of_byte. cbn [map]. rewrite eight_bits.
  apply Z.bits_inj'. intros n Hn.
  assert (Hcase : n = 0 \/ n = 1 \/ n = 2 \/ n = 3 \/ n = 4 \/ n = 5
                  \/ n = 6 \/ n = 7 \/ 8 <= n) by lia.
  destruct Hcase as [-> | [-> | [-> | [-> | [-> | [-> | [-> | [-> | H8]]]]]]]];
    try (repeat (rewrite testbit_cat by lia;
                 cbn [Z.eqb Z.sub Z.add Z.opp Z.pos_sub Pos.eqb
                      Pos.pred_double]);
         reflexivity).
  rewrite (high_bits_clear 8 d n) by (change (2 ^ 8) with 256; lia).
  apply (high_bits_clear 8); [lia | | lia].
  change (2 ^ 8) with 256.
  destruct (Z.testbit d 0), (Z.testbit d 1), (Z.testbit d 2),
    (Z.testbit d 3), (Z.testbit d 4), (Z.testbit d 5), (Z.testbit d 6),
    (Z.testbit d 7); cbn; lia.
Qed.

Lemma rfb_first_byte (r : SDPHYCMDRFB.regs)
    (y0 y1 y2 y3 y4 y5 y6 y7 b6 b5 b4 b3 b2 b1 b0 : bool) :
  SDPHYCMDRFB.fsm r = SDPHYCMDRFB.READSTART ->
  rfb_outputs r
    [ sample false y0; sample b6 y1; sample b5 y2; sample b4 y3;
      sample b3 y4; sample b2 y5; sample b1 y6; sample b0 y7 ]
  = [ (false, 0); (false, 0); (false, 0); (false, 0); (false, 0);
      (false, 0); (false, 0);
      (true, byte_of_bits [false; b6; b5; b4; b3; b2; b1; b0]) ]
  /\ SDPHYCMDRFB.run r
       [ sample false y0; sample b6 y1; sample b5 y2; sample b4 y3;
         sample b3 y4; sample b2 y5; sample b1 y6; sample b0 y7 ]
     = SDPHYCMDRFB.mkRegs SDPHYCMDRFB.READ 0
         (SDPHYCMDRFB.data
            (SDPHYCMDRFB.run r
               [ sample false y0; sample b6 y1; sample b5 y2; sample b4 y3;
                 sample b3 y4; sample b2 y5; sample b1 y6 ])).
Proof.
  intros Hs. destruct r as [st s x]. cbn [SDPHYCMDRFB.fsm] in Hs. subst st.
  rewrite <- (assemble_byte 0). split; reflexivity.
Qed.

(** X14. The bits the writer clocks out for a byte whose bit 7 is clear
    (a start bit), sampled one per cycle by an enabled sampler waiting in
    READSTART, are presented by the sampler as that same byte in the eighth
    cycle and as nothing before. *)
Theorem writer_byte_read_back_by_sampler :
  forall (rw : SDPHYCMDW.regs) (i0 i1 i2 i3 i4 i5 i6 i7 : SDPHYCMDW.inputs)
         (rs : SDPHYCMDRFB.regs) (rdy : bool),
    SDPHYCMDW.fsm rw = SDPHYCMDW.IDLE ->
    SDPHYCMDW.isinit rw = true ->
    SDPHYCMDW.sink_valid i0 = true ->
    0 <= SDPHYCMDW.sink_data i0 < 128 ->
    SDPHYCMDRFB.fsm rs = SDPHYCMDRFB.READSTART ->
    rfb_outputs rs
      (map (fun b => sample b rdy)
         (SDPHYCMDW.line
            (SDPHYCMDW.trace rw [i0; i1; i2; i3; i4; i5; i6; i7])))
    = repeat (false, 0) 7 ++ [(true, SDPHYCMDW.sink_data i0)].
Proof.
  intros rw i0 i1 i2 i3 i4 i5 i6 i7 rs rdy Hs Hi Hv Hd Hrs.
  destruct (cmdw_byte_start rw i0 Hs Hi Hv ltac:(lia)) as (Hc & Hn).
  destruct (cmdw_shift_out true (SDPHYCMDW.cntinit rw) (SDPHYCMDW.cnt rw)
              (SDPHYCMDW.sink_data i0) (SDPHYCMDW.pads_data_oe rw)
              (SDPHYCMDW.pads_data_o rw) i1 i2 i3 i4 i5 i6 i7) as (Ht & _).
  cbn [SDPHYCMDW.trace]. rewrite Hc, Hn.
  cbn [SDPHYCMDW.trace] in Ht. rewrite Ht.
  unfold SDPHYCMDW.line.
  cbn [map filter SDPHYCMDW.pads_clk SDPHYCMDW.pads_cmd_o].
  assert (H7 : Z.testbit (SDPHYCMDW.sink_data i0) 7 = false)
    by (apply (high_bits_clear 7); [lia | change (2 ^ 7) with 128; lia | lia]).
  rewrite H7.
  destruct (rfb_first_byte rs rdy rdy rdy rdy rdy rdy rdy rdy
              (Z.testbit (SDPHYCMDW.sink_data i0) 6)
              (Z.testbit (SDPHYCMDW.sink_data i0) 5)
              (Z.testbit (SDPHYCMDW.sink_data i0) 4)
              (Z.testbit (SDPHYCMDW.sink_data i0) 3)
              (Z.testbit (SDPHYCMDW.sink_data i0) 2)
              (Z.testbit (SDPHYCMDW.sink_data i0) 1)
              (Z.testbit (SDPHYCMDW.sink_data i0) 0) Hrs) as (Hout & _).
  pose proof (byte_of_bits_of_byte (SDPHYCMDW.sink_data i0) ltac:(lia))
    as Hb.
  unfold bits_of_byte in Hb. cbn [map] in Hb. rewrite H7 in Hb.
  rewrite Hout, Hb. reflexivity.
Qed.

Lemma writer_byte_read_back_by_sampler_witness :
  let rw := SDPHYCMDW.mkRegs SDPHYCMDW.IDLE true 0 0 0 0 false 15 in
  let i0 := SDPHYCMDW.mkInputs true 85 false in
  let rs := SDPHYCMDRFB.mkRegs SDPHYCMDRFB.READSTART 0 0 in
  SDPHYCMDW.fsm rw = SDPHYCMDW.IDLE
  /\ SDPHYCMDW.isinit rw = true
  /\ SDPHYCMDW.sink_valid i0 = true
  /\ 0 <= SDPHYCMDW.sink_data i0 < 128
  /\ SDPHYCMDRFB.fsm rs = SDPHYCMDRFB.READSTART
  /\ rfb_outputs rs
       (map (fun b => sample b true)
          (SDPHYCMDW.line
             (SDPHYCMDW.trace rw [i0; i0; i0; i0; i0; i0; i0; i0])))
     = repeat (false, 0) 7 ++ [(true, 85)].
Proof.
  cbv zeta.
  assert (Hd : 0 <= SDPHYCMDW.sink_data (SDPHYCMDW.mkInputs true 85 false)
               < 128) by (cbn; lia).
  do 3 (split; [reflexivity | ]). split; [exact Hd | ].
  split; [reflexivity | ].
  exact (writer_byte_read_back_by_sampler
           (SDPHYCMDW.mkRegs SDPHYCMDW.IDLE true 0 0 0 0 false 15)
           (SDPHYCMDW.mkInputs true 85 false) (SDPHYCMDW.mkInputs true 85 false)
           (SDPHYCMDW.mkInputs true 85 false) (SDPHYCMDW.mkInputs true 85 false)
           (SDPHYCMDW.mkInputs true 85 false) (SDPHYCMDW.mkInputs true 85 false)
           (SDPHYCMDW.mkInputs true 85 false) (SDPHYCMDW.mkInputs true 85 false)
           (SDPHYCMDRFB.mkRegs SDPHYCMDRFB.READSTART 0 0) true
           eq_refl eq_refl eq_refl Hd eq_refl).
Defined.

Lemma cmdr_facts_next (r : SDPHYCMDR.regs) (i : SDPHYCMDR.inputs) :
  cmdr_facts r -> cmdr_facts (SDPHYCMDR.next r i).
Proof.
  intros (Hc & Hrs & Hto & Hcr & Hct).
  destruct r as [st ct cr to c].
  cbn [SDPHYCMDR.fsm SDPHYCMDR.ctimeout SDPHYCMDR.cread SDPHYCMDR.ctoread
       SDPHYCMDR.cnt] in *.
  pose proof (trunc_range 32 (ct + 1) ltac:(lia)) as Tct.
  pose proof (trunc_range 8 (cr + 1) ltac:(lia)) as Tcr.
  pose proof (trunc_range 8 (SDPHYCMDR.sink_data i) ltac:(lia)) as Tto.
  change (2 ^ 8) with 256 in *.
  assert (T80 : trunc 8 0 = 0) by reflexivity.
  assert (T320 : trunc 32 0 = 0) by reflexivity.
  destruct st; unfold cmdr_facts; cmdr_unfold;
    repeat (break_if; cmdr_unfold); zify_conds; rewrite ?T80, ?T320;
    repeat split; intros; try lia; try congruence;
    try (rewrite trunc_small by (change (2 ^ 8) with 256; lia); lia);
    try (apply Hrs; reflexivity).
Qed.

Lemma cmdr_facts_run (l : list SDPHYCMDR.inputs) :
  forall r, cmdr_facts r -> cmdr_facts (SDPHYCMDR.run r l).
Proof.
  induction l as [|i l IH]; intros r Hr; [exact Hr | ].
  rewrite cmdr_run_cons. apply IH. now apply cmdr_facts_next.
Qed.

Lemma cmdr_facts_reset : cmdr_facts SDPHYCMDR.reset.
Proof. unfold cmdr_facts. cbn. repeat split; lia. Qed.

Lemma cmdr_during_cons (p : SDPHYCMDR.fsm_state -> bool)
    (r : SDPHYCMDR.regs) (i : SDPHYCMDR.inputs) l :
  cmdr_during p r (i :: l)
  = if p (SDPHYCMDR.fsm r)
    then ((r, i) :: fst (cmdr_during p (SDPHYCMDR.next r i) l),
          snd (cmdr_during p (SDPHYCMDR.next r i) l))
    else ([], r).
Proof.
  cbn [cmdr_during]. destruct (p (SDPHYCMDR.fsm r)); [ | reflexivity].
  destruct (cmdr_during p (SDPHYCMDR.next r i) l); reflexivity.
Qed.

Lemma cmdr_during_outside (p : SDPHYCMDR.fsm_state -> bool)
    (r : SDPHYCMDR.regs) l :
  p (SDPHYCMDR.fsm r) = false -> cmdr_during p r l = ([], r).
Proof. destruct l; cbn [cmdr_during]; [reflexivity | ]. now intros ->. Qed.

(** One cycle of CMD_READ. *)
Lemma cmdr_read_step (r : SDPHYCMDR.regs) (i : SDPHYCMDR.inputs) :
  SDPHYCMDR.fsm r = SDPHYCMDR.CMD_READ ->
  0 <= SDPHYCMDR.cread r < 255 \/ SDPHYCMDR.cread r = SDPHYCMDR.ctoread r ->
  cmdr_fired (r, i) = cmdr_transfer i
  /\ SDPHYCMDR.source_data (SDPHYCMDR.comb r i) = SDPHYCMDR.fifo_source_data i
  /\ SDPHYCMDR.source_last (SDPHYCMDR.comb r i)
     = (SDPHYCMDR.cread r =? SDPHYCMDR.ctoread r)
  /\ SDPHYCMDR.ctoread (SDPHYCMDR.next r i) = SDPHYCMDR.ctoread r
  /\ (if cmdr_transfer i
      then if SDPHYCMDR.cread r =? SDPHYCMDR.ctoread r
           then SDPHYCMDR.fsm (SDPHYCMDR.next r i)
                = (if SDPHYCMDR.sink_last i
                   then SDPHYCMDR.CMD_CLK8 else SDPHYCMDR.IDLE)
           else SDPHYCMDR.fsm (SDPHYCMDR.next r i) = SDPHYCMDR.CMD_READ
                /\ SDPHYCMDR.cread (SDPHYCMDR.next r i)
                   = SDPHYCMDR.cread r + 1
      else SDPHYCMDR.next r i = r).
Proof.
  intros Hs Hc. destruct r as [st ct cr to c].
  cbn [SDPHYCMDR.fsm SDPHYCMDR.cread SDPHYCMDR.ctoread] in *. subst st.
  unfold cmdr_fired, cmdr_transfer. cbn [fst snd]. cmdr_unfold.
  destruct (SDPHYCMDR.fifo_source_valid i), (SDPHYCMDR.source_ready i);
    cmdr_unfold; try (repeat split; reflexivity).
  destruct (Z.eqb_spec cr to) as [-> | Hne]; cmdr_unfold.
  - destruct (SDPHYCMDR.sink_last i); repeat split; reflexivity.
  - do 5 (split; [reflexivity | ]).
    apply trunc_small; [lia | change (2 ^ 8) with 256; lia].
Qed.

Lemma cmdr_bytes_cons (c : SDPHYCMDR.regs * SDPHYCMDR.inputs) tr :
  cmdr_bytes (c :: tr)
  = if cmdr_fired c
    then (SDPHYCMDR.source_data (SDPHYCMDR.comb (fst c) (snd c)),
          SDPHYCMDR.source_last (SDPHYCMDR.comb (fst c) (snd c)))
         :: cmdr_bytes tr
    else cmdr_bytes tr.
Proof. unfold cmdr_bytes. cbn [filter]. now destruct (cmdr_fired c). Qed.

(** The bytes forwarded by CMD_READ from byte counter [cread] on. *)
Lemma cmdr_read_loop (l : list SDPHYCMDR.inputs) :
  forall r,
    SDPHYCMDR.fsm r = SDPHYCMDR.CMD_READ ->
    0 <= SDPHYCMDR.cread r <= SDPHYCMDR.ctoread r ->
    SDPHYCMDR.ctoread r < 256 ->
    Z.of_nat (length (cmdr_bytes (fst (cmdr_during cmdr_in_read r l))))
    <= SDPHYCMDR.ctoread r + 1 - SDPHYCMDR.cread r
    /\ (SDPHYCMDR.fsm (snd (cmdr_during cmdr_in_read r l))
        <> SDPHYCMDR.CMD_READ ->
        (SDPHYCMDR.fsm (snd (cmdr_during cmdr_in_read r l)) = SDPHYCMDR.IDLE
         \/ SDPHYCMDR.fsm (snd (cmdr_during cmdr_in_read r l))
            = SDPHYCMDR.CMD_CLK8)
        /\ map fst (cmdr_bytes (fst (cmdr_during cmdr_in_read r l)))
           = firstn (Z.to_nat (SDPHYCMDR.ctoread r + 1 - SDPHYCMDR.cread r))
               (map SDPHYCMDR.fifo_source_data (filter cmdr_transfer l))
        /\ map snd (cmdr_bytes (fst (cmdr_during cmdr_in_read r l)))
           = repeat false
               (Z.to_nat (SDPHYCMDR.ctoread r - SDPHYCMDR.cread r))
             ++ [true])
    /\ (SDPHYCMDR.ctoread r + 1 - SDPHYCMDR.cread r
        <= Z.of_nat (length (filter cmdr_transfer l)) ->
        SDPHYCMDR.fsm (snd (cmdr_during cmdr_in_read r l))
        <> SDPHYCMDR.CMD_READ).
Proof.
  induction l as [|i l IH]; intros r Hs Hc Hn.
  - cbn [cmdr_during fst snd cmdr_bytes filter map length].
    split; [cbn; lia | ]. split; [congruence | cbn; lia].
  - rewrite cmdr_during_cons, Hs. cbn [cmdr_in_read fst snd].
    rewrite cmdr_bytes_cons. cbn [fst snd filter].
    destruct (cmdr_read_step r i Hs ltac:(lia))
      as (Hf & Hd & Hl & Hto & Hnext).
    rewrite Hf, Hd, Hl.
    destruct (cmdr_transfer i) eqn:Ht.
    + destruct (Z.eqb_spec (SDPHYCMDR.cread r) (SDPHYCMDR.ctoread r))
        as [Heq | Hne].
      * rewrite cmdr_during_outside
          by (rewrite Hnext; destruct (SDPHYCMDR.sink_last i); reflexivity).
        cbn [fst snd cmdr_bytes filter map length].
        replace (SDPHYCMDR.ctoread r + 1 - SDPHYCMDR.cread r) with 1 by lia.
        replace (SDPHYCMDR.ctoread r - SDPHYCMDR.cread r) with 0 by lia.
        split; [cbn; lia | ]. split.
        -- intros _. split.
           ++ rewrite Hnext. destruct (SDPHYCMDR.sink_last i); tauto.
           ++ split; reflexivity.
        -- intros _. rewrite Hnext.
           destruct (SDPHYCMDR.sink_last i); discriminate.
      * destruct Hnext as (Hs' & Hc').
        destruct (IH (SDPHYCMDR.next r i)) as (IH1 & IH2 & IH3);
          [exact Hs' | rewrite Hc', Hto; lia | rewrite Hto; lia | ].
        rewrite Hc', Hto in IH1, IH2, IH3.
        cbn [length map].
        replace (Z.to_nat (SDPHYCMDR.ctoread r + 1 - SDPHYCMDR.cread r))
          with (S (Z.to_nat (SDPHYCMDR.ctoread r + 1
                             - (SDPHYCMDR.cread r + 1)))) by lia.
        replace (Z.to_nat (SDPHYCMDR.ctoread r - SDPHYCMDR.cread r))
          with (S (Z.to_nat (SDPHYCMDR.ctoread r
                             - (SDPHYCMDR.cread r + 1)))) by lia.
        cbn [firstn repeat app].
        split; [lia | ]. split.
        -- intros Hout. destruct (IH2 Hout) as (Hx & Hfst & Hsnd).
           split; [exact Hx | ]. split; f_equal; assumption.
        -- intros Hcnt. apply IH3. lia.
    + rewrite Hnext.
      destruct (IH r Hs Hc Hn) as (IH1 & IH2 & IH3).
      split; [exact IH1 | ]. split; assumption.
Qed.

(** While the reader waits in CMD_READSTART, the request it latched (the
    byte counter and the number of bytes to read) is kept. *)
Lemma cmdr_wait_keeps_request (lw : list SDPHYCMDR.inputs) :
  forall r,
    (forall k, (k <= length lw)%nat ->
       SDPHYCMDR.fsm (SDPHYCMDR.run r (firstn k lw))
       = SDPHYCMDR.CMD_READSTART) ->
    SDPHYCMDR.fsm (SDPHYCMDR.run r lw) = SDPHYCMDR.CMD_READSTART
    /\ SDPHYCMDR.cread (SDPHYCMDR.run r lw) = SDPHYCMDR.cread r
    /\ SDPHYCMDR.ctoread (SDPHYCMDR.run r lw) = SDPHYCMDR.ctoread r.
Proof.
  induction lw as [|j lw IH]; intros r Hw.
  - split; [exact (Hw 0%nat (Nat.le_refl _)) | split; reflexivity].
  - pose proof (Hw 0%nat ltac:(cbn [length]; lia)) as Hs.
    cbn [firstn SDPHYCMDR.run fold_left] in Hs.
    destruct (IH (SDPHYCMDR.next r j)) as (Hf & Hc & Ht).
    { intros k Hk. apply (Hw (S k)). cbn [length]. lia. }
    cbn [SDPHYCMDR.run fold_left].
    change (fold_left SDPHYCMDR.next lw (SDPHYCMDR.next r j))
      with (SDPHYCMDR.run (SDPHYCMDR.next r j) lw).
    rewrite Hf, Hc, Ht. split; [reflexivity | ].
    destruct r as [st ct cr to c]. cbn [SDPHYCMDR.fsm] in Hs. subst st.
    cmdr_unfold. repeat (break_if; cmdr_unfold); split; reflexivity.
Qed.

(** X15. A request taken in IDLE asks for [n] + 1 bytes, [n] the 8-bit
    payload of the request.  When the first byte arrives after the reader
    has waited in CMD_READSTART, it enters CMD_READ with that count; it
    forwards at most [n] + 1 bytes; when it has left CMD_READ (to IDLE or
    to CMD_CLK8) it has forwarded exactly the first [n] + 1 bytes that
    moved from the FIFO, in order, with the last marker on the final one
    only; and it has left as soon as [n] + 1 bytes could move. *)
Theorem reader_forwards_requested_bytes :
  forall (r0 : SDPHYCMDR.regs) (q : SDPHYCMDR.inputs)
         (lw : list SDPHYCMDR.inputs) (i0 : SDPHYCMDR.inputs)
         (l : list SDPHYCMDR.inputs),
    SDPHYCMDR.fsm r0 = SDPHYCMDR.IDLE ->
    SDPHYCMDR.sink_valid q = true ->
    (forall k, (k <= length lw)%nat ->
       SDPHYCMDR.fsm (SDPHYCMDR.run (SDPHYCMDR.next r0 q) (firstn k lw))
       = SDPHYCMDR.CMD_READSTART) ->
    SDPHYCMDR.fifo_source_valid i0 = true ->
    let n := trunc 8 (SDPHYCMDR.sink_data q) in
    let r := SDPHYCMDR.next
               (SDPHYCMDR.run (SDPHYCMDR.next r0 q) lw) i0 in
    let tr := fst (cmdr_during cmdr_in_read r l) in
    let r' := snd (cmdr_during cmdr_in_read r l) in
    SDPHYCMDR.fsm r = SDPHYCMDR.CMD_READ
    /\ SDPHYCMDR.ctoread r = n
    /\ 0 <= n < 256
    /\ Z.of_nat (length (cmdr_bytes tr)) <= n + 1
    /\ (SDPHYCMDR.fsm r' <> SDPHYCMDR.CMD_READ ->
        (SDPHYCMDR.fsm r' = SDPHYCMDR.IDLE
         \/ SDPHYCMDR.fsm r' = SDPHYCMDR.CMD_CLK8)
        /\ map fst (cmdr_bytes tr)
           = firstn (Z.to_nat (n + 1))
               (map SDPHYCMDR.fifo_source_data (filter cmdr_transfer l))
        /\ map snd (cmdr_bytes tr) = repeat false (Z.to_nat n) ++ [true])
    /\ (n + 1 <= Z.of_nat (cmdr_transfers l) ->
        SDPHYCMDR.fsm r' <> SDPHYCMDR.CMD_READ).
Proof.
  intros r0 q lw i0 l Hs Hq Hw Hv n r tr r'.
  assert (Hn : 0 <= n < 256)
    by (subst n; apply (trunc_range 8); lia).
  assert (Hr1 : SDPHYCMDR.cread (SDPHYCMDR.next r0 q) = 0
                /\ SDPHYCMDR.ctoread (SDPHYCMDR.next r0 q) = n).
  { destruct r0 as [st ct cr to c]. cbn [SDPHYCMDR.fsm] in Hs. subst st.
    cmdr_unfold. rewrite Hq. split; reflexivity. }
  destruct Hr1 as (Hc1 & Ht1).
  destruct (cmdr_wait_keeps_request lw (SDPHYCMDR.next r0 q) Hw)
    as (Hfw & Hcw & Htw).
  rewrite Hc1 in Hcw. rewrite Ht1 in Htw.
  assert (Hr : SDPHYCMDR.fsm r = SDPHYCMDR.CMD_READ
               /\ SDPHYCMDR.cread r = 0 /\ SDPHYCMDR.ctoread r = n).
  { subst r.
    destruct (SDPHYCMDR.run (SDPHYCMDR.next r0 q) lw) as [st ct cr to c].
    cbn [SDPHYCMDR.fsm SDPHYCMDR.cread SDPHYCMDR.ctoread] in *.
    subst st cr to. cmdr_unfold. rewrite Hv. repeat split. }
  destruct Hr as (Hsr & Hc0 & Hto).
  destruct (cmdr_read_loop l r Hsr) as (H1 & H2 & H3);
    [rewrite Hc0, Hto; lia | rewrite Hto; lia | ].
  fold tr r' in H1, H2, H3. rewrite Hc0, Hto in H1, H2, H3.
  repeat rewrite Z.sub_0_r in H1. repeat rewrite Z.sub_0_r in H2.
  repeat rewrite Z.sub_0_r in H3.
  split; [exact Hsr | ]. split; [exact Hto | ]. split; [exact Hn | ].
  split; [exact H1 | ]. split; [exact H2 | exact H3].
Qed.

Lemma reader_forwards_requested_bytes_witness :
  let q := SDPHYCMDR.mkInputs true 1 false true false 0 100 in
  let b1 := SDPHYCMDR.mkInputs true 1 false true true 17 100 in
  let b2 := SDPHYCMDR.mkInputs true 1 false true true 34 100 in
  let r := SDPHYCMDR.next
             (SDPHYCMDR.run (SDPHYCMDR.next SDPHYCMDR.reset q) [q; q]) b1 in
  SDPHYCMDR.fsm SDPHYCMDR.reset = SDPHYCMDR.IDLE
  /\ SDPHYCMDR.sink_valid q = true
  /\ (forall k, (k <= length [q; q])%nat ->
        SDPHYCMDR.fsm
          (SDPHYCMDR.run (SDPHYCMDR.next SDPHYCMDR.reset q) (firstn k [q; q]))
        = SDPHYCMDR.CMD_READSTART)
  /\ SDPHYCMDR.fifo_source_valid b1 = true
  /\ SDPHYCMDR.fsm r = SDPHYCMDR.CMD_READ
  /\ SDPHYCMDR.ctoread r = 1
  /\ map fst (cmdr_bytes (fst (cmdr_during cmdr_in_read r [b1; q; b2; b2])))
     = [17; 34].
Proof.
  cbv zeta.
  set (q := SDPHYCMDR.mkInputs true 1 false true false 0 100).
  set (b1 := SDPHYCMDR.mkInputs true 1 false true true 17 100).
  set (b2 := SDPHYCMDR.mkInputs true 1 false true true 34 100).
  assert (Hw : forall k, (k <= length [q; q])%nat ->
             SDPHYCMDR.fsm
               (SDPHYCMDR.run (SDPHYCMDR.next SDPHYCMDR.reset q)
                  (firstn k [q; q]))
             = SDPHYCMDR.CMD_READSTART).
  { intros k _. destruct k as [|[|[|k]]]; reflexivity. }
  assert (Hleft : SDPHYCMDR.fsm
            (snd (cmdr_during cmdr_in_read
                    (SDPHYCMDR.next
                       (SDPHYCMDR.run (SDPHYCMDR.next SDPHYCMDR.reset q)
                          [q; q]) b1)
                    [b1; q; b2; b2])) <> SDPHYCMDR.CMD_READ)
    by (vm_compute; discriminate).
  do 2 (split; [reflexivity | ]). split; [exact Hw | ].
  split; [reflexivity | ].
  destruct (reader_forwards_requested_bytes SDPHYCMDR.reset q [q; q] b1
              [b1; q; b2; b2] eq_refl eq_refl Hw eq_refl)
    as (Hs & Hto & _ & _ & Hout & _).
  split; [exact Hs | ]. split; [exact Hto | ].
  exact (proj1 (proj2 (Hout Hleft))).
Defined.

(** X16. CMD_CLK8 of the reader, entered in a run from reset, lasts eight
    cycles with the command line driven high: seven with the clock pulsed
    and the request not taken, and one without a pulse in which the
    request is taken; the reader is then in IDLE with its counter at 0. *)
Theorem reader_trailer_clocks :
  forall (l0 : list SDPHYCMDR.inputs)
         (i0 j1 j2 j3 j4 j5 j6 j7 j8 : SDPHYCMDR.inputs),
    SDPHYCMDR.fsm (SDPHYCMDR.run SDPHYCMDR.reset l0) <> SDPHYCMDR.CMD_CLK8 ->
    SDPHYCMDR.fsm (SDPHYCMDR.next (SDPHYCMDR.run SDPHYCMDR.reset l0) i0)
    = SDPHYCMDR.CMD_CLK8 ->
    let r := SDPHYCMDR.next (SDPHYCMDR.run SDPHYCMDR.reset l0) i0 in
    let l := [j1; j2; j3; j4; j5; j6; j7; j8] in
    cmdr_outputs r l
    = repeat (SDPHYCMDR.mkOutputs false false 0 false 0 false false
                true true true) 7
      ++ [SDPHYCMDR.mkOutputs false false 0 false 0 true false
            true true false]
    /\ SDPHYCMDR.fsm (SDPHYCMDR.run r l) = SDPHYCMDR.IDLE
    /\ SDPHYCMDR.cnt (SDPHYCMDR.run r l) = 0.
Proof.
  intros l0 i0 j1 j2 j3 j4 j5 j6 j7 j8 Hne Hs r l.
  destruct (cmdr_facts_run l0 SDPHYCMDR.reset cmdr_facts_reset) as (Hc & _).
  assert (Hr : SDPHYCMDR.cnt r = 0).
  { subst r. destruct (SDPHYCMDR.run SDPHYCMDR.reset l0) as [st ct cr to c].
    cbn [SDPHYCMDR.fsm SDPHYCMDR.cnt] in *.
    destruct st; try (now contradiction Hne); subst c; revert Hs;
      cmdr_unfold; repeat (break_if; cmdr_unfold); intros; try discriminate;
      reflexivity. }
  fold r in Hs. destruct r as [st ct cr to c].
  cbn [SDPHYCMDR.fsm SDPHYCMDR.cnt] in *. subst st c l.
  repeat split; reflexivity.
Qed.

Lemma reader_trailer_clocks_witness :
  let q := SDPHYCMDR.mkInputs true 0 true true true 9 100 in
  SDPHYCMDR.fsm (SDPHYCMDR.run SDPHYCMDR.reset [q; q]) <> SDPHYCMDR.CMD_CLK8
  /\ SDPHYCMDR.fsm (SDPHYCMDR.next (SDPHYCMDR.run SDPHYCMDR.reset [q; q]) q)
     = SDPHYCMDR.CMD_CLK8
  /\ SDPHYCMDR.fsm
       (SDPHYCMDR.run
          (SDPHYCMDR.next (SDPHYCMDR.run SDPHYCMDR.reset [q; q]) q)
          [q; q; q; q; q; q; q; q]) = SDPHYCMDR.IDLE.
Proof.
  cbv zeta.
  set (q := SDPHYCMDR.mkInputs true 0 true true true 9 100).
  assert (H1 : SDPHYCMDR.fsm (SDPHYCMDR.run SDPHYCMDR.reset [q; q])
               <> SDPHYCMDR.CMD_CLK8) by discriminate.
  assert (H2 : SDPHYCMDR.fsm
                 (SDPHYCMDR.next (SDPHYCMDR.run SDPHYCMDR.reset [q; q]) q)
               = SDPHYCMDR.CMD_CLK8) by reflexivity.
  split; [exact H1 | ]. split; [exact H2 | ].
  exact (proj1 (proj2
    (reader_trailer_clocks [q; q] q q q q q q q q q H1 H2))).
Defined.

Lemma slice_set_slice_same (x lo hi d : Z) :
  0 <= lo -> lo <= hi ->
  slice (set_slice x lo hi d) lo hi = trunc (hi - lo) d.
Proof.
  intros Hlo Hhi. apply Z.bits_inj'. intros n Hn.
  rewrite slice_spec, trunc_spec by lia.
  destruct (Z.ltb_spec n (hi - lo)) as [Hlt | Hge]; cbn [andb].
  - rewrite set_slice_spec by lia.
    replace ((lo <=? n + lo) && (n + lo <? hi)) with true
      by (symmetry; apply andb_true_intro; split;
          [apply Z.leb_le | apply Z.ltb_lt]; lia).
    rewrite andb_true_r. f_equal. lia.
  - now rewrite andb_false_r.
Qed.

Lemma slice_set_slice_other (x lo hi d lo' hi' : Z) :
  0 <= lo -> lo <= hi -> 0 <= lo' -> lo' <= hi' ->
  hi' <= lo \/ hi <= lo' ->
  slice (set_slice x lo hi d) lo' hi' = slice x lo' hi'.
Proof.
  intros Hlo Hhi Hlo' Hhi' Hdis. apply Z.bits_inj'. intros n Hn.
  rewrite !slice_spec by lia.
  destruct (Z.ltb_spec n (hi' - lo')) as [Hlt | Hge]; cbn [andb];
    [ | reflexivity].
  rewrite set_slice_spec by lia.
  replace ((lo <=? n + lo') && (n + lo' <? hi)) with false; [reflexivity | ].
  symmetry. apply andb_false_iff.
  destruct Hdis; [left; apply Z.leb_gt | right; apply Z.ltb_ge]; lia.
Qed.

Lemma set_slice_range (w x lo hi d : Z) :
  0 <= lo -> lo <= hi -> hi <= w -> 0 <= x < 2 ^ w ->
  0 <= set_slice x lo hi d < 2 ^ w.
Proof.
  intros Hlo Hhi Hw Hx.
  assert (Hnn : 0 <= set_slice x lo hi d).
  { unfold set_slice, trunc. apply Z.lor_nonneg. split.
    - apply Z.land_nonneg. left. lia.
    - apply Z.shiftl_nonneg. apply Z.land_nonneg. right.
      rewrite Z.ones_equiv.
      pose proof (Z.pow_pos_nonneg 2 (hi - lo) ltac:(lia) ltac:(lia)). lia. }
  split; [exact Hnn | ].
  destruct (Z.eq_dec (set_slice x lo hi d) 0) as [-> | Hne].
  - apply Z.pow_pos_nonneg; lia.
  - apply Z.log2_lt_pow2; [lia | ].
    apply Z.nle_gt. intros Hle.
    pose proof (Z.bit_log2 (set_slice x lo hi d) ltac:(lia)) as Hbit.
    rewrite set_slice_spec in Hbit by (try lia; apply Z.log2_nonneg).
    assert (Hlog : hi <= Z.log2 (set_slice x lo hi d)) by lia.
    replace (Z.log2 (set_slice x lo hi d) <? hi) with false in Hbit
      by (symmetry; apply Z.ltb_ge; lia).
    rewrite andb_false_r in Hbit.
    rewrite (high_bits_clear w x) in Hbit by lia. discriminate Hbit.
Qed.

Ltac cfg_consts :=
  unfold SDCARD_STREAM_CFG_TIMEOUT_DATA_HH, SDCARD_STREAM_CFG_TIMEOUT_CMD_HH,
    SDCARD_STREAM_CFG_BLKSIZE_H, SDCARD_STREAM_CFG_VOLTAGE,
    SDCARD_STREAM_XFER in *.

Ltac cond_cases :=
  repeat match goal with
         | |- context [?a <=? ?b] => destruct (Z.leb_spec a b)
         | |- context [?a <? ?b] => destruct (Z.ltb_spec a b)
         | |- context [?a =? ?b] => destruct (Z.eqb_spec a b)
         end;
  cbn [andb orb negb].

Lemma cfgcases_data_timeout (k d : Z) (r : SDPHYCFG.regs) :
  0 <= k <= 3 ->
  SDPHYCFG.cfgcases (SDCARD_STREAM_CFG_TIMEOUT_DATA_HH + k) d r
  = SDPHYCFG.mkRegs
      (set_slice (SDPHYCFG.cfgdtimeout r) (24 - 8 * k) (32 - 8 * k) d)
      (SDPHYCFG.cfgctimeout r) (SDPHYCFG.cfgblksize r)
      (SDPHYCFG.cfgvoltage r).
Proof.
  intros Hk. assert (H : k = 0 \/ k = 1 \/ k = 2 \/ k = 3) by lia.
  destruct H as [-> | [-> | [-> | ->]]]; reflexivity.
Qed.

Lemma cfgcases_cmd_timeout (k d : Z) (r : SDPHYCFG.regs) :
  0 <= k <= 3 ->
  SDPHYCFG.cfgcases (SDCARD_STREAM_CFG_TIMEOUT_CMD_HH + k) d r
  = SDPHYCFG.mkRegs (SDPHYCFG.cfgdtimeout r)
      (set_slice (SDPHYCFG.cfgctimeout r) (24 - 8 * k) (32 - 8 * k) d)
      (SDPHYCFG.cfgblksize r) (SDPHYCFG.cfgvoltage r).
Proof.
  intros Hk. assert (H : k = 0 \/ k = 1 \/ k = 2 \/ k = 3) by lia.
  destruct H as [-> | [-> | [-> | ->]]]; reflexivity.
Qed.

Lemma cfgcases_blksize (k d : Z) (r : SDPHYCFG.regs) :
  0 <= k <= 1 ->
  SDPHYCFG.cfgcases (SDCARD_STREAM_CFG_BLKSIZE_H + k) d r
  = SDPHYCFG.mkRegs (SDPHYCFG.cfgdtimeout r) (SDPHYCFG.cfgctimeout r)
      (set_slice (SDPHYCFG.cfgblksize r) (8 - 8 * k) (16 - 8 * k) d)
      (SDPHYCFG.cfgvoltage r).
Proof.
  intros Hk. assert (H : k = 0 \/ k = 1) by lia.
  destruct H as [-> | ->]; reflexivity.
Qed.

Lemma byte_after_write (x d k j w : Z) :
  0 <= k -> 0 <= j -> 8 * k <= w -> 8 * j <= w ->
  slice (set_slice x (w - 8 * k) (w + 8 - 8 * k) d) (w - 8 * j) (w + 8 - 8 * j)
  = if j =? k then trunc 8 d else slice x (w - 8 * j) (w + 8 - 8 * j).
Proof.
  intros Hk Hj Hkw Hjw. destruct (Z.eqb_spec j k) as [-> | Hne].
  - rewrite slice_set_slice_same by lia. f_equal. lia.
  - apply slice_set_slice_other; lia.
Qed.

(** X17. A valid frame whose mode selects byte [k] of the data timeout,
    of the command timeout or of the block size replaces that byte of the
    latch by the low 8 bits of the payload and keeps the other bytes of the
    field and the other three fields. *)
Theorem latch_writes_one_byte :
  forall (r : SDPHYCFG.regs) (i : SDPHYCFG.inputs) (k j : Z),
    SDPHYCFG.sink_valid i = true ->
    0 <= k -> 0 <= j ->
    (k <= 3 -> j <= 3 ->
     SDPHYCFG.mode i = SDCARD_STREAM_CFG_TIMEOUT_DATA_HH + k ->
     slice (SDPHYCFG.cfgdtimeout (SDPHYCFG.next r i)) (24 - 8 * j) (32 - 8 * j)
     = (if j =? k then trunc 8 (SDPHYCFG.sink_data i)
        else slice (SDPHYCFG.cfgdtimeout r) (24 - 8 * j) (32 - 8 * j))
     /\ SDPHYCFG.cfgctimeout (SDPHYCFG.next r i) = SDPHYCFG.cfgctimeout r
     /\ SDPHYCFG.cfgblksize (SDPHYCFG.next r i) = SDPHYCFG.cfgblksize r
     /\ SDPHYCFG.cfgvoltage (SDPHYCFG.next r i) = SDPHYCFG.cfgvoltage r)
    /\ (k <= 3 -> j <= 3 ->
        SDPHYCFG.mode i = SDCARD_STREAM_CFG_TIMEOUT_CMD_HH + k ->
        slice (SDPHYCFG.cfgctimeout (SDPHYCFG.next r i))
          (24 - 8 * j) (32 - 8 * j)
        = (if j =? k then trunc 8 (SDPHYCFG.sink_data i)
           else slice (SDPHYCFG.cfgctimeout r) (24 - 8 * j) (32 - 8 * j))
        /\ SDPHYCFG.cfgdtimeout (SDPHYCFG.next r i) = SDPHYCFG.cfgdtimeout r
        /\ SDPHYCFG.cfgblksize (SDPHYCFG.next r i) = SDPHYCFG.cfgblksize r
        /\ SDPHYCFG.cfgvoltage (SDPHYCFG.next r i) = SDPHYCFG.cfgvoltage r)
    /\ (k <= 1 -> j <= 1 ->
        SDPHYCFG.mode i = SDCARD_STREAM_CFG_BLKSIZE_H + k ->
        slice (SDPHYCFG.cfgblksize (SDPHYCFG.next r i))
          (8 - 8 * j) (16 - 8 * j)
        = (if j =? k then trunc 8 (SDPHYCFG.sink_data i)
           else slice (SDPHYCFG.cfgblksize r) (8 - 8 * j) (16 - 8 * j))
        /\ SDPHYCFG.cfgdtimeout (SDPHYCFG.next r i) = SDPHYCFG.cfgdtimeout r
        /\ SDPHYCFG.cfgctimeout (SDPHYCFG.next r i) = SDPHYCFG.cfgctimeout r
        /\ SDPHYCFG.cfgvoltage (SDPHYCFG.next r i) = SDPHYCFG.cfgvoltage r).
Proof.
  intros r i k j Hv Hk Hj. unfold SDPHYCFG.next. rewrite Hv.
  split; [ | split]; intros Hk' Hj' Hm; rewrite Hm.
  - rewrite cfgcases_data_timeout by lia. cbn [SDPHYCFG.cfgdtimeout
      SDPHYCFG.cfgctimeout SDPHYCFG.cfgblksize SDPHYCFG.cfgvoltage].
    split; [ | repeat split].
    replace (32 - 8 * k) with (24 + 8 - 8 * k) by lia.
    replace (32 - 8 * j) with (24 + 8 - 8 * j) by lia.
    apply byte_after_write; lia.
  - rewrite cfgcases_cmd_timeout by lia. cbn [SDPHYCFG.cfgdtimeout
      SDPHYCFG.cfgctimeout SDPHYCFG.cfgblksize SDPHYCFG.cfgvoltage].
    split; [ | repeat split].
    replace (32 - 8 * k) with (24 + 8 - 8 * k) by lia.
    replace (32 - 8 * j) with (24 + 8 - 8 * j) by lia.
    apply byte_after_write; lia.
  - rewrite cfgcases_blksize by lia. cbn [SDPHYCFG.cfgdtimeout
      SDPHYCFG.cfgctimeout SDPHYCFG.cfgblksize SDPHYCFG.cfgvoltage].
    split; [ | repeat split].
    replace (16 - 8 * k) with (8 + 8 - 8 * k) by lia.
    replace (16 - 8 * j) with (8 + 8 - 8 * j) by lia.
    apply byte_after_write; lia.
Qed.

Lemma latch_writes_one_byte_witness :
  let r := SDPHYCFG.mkRegs 287454020 0 512 false in
  let i := SDPHYCFG.mkInputs true 171 24 in
  SDPHYCFG.sink_valid i = true
  /\ 0 <= 1
  /\ SDPHYCFG.mode i = SDCARD_STREAM_CFG_TIMEOUT_DATA_HH + 1
  /\ slice (SDPHYCFG.cfgdtimeout (SDPHYCFG.next r i)) 16 24 = 171
  /\ slice (SDPHYCFG.cfgdtimeout (SDPHYCFG.next r i)) 24 32 = 17.
Proof.
  cbv zeta.
  assert (H0 : 0 <= 0) by lia.
  assert (H1 : 0 <= 1) by lia.
  assert (H3 : 1 <= 3) by lia.
  assert (H3' : 0 <= 3) by lia.
  do 1 (split; [reflexivity | ]). split; [exact H1 | ].
  split; [reflexivity | ].
  split.
  - exact (proj1 (proj1
      (latch_writes_one_byte (SDPHYCFG.mkRegs 287454020 0 512 false)
         (SDPHYCFG.mkInputs true 171 24) 1 1 eq_refl H1 H1)
      H3 H3 eq_refl)).
  - exact (proj1 (proj1
      (latch_writes_one_byte (SDPHYCFG.mkRegs 287454020 0 512 false)
         (SDPHYCFG.mkInputs true 171 24) 1 0 eq_refl H1 H0)
      H3 H3' eq_refl)).
Defined.

(** X18. The latch keeps the widths of its registers over every cycle, and
    a cycle without a valid frame, with mode XFER, or with a mode above
    CFG_VOLTAGE leaves all four fields unchanged. *)
Theorem latch_keeps_widths_and_ignores_other_frames :
  forall (r : SDPHYCFG.regs) (i : SDPHYCFG.inputs),
    SDPHYCFG.wf r ->
    SDPHYCFG.wf (SDPHYCFG.next r i)
    /\ (SDPHYCFG.sink_valid i = false
        \/ SDPHYCFG.mode i = SDCARD_STREAM_XFER
        \/ SDCARD_STREAM_CFG_VOLTAGE < SDPHYCFG.mode i ->
        SDPHYCFG.next r i = r).
Proof.
  intros r i (Hd & Hc & Hb). unfold SDPHYCFG.next, SDPHYCFG.cfgcases.
  cfg_consts. split.
  - destruct (SDPHYCFG.sink_valid i);
      [ | exact (conj Hd (conj Hc Hb))].
    set (m := SDPHYCFG.mode i). unfold SDPHYCFG.wf.
    cond_cases;
      cbn [SDPHYCFG.cfgdtimeout SDPHYCFG.cfgctimeout SDPHYCFG.cfgblksize];
      repeat split; try lia;
      try (apply (set_slice_range 32); lia);
      try (apply (set_slice_range 16); lia).
  - intros H. destruct (SDPHYCFG.sink_valid i) eqn:Hv; [ | reflexivity].
    destruct H as [H | [H | H]]; [discriminate H | | ];
      cond_cases; try reflexivity; lia.
Qed.

Lemma latch_keeps_widths_and_ignores_other_frames_witness :
  let i := SDPHYCFG.mkInputs true 171 48 in
  SDPHYCFG.wf SDPHYCFG.reset
  /\ SDPHYCFG.wf (SDPHYCFG.next SDPHYCFG.reset i)
  /\ SDPHYCFG.next SDPHYCFG.reset i = SDPHYCFG.reset.
Proof.
  cbv zeta.
  assert (H : SDPHYCFG.wf SDPHYCFG.reset) by (repeat split; cbn; lia).
  assert (Hm : SDPHYCFG.sink_valid (SDPHYCFG.mkInputs true 171 48) = false
               \/ SDPHYCFG.mode (SDPHYCFG.mkInputs true 171 48)
                  = SDCARD_STREAM_XFER
               \/ SDCARD_STREAM_CFG_VOLTAGE
                  < SDPHYCFG.mode (SDPHYCFG.mkInputs true 171 48))
    by (right; right; reflexivity).
  split; [exact H | ].
  destruct (latch_keeps_widths_and_ignores_other_frames SDPHYCFG.reset
              (SDPHYCFG.mkInputs true 171 48) H) as (Hw & Hk).
  exact (conj Hw (Hk Hm)).
Defined.

(** X19. In every state reached from reset, a valid source frame of the
    orchestrator is dispatched by the framer according to the state that
    sends it: the four CFG states to the configuration latch, SEND_CMD to
    the command writer, RECV_RESP to the command reader; the frames of
    RECV_DATA and SEND_DATA (data channel) are connected to no submodule. *)
Theorem orchestrator_frames_dispatched :
  forall (l0 : list inputs) (i : inputs),
    source_valid (comb (run reset l0) i) = true ->
    SDPHY.connect true (source_ctrl (comb (run reset l0) i))
    = match fsm (run reset l0) with
      | CFG_TIMEOUT_DATA | CFG_TIMEOUT_CMD | CFG_BLKSIZE | CFG_VOLTAGE =>
          SDPHY.TO_CFG
      | SEND_CMD => SDPHY.TO_CMDW
      | RECV_RESP => SDPHY.TO_CMDR
      | IDLE | RECV_DATA | SEND_DATA => SDPHY.TO_NONE
      end.
Proof.
  intros l0 i Hv.
  destruct (ctrl_selectors_run l0 reset ctrl_selectors_reset) as (_ & Hp & _).
  destruct (run reset l0) as [st ? ? ? ? p ? ? ? ? ? ? ? ?].
  cbn [fsm pos] in *.
  destruct st; try discriminate Hv; try reflexivity.
  - assert (H : p = 0 \/ p = 1 \/ p = 2 \/ p = 3) by lia.
    destruct H as [-> | [-> | [-> | ->]]]; reflexivity.
  - assert (H : p = 0 \/ p = 1 \/ p = 2 \/ p = 3) by lia.
    destruct H as [-> | [-> | [-> | ->]]]; reflexivity.
  - assert (H : p = 0 \/ p = 1) by lia.
    destruct H as [-> | ->]; reflexivity.
Qed.

Lemma orchestrator_frames_dispatched_witness :
  let l0 := [host_datatimeout 5 true low] in
  source_valid (comb (run reset l0) low) = true
  /\ SDPHY.connect true (source_ctrl (comb (run reset l0) low))
     = SDPHY.TO_CFG.
Proof.
  cbv zeta. split; [reflexivity | ].
  exact (orchestrator_frames_dispatched [host_datatimeout 5 true low] low
           eq_refl).
Defined.

(** X20. In every state reached from reset the command byte selector is
    at most 5 and is 0 outside SEND_CMD, the configuration byte selector
    is within the case table of its state, the status registers keep
    their widths, the block counter reads 0 outside the two data states
    and [datadone] reads 0 from a taken command to the end of its data
    phase. *)
Theorem orchestrator_selectors_stay_in_range :
  forall (l : list inputs),
    ctrl_selectors (run reset l) /\ reachable_facts (run reset l).
Proof.
  intros l. split.
  - apply ctrl_selectors_run, ctrl_selectors_reset.
  - apply reachable_facts_run, reachable_facts_reset.
Qed.

(** X21. In every state reached from reset the counters of the command
    writer and of the command reader are 0 outside their states and
    bounded inside (80 for the preamble, 7 for the trailers), the byte
    counter of the reader is 0 while it waits for the first byte, and the
    registers keep their widths. *)
Theorem writer_and_reader_counters_bounded :
  (forall l, SDPHYCMDW.reachable_facts (SDPHYCMDW.run SDPHYCMDW.reset l))
  /\ (forall l, cmdr_facts (SDPHYCMDR.run SDPHYCMDR.reset l)).
Proof.
  split; intros l.
  - apply cmdw_facts_run, cmdw_facts_reset.
  - apply cmdr_facts_run, cmdr_facts_reset.
Qed.
